(** * frappe_vue_ssr: a shallow embedding of the Vue SSR page renderer

  The development follows [frappe_vue_ssr/vue_renderer/vue_renderer.py]
  and [frappe_vue_ssr/www/frontend.py].  Python strings are byte strings
  ([string]), Python integers are [Z], the host framework and the
  operating system (installed applications, file system, subprocesses,
  clock) are a record of collaborators, and the effects of the code
  (logging, the clock, raised exceptions) are threaded through a small
  state-and-exception monad. *)

From Stdlib Require Import ZArith String Ascii List Lia.
From stdpp Require Import base gmap strings list pretty.

Set Warnings "-register-all".
Set Default Proof Using "Type".

(** ** Python string operations used by the renderer *)
Module PyString.

(** The double quote character, as a one-character string. *)
Definition dq : string := String (ascii_of_nat 34) EmptyString.

Definition is_empty (s : string) : bool :=
  match s with EmptyString => true | String _ _ => false end.

(** [s.startswith(p)] *)
Fixpoint startswith (s p : string) {struct p} : bool :=
  match p with
  | EmptyString => true
  | String a p' =>
      match s with
      | EmptyString => false
      | String b s' => bool_decide (a = b) && startswith s' p'
      end
  end.

(** [s.endswith('/')] *)
Fixpoint ends_with_slash (s : string) : bool :=
  match s with
  | EmptyString => false
  | String c EmptyString => bool_decide (c = "/"%char)
  | String _ s' => ends_with_slash s'
  end.

(** ASCII white space as [str.strip] and [int] see it: TAB..CR,
    FS..US and the space. *)
Definition is_space (c : ascii) : bool :=
  let n := nat_of_ascii c in
  ((9 <=? n) && (n <=? 13)) || ((28 <=? n) && (n <=? 32)).

Fixpoint lstrip (s : string) : string :=
  match s with
  | EmptyString => EmptyString
  | String c s' => if is_space c then lstrip s' else s
  end.

Fixpoint rstrip (s : string) : string :=
  match s with
  | EmptyString => EmptyString
  | String c s' =>
      let r := rstrip s' in
      if is_space c && is_empty r then EmptyString else String c r
  end.

(** [s.strip()] *)
Definition strip (s : string) : string := rstrip (lstrip s).

(** [s.split(sep)[0]]: the text before the first separator. *)
Fixpoint split_head (sep : ascii) (s : string) : string :=
  match s with
  | EmptyString => EmptyString
  | String c s' =>
      if bool_decide (c = sep) then EmptyString
      else String c (split_head sep s')
  end.

Fixpoint contains_char (sep : ascii) (s : string) : bool :=
  match s with
  | EmptyString => false
  | String c s' => bool_decide (c = sep) || contains_char sep s'
  end.

(** [s.split(sep)[-1]]: the text after the last separator. *)
Fixpoint split_last (sep : ascii) (s : string) : string :=
  match s with
  | EmptyString => EmptyString
  | String c s' =>
      if contains_char sep s' then split_last sep s'
      else if bool_decide (c = sep) then s' else s
  end.

(** [s[1:]] *)
Definition tail (s : string) : string :=
  match s with EmptyString => EmptyString | String _ s' => s' end.

(** [sep.join(parts)] *)
Fixpoint join (sep : string) (parts : list string) : string :=
  match parts with
  | [] => EmptyString
  | [p] => p
  | p :: ps => p +:+ sep +:+ join sep ps
  end.

Definition digit_val (c : ascii) : option Z :=
  let n := nat_of_ascii c in
  if (48 <=? n) && (n <=? 57) then Some (Z.of_nat (n - 48)) else None.

(** Decimal digits with single underscores between digits, as [int]
    accepts them; [prev] tells whether the previous character was a
    digit. *)
Fixpoint parse_digits (s : string) (acc : Z) (prev : bool) : option Z :=
  match s with
  | EmptyString => if prev then Some acc else None
  | String c s' =>
      if bool_decide (c = "_"%char) then
        if prev then parse_digits s' acc false else None
      else
        match digit_val c with
        | Some d => parse_digits s' (10 * acc + d) true
        | None => None
        end
  end.

(** [int(s)] on ASCII text: [None] is [ValueError]. *)
Definition py_int (s : string) : option Z :=
  match strip s with
  | String "-" ds => Z.opp <$> parse_digits ds 0 false
  | String "+" ds => parse_digits ds 0 false
  | ds => parse_digits ds 0 false
  end.

(** Substring test, for statements about assembled documents. *)
Definition contains (needle hay : string) : Prop :=
  exists pre post, hay = pre +:+ needle +:+ post.

End PyString.

(** ** [posixpath] functions used by the renderer *)
Module PosixPath.
Import PyString.

(** One step of [os.path.join]. *)
Definition join2 (path b : string) : string :=
  if startswith b "/" then b
  else if is_empty path || ends_with_slash path then path +:+ b
  else path +:+ "/" +:+ b.

(** [os.path.join(a, *p)] *)
Definition join (a : string) (p : list string) : string :=
  fold_left join2 p a.

(** [(p[:i], p[i:])] for [i = p.rfind('/') + 1]. *)
Fixpoint split_at_last_slash (p : string) : string * string :=
  match p with
  | EmptyString => (EmptyString, EmptyString)
  | String c p' =>
      let '(h, t) := split_at_last_slash p' in
      if is_empty h then
        if bool_decide (c = "/"%char) then ("/", p') else (EmptyString, p)
      else (String c h, t)
  end.

Fixpoint all_slashes (s : string) : bool :=
  match s with
  | EmptyString => true
  | String c s' => bool_decide (c = "/"%char) && all_slashes s'
  end.

(** [head.rstrip('/')] *)
Fixpoint rstrip_slashes (s : string) : string :=
  match s with
  | EmptyString => EmptyString
  | String c s' =>
      let r := rstrip_slashes s' in
      if bool_decide (c = "/"%char) && is_empty r then EmptyString
      else String c r
  end.

(** [os.path.dirname(p)] *)
Definition dirname (p : string) : string :=
  let head := (split_at_last_slash p).1 in
  if negb (is_empty head) && negb (all_slashes head)
  then rstrip_slashes head else head.

(** [os.path.basename(p)] *)
Definition basename (p : string) : string := (split_at_last_slash p).2.

(** The scan of [genericpath._splitext] over the file name: [root] is
    the text of the name before the last dot, and the dot counts as an
    extension separator only when a character other than a dot comes
    before it. *)
Fixpoint split_at_last_dot (s : string) : option (string * string) :=
  match s with
  | EmptyString => None
  | String c s' =>
      match split_at_last_dot s' with
      | Some (r, e) => Some (String c r, e)
      | None =>
          if bool_decide (c = "."%char) then Some (EmptyString, s) else None
      end
  end.

Fixpoint all_dots (s : string) : bool :=
  match s with
  | EmptyString => true
  | String c s' => bool_decide (c = "."%char) && all_dots s'
  end.

(** [os.path.splitext(p)[0]] *)
Definition splitext_root (p : string) : string :=
  let '(h, name) := split_at_last_slash p in
  match split_at_last_dot name with
  | Some (r, _) => if all_dots r then p else h +:+ r
  | None => p
  end.

End PosixPath.

(** ** The fragment of the Python runtime the code relies on *)
Module Py.
Import PyString.

(** *** Exceptions *)

(** The exception classes the modelled operations raise.  All of them
    derive from [Exception]; [OtherException] stands for any further
    direct subclass of [Exception]. *)
Inductive exc_class :=
| Exception_
| SubprocessError
| TimeoutExpired
| OSError
| FileNotFoundError
| PermissionError
| ValueError
| JSONDecodeError
| UnicodeDecodeError
| AttributeError
| NameError
| ValidationError
| OtherException (name : string).

#[global] Instance exc_class_eq_dec : EqDecision exc_class.
Proof. solve_decision. Defined.

(** Method resolution order, restricted to the classes above
    ([UnicodeDecodeError] derives from [ValueError] through
    [UnicodeError]). *)
Definition mro (c : exc_class) : list exc_class :=
  match c with
  | Exception_ => [Exception_]
  | TimeoutExpired => [TimeoutExpired; SubprocessError; Exception_]
  | FileNotFoundError => [FileNotFoundError; OSError; Exception_]
  | PermissionError => [PermissionError; OSError; Exception_]
  | JSONDecodeError => [JSONDecodeError; ValueError; Exception_]
  | UnicodeDecodeError => [UnicodeDecodeError; ValueError; Exception_]
  | c => [c; Exception_]
  end.

Definition issubclass (c d : exc_class) : bool := bool_decide (d ∈ mro c).

(** A raised exception: its class and [str(e)]. *)
Record exn := Exn { exn_class : exc_class; exn_str : string }.

(** [isinstance(e, (c1, ..., cn))] *)
Definition isinstance (e : exn) (cs : list exc_class) : bool :=
  existsb (issubclass (exn_class e)) cs.

(** *** Values decoded from JSON *)

(** A float is kept by what the code can observe of it: whether it is
    non-zero (its truth value) and its [str()]. *)
Inductive pyval :=
| PyNone
| PyBool (b : bool)
| PyInt (n : Z)
| PyFloat (nonzero : bool) (repr : string)
| PyStr (s : string)
| PyList (l : list pyval)
| PyDict (d : gmap string pyval).

(** Truth value testing. *)
Definition truthy (v : pyval) : bool :=
  match v with
  | PyNone => false
  | PyBool b => b
  | PyInt n => negb (n =? 0)%Z
  | PyFloat nonzero _ => nonzero
  | PyStr s => negb (is_empty s)
  | PyList l => match l with [] => false | _ => true end
  | PyDict d => negb (bool_decide (d = ∅))
  end.

Definition type_name (v : pyval) : string :=
  match v with
  | PyNone => "NoneType"
  | PyBool _ => "bool"
  | PyInt _ => "int"
  | PyFloat _ _ => "float"
  | PyStr _ => "str"
  | PyList _ => "list"
  | PyDict _ => "dict"
  end.

(** [str(v)], as f-strings and the logger format a value; the text of a
    list or a dict is left to [repr_container]. *)
Definition py_str (repr_container : pyval -> string) (v : pyval) : string :=
  match v with
  | PyNone => "None"
  | PyBool true => "True"
  | PyBool false => "False"
  | PyInt n => pretty n
  | PyFloat _ repr => repr
  | PyStr s => s
  | _ => repr_container v
  end.

(** [str(e)] of the [AttributeError] raised by [v.attr]. *)
Definition no_attribute (ty attr : string) : exn :=
  Exn AttributeError
      ("'" +:+ ty +:+ "' object has no attribute '" +:+ attr +:+ "'").

(** *** Observable effects *)

Inductive level := DEBUG | INFO | WARNING | ERROR.

Inductive event :=
| Log (l : level) (msg : string)        (* logger.debug/info/warning/error *)
| LogError (msg title : string)         (* frappe.log_error *)
| Print (msg : string).                 (* print *)

Record state := State { events : list event; clock : nat }.

Definition initial : state := State [] 0.

(** *** Statements: state passing with exceptions *)

Definition M (A : Type) : Type := state -> (exn + A) * state.

#[global] Instance M_ret : MRet M := fun A x st => (inr x, st).

#[global] Instance M_bind : MBind M := fun A B f m st =>
  match m st with
  | (inl e, st') => (inl e, st')
  | (inr x, st') => f x st'
  end.

Definition raise {A} (e : exn) : M A := fun st => (inl e, st).

(** [try: body except ...: handler]; the handler re-raises what its
    [except] clauses do not match. *)
Definition try_except {A} (body : M A) (handler : exn -> M A) : M A :=
  fun st =>
    match body st with
    | (inl e, st') => handler e st'
    | r => r
    end.

Definition emit (ev : event) : M unit :=
  fun st => (inr tt, State (events st ++ [ev]) (clock st)).

Definition log (l : level) (msg : string) : M unit := emit (Log l msg).
Definition log_error (msg title : string) : M unit := emit (LogError msg title).
Definition print (msg : string) : M unit := emit (Print msg).

(** [v.get(key, default)] on a decoded value. *)
Definition dict_get (v : pyval) (key : string) (default : pyval) : M pyval :=
  match v with
  | PyDict d => mret (from_option id default (d !! key))
  | _ => raise (no_attribute (type_name v) "get")
  end.

End Py.

(** ** [vue_renderer.py]: the page renderer *)
Module VueRenderer.
Import PyString Py.

(** *** The collaborators: host framework, file system, subprocesses *)

(** What a path of the file system names: a regular file that reads as
    UTF-8 text, a regular file whose reading raises (bytes that are not
    UTF-8, no permission to read), or a directory. *)
Inductive fsnode :=
| File (content : string)
| Unreadable (e : exn)
| Dir.

(** What [subprocess.run(..., capture_output=True, text=True)] gives. *)
Record completed_process :=
  Completed { returncode : Z; stdout : string; stderr : string }.

Inductive run_outcome :=
| Returns (r : completed_process)
| Raises (e : exn).

Record server_data :=
  ServerData { serverTime : string; user : string; siteName : string }.

Record host := Host {
  (* frappe.get_installed_apps() *)
  installed_apps : list string;
  (* frappe.get_app_path(app) *)
  get_app_path : string -> string;
  (* the file system: os.path.isfile, os.path.exists, open(...).read() *)
  files : gmap string fsnode;
  (* os.path.dirname(os.path.abspath(__file__)) *)
  module_dir : string;
  (* os.path.relpath(path, start) *)
  relpath : string -> string -> string;
  (* subprocess.run(cmd, cwd=..., timeout=...) *)
  subprocess_run : list string -> option string -> Z -> run_outcome;
  (* frappe.utils.now() at the n-th reading of the clock *)
  now_at : nat -> string;
  (* frappe.session.user *)
  session_user : string;
  (* frappe.local.site *)
  local_site : option string;
  (* json.dumps on the server data; json.loads: inl is str(JSONDecodeError) *)
  json_dumps : server_data -> string;
  json_loads : string -> string + pyval;
  (* str() of a decoded list or dict *)
  repr_container : pyval -> string
}.

(** The attributes a successful search binds on the renderer. *)
Record component := Component {
  app : string;
  app_path : string;
  vue_file_path : string;
  template_path : string;
  basepath : string;
  filename : string;
  name : string;
  vue_component_content : string
}.

(** The renderer object: [located = None] is the state in which
    [self.vue_file_path] is [None] and the other attributes are unbound. *)
Record renderer := Renderer {
  path : string;
  located : option component;
  context : gmap string pyval
}.

Section WithHost.
Variable h : host.

Definition isfile (p : string) : bool :=
  match files h !! p with
  | Some (File _) | Some (Unreadable _) => true
  | _ => false
  end.

Definition path_exists (p : string) : bool :=
  match files h !! p with Some _ => true | None => false end.

(** [open(p, 'r', encoding='utf-8').read()] *)
Definition read_text (p : string) : M string :=
  match files h !! p with
  | Some (File c) => mret c
  | Some (Unreadable e) => raise e
  | Some Dir => raise (Exn OSError ("[Errno 21] Is a directory: '" +:+ p +:+ "'"))
  | None =>
      raise (Exn FileNotFoundError
                 ("[Errno 2] No such file or directory: '" +:+ p +:+ "'"))
  end.

(** [frappe.utils.now()] *)
Definition now : M string :=
  fun st => (inr (now_at h (clock st)), State (events st) (S (clock st))).

Definition str (v : pyval) : string := py_str (repr_container h) v.

(** How an f-string shows [self.vue_file_path]. *)
Definition show_vue_file_path (self : renderer) : string :=
  match located self with
  | Some c => vue_file_path c
  | None => "None"
  end.

(** Reading an attribute that only a successful search binds. *)
Definition attr {A} (self : renderer) (field : component -> A)
    (attr_name : string) : M A :=
  match located self with
  | Some c => mret (field c)
  | None => raise (no_attribute "VueRenderer" attr_name)
  end.

(** The loop of [set_vue_template_path] over the applications still to be
    searched. *)
Fixpoint search_apps (request_path : string) (apps : list string)
    : M (option component) :=
  match apps with
  | [] => mret None
  | app :: rest =>
      let app_path := get_app_path h app in
      let vue_file_path :=
        PosixPath.join app_path ["www"; request_path +:+ ".vue"] in
      if isfile vue_file_path then
        let filename := PosixPath.basename vue_file_path in
        _ ← log INFO ("Found Vue file: " +:+ vue_file_path +:+ " in app: " +:+ app);
        content ← read_text vue_file_path;
        mret (Some {| app := app;
                      app_path := app_path;
                      vue_file_path := vue_file_path;
                      template_path := relpath h vue_file_path app_path;
                      basepath := PosixPath.dirname vue_file_path;
                      filename := filename;
                      name := PosixPath.splitext_root filename;
                      vue_component_content := content |})
      else search_apps request_path rest
  end.

(** [set_vue_template_path] *)
Definition set_vue_template_path (self : renderer) : M renderer :=
  found ← search_apps (path self) (rev (installed_apps h));
  mret {| path := path self; located := found; context := context self |}.

(** [__init__], after the base class has stored the path. *)
Definition init (request_path : string) (ctx : gmap string pyval) : M renderer :=
  set_vue_template_path
    {| path := request_path; located := None; context := ctx |}.

(** [can_render] *)
Definition can_render (self : renderer) : bool :=
  match located self with
  | Some c => isfile (vue_file_path c)
  | None => false
  end.

(** [update_context] *)
Definition update_context (self : renderer) : M renderer :=
  name ← attr self name "name";
  filename ← attr self filename "filename";
  mret {| path := path self;
          located := located self;
          context :=
            <["vue_file" := PyStr filename]>
              (<["path" := PyStr (path self)]>
                 (<["title" := PyStr ("Vue SSR: " +:+ name)]> (context self))) |}.

(** *** Selecting the Node.js runtime *)

Definition node_commands : list string :=
  [ "node22";
    "/opt/homebrew/bin/node22";
    "/usr/local/bin/node22";
    "/opt/homebrew/bin/node";
    "/usr/local/bin/node";
    "node";
    "/usr/bin/node" ].

(** An entry of [v22_nodes] and [other_nodes]:
    [(cmd, major_version, version)]. *)
Definition node_entry : Type := string * Z * string.

Definition entry_cmd (e : node_entry) : string := e.1.1.
Definition entry_major (e : node_entry) : Z := e.1.2.
Definition entry_version (e : node_entry) : string := e.2.

(** [subprocess.run] *)
Definition run (cmd : list string) (cwd : option string) (timeout : Z)
    : M completed_process :=
  match subprocess_run h cmd cwd timeout with
  | Returns r => mret r
  | Raises e => raise e
  end.

(** [int(s)] *)
Definition python_int (s : string) : M Z :=
  match py_int s with
  | Some n => mret n
  | None =>
      raise (Exn ValueError
                 ("invalid literal for int() with base 10: '" +:+ s +:+ "'"))
  end.

(** [frappe.throw(msg, title=...)] raises [frappe.ValidationError(msg)]. *)
Definition frappe_throw {A} (msg title : string) : M A :=
  raise (Exn ValidationError msg).

(** One iteration of the probing loop: the [try] body and its
    [except (SubprocessError, ValueError, FileNotFoundError): continue]. *)
Definition probe (cmd : string) (acc : list node_entry * list node_entry)
    : M (list node_entry * list node_entry) :=
  try_except
    (result ← run [cmd; "--version"] None 5;
     if (returncode result =? 0)%Z then
       let version := strip (stdout result) in
       _ ← print ("Found Node.js: " +:+ cmd +:+ " -> " +:+ version);
       _ ← log DEBUG ("Found Node.js: " +:+ cmd +:+ " -> " +:+ version);
       if startswith version "v" then
         major_version ← python_int (split_head "." (tail version));
         if (22 <=? major_version)%Z then
           _ ← log DEBUG ("Node.js v" +:+ pretty major_version
                          +:+ " meets v22+ requirement: " +:+ cmd);
           mret (acc.1 ++ [(cmd, major_version, version)], acc.2)
         else if (18 <=? major_version)%Z then
           _ ← log DEBUG ("Node.js v" +:+ pretty major_version
                          +:+ " found but below v22 requirement: " +:+ cmd);
           mret (acc.1, acc.2 ++ [(cmd, major_version, version)])
         else mret acc
       else mret acc
     else mret acc)
    (fun e =>
       if isinstance e [SubprocessError; ValueError; FileNotFoundError]
       then mret acc
       else raise e).

(** The [for cmd in node_commands] loop. *)
Fixpoint probe_all (cmds : list string)
    (acc : list node_entry * list node_entry)
    : M (list node_entry * list node_entry) :=
  match cmds with
  | [] => mret acc
  | cmd :: rest => acc' ← probe cmd acc; probe_all rest acc'
  end.

(** [l.sort(key=lambda x: x[1], reverse=True)]: a stable sort, entries
    with equal keys keep their order. *)
Fixpoint insert_desc (x : node_entry) (l : list node_entry) : list node_entry :=
  match l with
  | [] => [x]
  | y :: l' =>
      if (entry_major x <? entry_major y)%Z then y :: insert_desc x l'
      else x :: l
  end.

Fixpoint sort_desc (l : list node_entry) : list node_entry :=
  match l with
  | [] => []
  | x :: l' => insert_desc x (sort_desc l')
  end.

Definition versions_found (nodes : list node_entry) : string :=
  join ", " (entry_version <$> nodes).

Definition installation_options : string :=
  "
Installation options:
- Using Homebrew: brew install node@22
- Using Node Version Manager: nvm install 22 && nvm use 22
- Download from: https://nodejs.org/

After installation, you may need to restart your Frappe server.
".

(** The text passed to [frappe.throw] when no v22+ runtime was found. *)
Definition node_required_msg (other_nodes : list node_entry) : string :=
  "❌ Node.js v22 or higher is required for Vue SSR.
"
  +:+ (match other_nodes with
       | [] => EmptyString
       | _ => "Found Node.js versions: " +:+ versions_found other_nodes +:+ "
"
       end)
  +:+ installation_options.

(** The part of [get_compatible_node_command] after the probing loop. *)
Definition select_node (v22_nodes other_nodes : list node_entry) : M string :=
  match v22_nodes with
  | _ :: _ =>
      match sort_desc v22_nodes with
      | (cmd, major_version, version) :: _ =>
          _ ← print ("✅ Using Node.js " +:+ version +:+ " (meets v22+ requirement)");
          _ ← log INFO ("Selected Node.js " +:+ version +:+ " at " +:+ cmd
                        +:+ " for Vue SSR");
          mret cmd
      | [] => raise (Exn (OtherException "IndexError") "list index out of range")
      end
  | [] =>
      _ ← (match other_nodes with
           | _ :: _ =>
               log ERROR ("No compatible Node.js v22+ found. Available versions: "
                          +:+ versions_found other_nodes)
           | [] => log ERROR "No Node.js installation found on system"
           end);
      _ ← log ERROR "Vue SSR rendering failed due to missing Node.js v22+";
      frappe_throw (node_required_msg other_nodes) "Node.js v22+ Required"
  end.

(** [get_compatible_node_command] *)
Definition get_compatible_node_command : M string :=
  nodes ← probe_all node_commands ([], []);
  select_node nodes.1 nodes.2.

(** *** The two document templates

    The literal text of the f-strings of [build_complete_html] and
    [_fallback_html], cut at the interpolated fields. *)

Definition success_part0 : string :=
  "
        <!DOCTYPE html>
        <html>
        <head>
            <title>".

Definition success_part1 : string :=
  "</title>
            <meta charset=" +:+ dq +:+ "utf-8" +:+ dq +:+ ">
            <meta name=" +:+ dq +:+ "viewport" +:+ dq +:+ " content=" +:+ dq +:+ "width=device-width, initial-scale=1" +:+ dq +:+ ">
            <!-- Vue is bundled in the client JavaScript, no CDN needed -->
            <style>
                body {
                    font-family: -apple-system, BlinkMacSystemFont, 'Segoe UI', Roboto, sans-serif;
                    margin: 0;
                    padding: 20px;
                    line-height: 1.6;
                }
                .vue-ssr-rendered {
                    color: #2c3e50;
                }
                .server-rendered {
                    background: linear-gradient(135deg, #667eea 0%, #764ba2 100%);
                    color: white;
                    padding: 12px 20px;
                    border-radius: 8px;
                    margin-bottom: 20px;
                    box-shadow: 0 2px 10px rgba(0,0,0,0.1);
                }
                .server-rendered small {
                    display: flex;
                    align-items: center;
                    gap: 8px;
                }

                /* Vue Component Styles */
                ".

Definition success_part2 : string :=
  "
            </style>
        </head>
        <body>
            <div class=" +:+ dq +:+ "server-rendered" +:+ dq +:+ ">
                <small>
                    🔥 Server-side rendered with Python + Node.js + Vue SSR (Self-contained Bundle)
                    <span style=" +:+ dq +:+ "opacity: 0.8;" +:+ dq +:+ ">(".

Definition success_part3 : string :=
  ")</span>
                </small>
            </div>
            <div id=" +:+ dq +:+ "app" +:+ dq +:+ " class=" +:+ dq +:+ "vue-ssr-rendered" +:+ dq +:+ ">".

Definition success_part4 : string :=
  "</div>

            <script>
                // Inject server data for hydration
                ".

Definition success_part5 : string :=
  "
            </script>

            ".

Definition success_part6 : string :=
  "

            <script>
                console.log('🚀 Vue app hydrated with self-contained bundle!');
            </script>
        </body>
        </html>
        ".

Definition fallback_part0 : string :=
  "
        <!DOCTYPE html>
        <html>
        <head>
            <title>Vue SSR Error</title>
            <meta charset=" +:+ dq +:+ "utf-8" +:+ dq +:+ ">
            <style>
                body { font-family: Arial, sans-serif; margin: 40px; }
                .error {
                    background: #fee;
                    border: 1px solid #f88;
                    padding: 20px;
                    border-radius: 4px;
                    color: #c33;
                }
                .fallback {
                    background: #fff3cd;
                    border: 1px solid #ffeaa7;
                    padding: 15px;
                    border-radius: 4px;
                    margin-top: 20px;
                }
            </style>
        </head>
        <body>
            <div class=" +:+ dq +:+ "error" +:+ dq +:+ ">
                ".

Definition fallback_part1 : string :=
  "
            </div>
            <div class=" +:+ dq +:+ "fallback" +:+ dq +:+ ">
                <p><strong>Note:</strong> This is a fallback view. The Vue component could not be server-rendered.</p>
                <p>Vue file: <code>".

Definition fallback_part2 : string :=
  "</code></p>
            </div>
        </body>
        </html>
        ".

(** The success template with its six fields filled in. *)
Definition success_document
    (title styles timestamp rendered_html server_data_script script_tag : string)
    : string :=
  success_part0 +:+ title +:+ success_part1 +:+ styles +:+ success_part2
  +:+ timestamp +:+ success_part3 +:+ rendered_html +:+ success_part4
  +:+ server_data_script +:+ success_part5 +:+ script_tag +:+ success_part6.

(** [_fallback_html] *)
Definition _fallback_html (self : renderer) (html : string) : string :=
  fallback_part0 +:+ html +:+ fallback_part1 +:+ show_vue_file_path self
  +:+ fallback_part2.

(** *** Document assembly *)

(** [_register_static_file] *)
Definition _register_static_file (self : renderer) (file_url : string) : M bool :=
  app ← attr self app "app";
  if startswith file_url ("/assets/" +:+ app +:+ "/ssr/") then
    let filename := split_last "/" file_url in
    app_path ← attr self app_path "app_path";
    let expected_path := PosixPath.join app_path ["public"; "ssr"; filename] in
    if negb (path_exists expected_path) then
      _ ← log ERROR ("Vue client bundle not found at " +:+ expected_path);
      _ ← log_error ("Vue client bundle not found at " +:+ expected_path)
                    "Vue Renderer";
      mret false
    else
      _ ← log DEBUG ("Vue client bundle found at " +:+ expected_path);
      mret true
  else
    _ ← log WARNING ("Unrecognized static file URL pattern: " +:+ file_url);
    mret false.

Definition script_tag (url : string) : string :=
  "<script src=" +:+ dq +:+ url +:+ dq +:+ "></script>".

Definition no_bundle_comment : string := "<!-- No client bundle available -->".

(** [_generate_client_script_tag] *)
Definition _generate_client_script_tag (self : renderer)
    (client_bundle_url : pyval) : M string :=
  if negb (truthy client_bundle_url) then mret no_bundle_comment
  else
    match client_bundle_url with
    | PyStr url =>
        if startswith url "/" then
          _ ← _register_static_file self url;
          mret (script_tag url)
        else mret (script_tag url)
    | v => raise (no_attribute (type_name v) "startswith")
    end.

(** [self.context.get('title', 'Vue Page')] *)
Definition context_title (self : renderer) : pyval :=
  from_option id (PyStr "Vue Page") (context self !! "title").

(** [build_complete_html]; the fields of the f-string are evaluated from
    left to right.  The local [is_development], read from the site
    configuration, is not used by the function and is left out. *)
Definition build_complete_html (self : renderer)
    (rendered_html styles client_bundle_url server_data_script : pyval)
    : M string :=
  let title := str (context_title self) in
  timestamp ← now;
  tag ← _generate_client_script_tag self client_bundle_url;
  mret (success_document title (str styles) timestamp (str rendered_html)
                         (str server_data_script) tag).

(** *** Invoking the SSR subprocess *)

(** [prepare_server_data] *)
Definition prepare_server_data : M server_data :=
  server_time ← now;
  mret {| serverTime := server_time;
          user := session_user h;
          siteName := match local_site h with
                      | Some site => if is_empty site then "localhost" else site
                      | None => "localhost"
                      end |}.

(** The statements of [render_vue_with_nodejs] after a completed run with
    exit code 0: decoding the response and assembling the document. *)
Definition render_response (self : renderer) (c : component)
    (result : completed_process) : M string :=
  match json_loads h (stdout result) with
  | inl decode_error =>
      (* except json.JSONDecodeError as e *)
      _ ← log ERROR ("Vue SSR JSON Parse Error: " +:+ decode_error);
      _ ← log ERROR ("Raw stdout was: " +:+ stdout result);
      _ ← log_error ("Vue SSR JSON Parse Error: " +:+ decode_error) "Vue Renderer";
      _ ← log_error ("Raw stdout was: " +:+ stdout result) "Vue Renderer";
      mret (_fallback_html self
              ("Invalid JSON response from Vue SSR: " +:+ decode_error))
  | inr response =>
      success ← dict_get response "success" PyNone;
      if negb (truthy success) then
        error_msg ← dict_get response "error" (PyStr "Unknown error");
        html ← dict_get response "html" (PyStr EmptyString);
        _ ← log ERROR ("Vue SSR renderer reported failure: " +:+ str error_msg);
        mret (_fallback_html self (str html))
      else
        _ ← log INFO ("Vue SSR rendering completed successfully for "
                      +:+ vue_file_path c);
        logged_html ← dict_get response "html" PyNone;
        _ ← log INFO (str logged_html);
        rendered_html ← dict_get response "html" (PyStr EmptyString);
        styles ← dict_get response "styles" (PyStr EmptyString);
        client_bundle_url ← dict_get response "clientBundleUrl" (PyStr EmptyString);
        server_data_script ← dict_get response "serverDataScript" (PyStr EmptyString);
        build_complete_html self rendered_html styles client_bundle_url
                            server_data_script
  end.

(** The statements of [render_vue_with_nodejs] after [subprocess.run]
    has returned. *)
Definition render_result (self : renderer) (c : component)
    (result : completed_process) : M string :=
  if negb (returncode result =? 0)%Z then
    let error_msg :=
      if is_empty (stderr result) then "Node.js renderer failed"
      else stderr result in
    _ ← log ERROR ("Vue SSR subprocess failed with return code "
                   +:+ pretty (returncode result) +:+ ": " +:+ error_msg);
    _ ← log_error ("Vue SSR Error: " +:+ error_msg) "Vue Renderer";
    mret (_fallback_html self ("Vue SSR Error: " +:+ error_msg))
  else render_response self c result.

(** The [try] body of [render_vue_with_nodejs]. *)
Definition render_body (self : renderer) : M string :=
  match located self with
  | None => raise (no_attribute "VueRenderer" "app_path")
  | Some c =>
      let app_root := PosixPath.dirname (app_path c) in
      let current_dir := module_dir h in
      let renderer_path := PosixPath.join current_dir ["vue_ssr_renderer.js"] in
      if negb (path_exists renderer_path) then
        _ ← log ERROR ("Node.js Vue SSR renderer not found at " +:+ renderer_path);
        mret (_fallback_html self
                ("Node.js Vue SSR renderer not found at " +:+ renderer_path))
      else
        server_data ← prepare_server_data;
        node_cmd ← get_compatible_node_command;
        let cmd := [node_cmd; renderer_path; vue_file_path c;
                    json_dumps h server_data] in
        _ ← log DEBUG ("Working directory: " +:+ app_root);
        _ ← log DEBUG ("Vue SSR Command: " +:+ join " " cmd);
        result ← run cmd (Some app_root) 30;
        render_result self c result
  end.

(** The [except subprocess.TimeoutExpired] and [except Exception as e]
    clauses of [render_vue_with_nodejs]. *)
Definition render_handler (self : renderer) (e : exn) : M string :=
  if isinstance e [TimeoutExpired] then
    _ ← log ERROR "Vue SSR renderer timed out after 30 seconds";
    _ ← log_error "Vue SSR renderer timed out after 30 seconds" "Vue Renderer";
    mret (_fallback_html self "Vue SSR renderer timed out")
  else if isinstance e [Exception_] then
    _ ← log ERROR ("Vue SSR Exception: " +:+ exn_str e);
    _ ← log_error ("Vue SSR Exception: " +:+ exn_str e) "Vue Renderer";
    mret (_fallback_html self ("Vue SSR Exception: " +:+ exn_str e))
  else raise e.

(** [render_vue_with_nodejs] *)
Definition render_vue_with_nodejs (self : renderer) : M string :=
  _ ← log INFO ("Starting Vue SSR rendering for " +:+ show_vue_file_path self);
  try_except (render_body self) (render_handler self).

End WithHost.
End VueRenderer.

(** ** [www/frontend.py]: the legacy context provider *)
Module Frontend.
Import PyString Py.

(** The names the module binds at top level, in the order of its
    statements: the [__future__] import, [import frappe] and the two
    [def]s.  No other statement of the file binds a name. *)
Definition module_globals : list string :=
  ["unicode_literals"; "frappe"; "get_context"; "get_html_from_vue"].

(** Evaluating a global name that is not a Python builtin: a name the
    module does not bind raises [NameError]. *)
Definition load_global (name : string) : M unit :=
  if bool_decide (name ∈ module_globals) then mret tt
  else raise (Exn NameError ("name '" +:+ name +:+ "' is not defined")).

Section Legacy.
(** What a helper called [run_script] would compute on a command line,
    were the name bound. *)
Variable run_script : string -> M string.

(** [get_html_from_vue] *)
Definition get_html_from_vue : M string :=
  _ ← load_global "run_script";
  run_script "node build.js".

(** [get_context]: [content] is [frappe.response.content]. *)
Definition get_context (content : option string) : M (option string) :=
  html ← get_html_from_vue;
  mret (Some html).

End Legacy.
End Frontend.

(** ** Notions used to state the properties of the renderer *)
Module Spec.
Import PyString Py VueRenderer.

(** [m] returns [x], from some state. *)
Definition returns {A} (m : M A) (x : A) : Prop :=
  exists st st', m st = (inr x, st').

(** The value a statement computes does not depend on the log and the
    clock it starts from. *)
Definition state_independent {A} (m : M A) : Prop :=
  forall st1 st2, (m st1).1 = (m st2).1.

(** Whether an event was recorded. *)
Definition logged (ev : event) (st : state) : Prop := ev ∈ events st.

(** Number of positions of [s] at which [needle] starts. *)
Fixpoint occurrences (needle s : string) : nat :=
  match s with
  | EmptyString => if startswith s needle then 1 else 0
  | String _ s' => (if startswith s needle then 1 else 0) + occurrences needle s'
  end.

(** The classes named by the [except] clause of the probing loop. *)
Definition caught_by_probe : list exc_class :=
  [SubprocessError; ValueError; FileNotFoundError].

Section WithHost.
Variable h : host.

(** The path the locator tries for an application. *)
Definition candidate_path (request_path app : string) : string :=
  PosixPath.join (get_app_path h app) ["www"; request_path +:+ ".vue"].

(** The first application, in reverse installation order, whose
    candidate file exists. *)
Definition owning_app (request_path : string) : option string :=
  find (fun app => isfile h (candidate_path request_path app))
       (rev (installed_apps h)).

(** What the version query of a candidate tells: exit code 0 and a
    version text of the form [v<major>...], as [(major, version)]. *)
Definition reported (cmd : string) : option (Z * string) :=
  match subprocess_run h [cmd; "--version"] None 5 with
  | Returns r =>
      if (returncode r =? 0)%Z then
        let version := strip (stdout r) in
        if startswith version "v" then
          (fun major => (major, version)) <$> py_int (split_head "." (tail version))
        else None
      else None
  | Raises _ => None
  end.

(** The version query of a candidate completes, or raises an exception of
    one of the classes the probing loop catches. *)
Definition absorbed (cmd : string) : Prop :=
  match subprocess_run h [cmd; "--version"] None 5 with
  | Returns _ => True
  | Raises e => isinstance e caught_by_probe = true
  end.

(** The candidates reporting a major version of at least 22, and those
    reporting one of 18 to 21, in probing order. *)
Definition v22_entry (cmd : string) : option node_entry :=
  match reported cmd with
  | Some (major, version) =>
      if (22 <=? major)%Z then Some (cmd, major, version) else None
  | None => None
  end.

Definition other_entry (cmd : string) : option node_entry :=
  match reported cmd with
  | Some (major, version) =>
      if (22 <=? major)%Z then None
      else if (18 <=? major)%Z then Some (cmd, major, version) else None
  | None => None
  end.

Definition v22_candidates (cmds : list string) : list node_entry :=
  omap v22_entry cmds.

Definition other_candidates (cmds : list string) : list node_entry :=
  omap other_entry cmds.

(** The SSR renderer script and the subprocess invocation of
    [render_vue_with_nodejs] for a selected runtime, when the clock read
    [clk] at the start of the request. *)
Definition renderer_path : string :=
  PosixPath.join (module_dir h) ["vue_ssr_renderer.js"].

Definition request_server_data (clk : nat) : server_data :=
  {| serverTime := now_at h clk;
     user := session_user h;
     siteName := match local_site h with
                 | Some site => if is_empty site then "localhost" else site
                 | None => "localhost"
                 end |}.

Definition ssr_outcome (c : component) (node_cmd : string) (clk : nat)
    : run_outcome :=
  subprocess_run h
    [node_cmd; renderer_path; vue_file_path c;
     json_dumps h (request_server_data clk)]
    (Some (PosixPath.dirname (app_path c))) 30.

(** The failure outcomes of the SSR invocation: an exception (the timeout
    among them), a non-zero exit code, an output that does not decode, a
    decoded value that is not an object, and an object whose [success]
    entry is absent or false. *)
Inductive ssr_failure : run_outcome -> Prop :=
| failure_raised e :
    ssr_failure (Raises e)
| failure_exit_code r :
    returncode r <> 0%Z ->
    ssr_failure (Returns r)
| failure_decode r msg :
    returncode r = 0%Z ->
    json_loads h (stdout r) = inl msg ->
    ssr_failure (Returns r)
| failure_shape r v :
    returncode r = 0%Z ->
    json_loads h (stdout r) = inr v ->
    (forall d, v <> PyDict d) ->
    ssr_failure (Returns r)
| failure_flag r d :
    returncode r = 0%Z ->
    json_loads h (stdout r) = inr (PyDict d) ->
    truthy (from_option id PyNone (d !! "success")) = false ->
    ssr_failure (Returns r).

(** A successful render result: exit code 0 and an object with a true
    [success] entry. *)
Definition ssr_success (o : run_outcome) (d : gmap string pyval) : Prop :=
  exists r, o = Returns r /\ returncode r = 0%Z
            /\ json_loads h (stdout r) = inr (PyDict d)
            /\ truthy (from_option id PyNone (d !! "success")) = true.

(** An entry of the response, with the default of the code. *)
Definition field (d : gmap string pyval) (key : string) : pyval :=
  from_option id (PyStr EmptyString) (d !! key).

(** The file [_register_static_file] looks for. *)
Definition expected_bundle_path (c : component) (url : string) : string :=
  PosixPath.join (app_path c) ["public"; "ssr"; split_last "/" url].

(** The document [build_complete_html] assembles around a script tag
    when the clock reads [clk]. *)
Definition assembled (self : renderer)
    (rendered_html styles server_data_script : pyval) (clk : nat)
    (tag : string) : string :=
  success_document (str h (context_title self)) (str h styles) (now_at h clk)
                   (str h rendered_html) (str h server_data_script) tag.

(** The component the locator records for an application. *)
Definition component_of (request_path app content : string) : component :=
  let file := candidate_path request_path app in
  {| app := app;
     app_path := get_app_path h app;
     vue_file_path := file;
     template_path := relpath h file (get_app_path h app);
     basepath := PosixPath.dirname file;
     filename := PosixPath.basename file;
     name := PosixPath.splitext_root (PosixPath.basename file);
     vue_component_content := content |}.

End WithHost.

(** The state in which the [try] block of [render_vue_with_nodejs] is
    entered: its first log line has been written. *)
Definition entered (self : renderer) (st : state) : state :=
  State (events st ++ [Log INFO ("Starting Vue SSR rendering for "
                                 +:+ show_vue_file_path self)])
        (clock st).

(** [s] ends with [a]; [s] starts with [b]. *)
Definition ends (s a : string) : Prop := exists s', s = s' +:+ a.
Definition starts (s b : string) : Prop := exists s', s = b +:+ s'.

(** The elements of the success document around the interpolated
    fields. *)
Definition mount_open : string :=
  "<div id=" +:+ dq +:+ "app" +:+ dq +:+ " class=" +:+ dq
  +:+ "vue-ssr-rendered" +:+ dq +:+ ">".

Definition mount_point (rendered_html : string) : string :=
  mount_open +:+ rendered_html +:+ "</div>".

Definition component_styles (styles : string) : string :=
  "/* Vue Component Styles */
                " +:+ styles +:+ "
            </style>".

Definition hydration_script (server_data_script : string) : string :=
  "<script>
                // Inject server data for hydration
                " +:+ server_data_script +:+ "
            </script>".

(** *** Version numbers, as the specification speaks of them *)

Fixpoint split_on (sep : ascii) (s : string) : list string :=
  match s with
  | EmptyString => [EmptyString]
  | String c s' =>
      if bool_decide (c = sep) then EmptyString :: split_on sep s'
      else match split_on sep s' with
           | x :: xs => String c x :: xs
           | [] => [String c EmptyString]
           end
  end.

(** [v22.9.0] is [[22; 9; 0]]. *)
Definition version_number (version : string) : list Z :=
  omap py_int (split_on "." (tail version)).

Fixpoint version_ltb (a b : list Z) : bool :=
  match a, b with
  | _, [] => false
  | [], _ :: _ => true
  | x :: a', y :: b' => (x <? y)%Z || ((x =? y)%Z && version_ltb a' b')
  end.

(** The selector returns a candidate that no candidate of major version
    22 or more exceeds in version number. *)
Definition picks_highest_version (h : host) : Prop :=
  forall st cmd st',
    get_compatible_node_command h st = (inr cmd, st') ->
    exists major version,
      reported h cmd = Some (major, version) /\
      forall cmd' major' version',
        cmd' ∈ node_commands ->
        reported h cmd' = Some (major', version') ->
        (22 <= major')%Z ->
        version_ltb (version_number version) (version_number version') = false.

(** A candidate whose version query fails, or reports a text that is not
    [v<major>...]. *)
Definition unusable (h : host) (cmd : string) : Prop :=
  reported h cmd = None.

(** The iteration of the probing loop for a candidate completes. *)
Definition skipped (h : host) (cmd : string) : Prop :=
  forall acc st, exists acc' st', probe h cmd acc st = (inr acc', st').

(** It completes without a trace: the two lists, the log and what was
    printed are left as they are. *)
Definition skipped_silently (h : host) (cmd : string) : Prop :=
  forall acc st, probe h cmd acc st = (inr acc, st).

(** The line that reports a candidate whose version query exited with
    code 0. *)
Definition found_line (cmd version : string) : string :=
  "Found Node.js: " +:+ cmd +:+ " -> " +:+ version.

(** *** The locator, as the specification words it *)

(** Whenever an application owns the request path, the constructor
    returns a renderer that has recorded that application and its
    file. *)
Definition locator_records_first_match (h : host) (request_path : string)
    : Prop :=
  forall ctx st owner,
    owning_app h request_path = Some owner ->
    exists self st' c,
      init h request_path ctx st = (inr self, st')
      /\ located self = Some c
      /\ app c = owner
      /\ vue_file_path c = candidate_path h request_path owner.

(** *** The fallback page *)

(** The text the [except] clauses of [render_vue_with_nodejs] show for an
    exception. *)
Definition exception_text (e : exn) : string :=
  if isinstance e [TimeoutExpired] then "Vue SSR renderer timed out"
  else "Vue SSR Exception: " +:+ exn_str e.

(** The text shown for a failure outcome of the SSR invocation. *)
Definition failure_text (h : host) (o : run_outcome) : string :=
  match o with
  | Raises e => exception_text e
  | Returns r =>
      if (returncode r =? 0)%Z then
        match json_loads h (stdout r) with
        | inl decode_error =>
            "Invalid JSON response from Vue SSR: " +:+ decode_error
        | inr (PyDict d) => str h (field d "html")
        | inr v => exception_text (no_attribute (type_name v) "get")
        end
      else
        "Vue SSR Error: "
        +:+ (if is_empty (stderr r) then "Node.js renderer failed"
             else stderr r)
  end.

(** The elements of the fallback page: the error box around the text, and
    the note naming the component file. *)
Definition error_box_open : string :=
  "<div class=" +:+ dq +:+ "error" +:+ dq +:+ ">
                ".

Definition error_box (text : string) : string :=
  error_box_open +:+ text +:+ "
            </div>".

Definition file_note (shown_path : string) : string :=
  "<p>Vue file: <code>" +:+ shown_path +:+ "</code></p>".

(** [document] is the fallback page for [text] and [shown_path]: an HTML
    document titled [Vue SSR Error] that shows the text in its error box,
    says that it is a fallback view and names the component file, and
    that is no instance of the success template. *)
Definition fallback_page (text shown_path document : string) : Prop :=
  starts document "
        <!DOCTYPE html>
        <html>"
  /\ contains "<title>Vue SSR Error</title>" document
  /\ contains (error_box text) document
  /\ contains "This is a fallback view. The Vue component could not be server-rendered."
              document
  /\ contains (file_note shown_path) document
  /\ ends document "</body>
        </html>
        "
  /\ forall title styles timestamp rendered_html server_data_script tag,
       document <> success_document title styles timestamp rendered_html
                                    server_data_script tag.

(** *** The success claim, as the specification words it *)

(** The request is answered with a document that holds the markup of the
    result in the mount point, its styles, its hydration block, and a
    script element whose [src] is its client bundle URL. *)
Definition answered_with_bundle_script (h : host) (self : renderer)
    (st : state) (d : gmap string pyval) : Prop :=
  exists document st',
    render_vue_with_nodejs h self st = (inr document, st')
    /\ contains (mount_point (str h (field d "html"))) document
    /\ contains (component_styles (str h (field d "styles"))) document
    /\ contains (hydration_script (str h (field d "serverDataScript"))) document
    /\ contains ("<script src=" +:+ dq +:+ str h (field d "clientBundleUrl")
                 +:+ dq +:+ "></script>") document.

(** *** The file behind a local bundle URL *)

(** Files of [<app>/public/ssr/] are served at [/assets/<app>/ssr/]: the
    URL [/assets/<app>/ssr/<rest>] is served from
    [<app_path>/public/ssr/<rest>]. *)
Definition served_bundle_path (c : component) (rest : string) : string :=
  PosixPath.join (app_path c) ["public"; "ssr"; rest].

Definition local_bundle_url (c : component) (rest : string) : string :=
  "/assets/" +:+ app c +:+ "/ssr/" +:+ rest.

(** An error record: a [logger.error] line or an entry of the error
    log. *)
Definition is_error (ev : event) : bool :=
  match ev with
  | Log ERROR _ | LogError _ _ => true
  | _ => false
  end.

(** *** Counting occurrences across the pieces of a document *)

(** The non-empty suffixes of a string. *)
Fixpoint suffixes (s : string) : list string :=
  match s with
  | EmptyString => []
  | String _ s' => s :: suffixes s'
  end.

(** No occurrence of [needle] starts inside [a] and runs over its end:
    every non-empty suffix of [a] either holds [needle] entirely or
    differs from it at some position. *)
Definition closed_left (needle a : string) : bool :=
  forallb (fun a' => startswith a' needle || negb (startswith needle a'))
          (suffixes a).

(** No occurrence of [needle] that starts before [c] ends inside it: [c]
    differs at some position from every proper non-empty suffix of
    [needle]. *)
Definition closed_right (needle c : string) : bool :=
  forallb (fun r => negb (startswith c r) && negb (startswith r c))
          (suffixes (tail needle)).

(** The [title] element of the success document. *)
Definition title_element (title : string) : string :=
  "<title>" +:+ title +:+ "</title>".

(** The events the bundle check of [_generate_client_script_tag] records
    for a local URL. *)
Definition bundle_check_events (h : host) (c : component) (url : string)
    : list event :=
  if startswith url ("/assets/" +:+ app c +:+ "/ssr/") then
    if path_exists h (expected_bundle_path c url) then
      [Log DEBUG ("Vue client bundle found at " +:+ expected_bundle_path c url)]
    else
      [Log ERROR ("Vue client bundle not found at "
                  +:+ expected_bundle_path c url);
       LogError ("Vue client bundle not found at "
                 +:+ expected_bundle_path c url) "Vue Renderer"]
  else [Log WARNING ("Unrecognized static file URL pattern: " +:+ url)].

End Spec.

(** ** Concrete hosts, for examples *)
Module Examples.
Import PyString Py VueRenderer Spec.

Definition quoted (s : string) : string := dq +:+ s +:+ dq.

Definition demo_app_path (app : string) : string :=
  "/srv/bench/apps/" +:+ app +:+ "/" +:+ app.

Definition demo_module_dir : string :=
  "/srv/bench/apps/frappe_vue_ssr/frappe_vue_ssr/vue_renderer".

(** One application, [app], ships [www/hello.vue]; the renderer script is
    installed; no client bundle has been built. *)
Definition demo_files : gmap string fsnode :=
  {[ "/srv/bench/apps/app/app/www/hello.vue" := File "<template><p>hi</p></template>";
     "/srv/bench/apps/app/app/www" := Dir;
     "/srv/bench/apps/frappe_vue_ssr/frappe_vue_ssr/vue_renderer/vue_ssr_renderer.js"
       := File "// renderer" ]}.

Definition demo_json_dumps (sd : server_data) : string :=
  "{" +:+ quoted "serverTime" +:+ ": " +:+ quoted (serverTime sd) +:+ ", "
  +:+ quoted "user" +:+ ": " +:+ quoted (user sd) +:+ ", "
  +:+ quoted "siteName" +:+ ": " +:+ quoted (siteName sd) +:+ "}".

Definition not_installed (cmd : string) : run_outcome :=
  Raises (Exn FileNotFoundError
              ("[Errno 2] No such file or directory: '" +:+ cmd +:+ "'")).

Definition prints_version (version : string) : run_outcome :=
  Returns (Completed 0 (version +:+ "
") EmptyString).

(** A host given by what the version queries answer, what the SSR run
    does and how its output decodes. *)
Definition demo_host (probes : string -> run_outcome) (ssr : run_outcome)
    (loads : string -> string + pyval) : host :=
  {| installed_apps := ["frappe"; "app"; "frappe_vue_ssr"];
     get_app_path := demo_app_path;
     files := demo_files;
     module_dir := demo_module_dir;
     relpath := fun p start => substring (S (String.length start))
                                 (String.length p - S (String.length start)) p;
     subprocess_run := fun cmd cwd timeout =>
       match cmd with
       | [c; "--version"] => probes c
       | _ => ssr
       end;
     now_at := fun n => "2025-06-01 12:00:0" +:+ pretty n;
     session_user := "Guest";
     local_site := Some "site1.local";
     json_dumps := demo_json_dumps;
     json_loads := loads;
     repr_container := fun _ => "[...]" |}.

Definition no_json (s : string) : string + pyval :=
  inl "Expecting value: line 1 column 1 (char 0)".

(** The located component of the request [hello] on the demo hosts. *)
Definition hello : component :=
  {| app := "app";
     app_path := "/srv/bench/apps/app/app";
     vue_file_path := "/srv/bench/apps/app/app/www/hello.vue";
     template_path := "www/hello.vue";
     basepath := "/srv/bench/apps/app/app/www";
     filename := "hello.vue";
     name := "hello";
     vue_component_content := "<template><p>hi</p></template>" |}.

Definition hello_page : renderer :=
  {| path := "hello";
     located := Some hello;
     context := {[ "title" := PyStr "Vue SSR: hello" ]} |}.

(** Probe results [{v18.x, v23.x, v22.1}]: the v22 runtime is met first. *)
Definition probes_18_23_22 (cmd : string) : run_outcome :=
  if bool_decide (cmd = "node22") then prints_version "v22.1.0"
  else if bool_decide (cmd = "/usr/local/bin/node") then prints_version "v18.19.1"
  else if bool_decide (cmd = "node") then prints_version "v23.5.0"
  else not_installed cmd.

(** Two runtimes of major version 22. *)
Definition probes_22_1_22_9 (cmd : string) : run_outcome :=
  if bool_decide (cmd = "node22") then prints_version "v22.1.0"
  else if bool_decide (cmd = "node") then prints_version "v22.9.0"
  else not_installed cmd.

(** Only runtimes below the threshold. *)
Definition probes_18_20 (cmd : string) : run_outcome :=
  if bool_decide (cmd = "/usr/local/bin/node") then prints_version "v18.19.1"
  else if bool_decide (cmd = "node") then prints_version "v20.11.0"
  else not_installed cmd.

(** The first candidate exists but may not be executed. *)
Definition probes_permission (cmd : string) : run_outcome :=
  if bool_decide (cmd = "node22") then
    Raises (Exn PermissionError "[Errno 13] Permission denied: 'node22'")
  else if bool_decide (cmd = "node") then prints_version "v22.9.0"
  else not_installed cmd.

(** Candidates that time out, exit with an error or print something that
    is not a version. *)
Definition probes_faulty (cmd : string) : run_outcome :=
  if bool_decide (cmd = "node22") then
    Raises (Exn TimeoutExpired
                "Command '['node22', '--version']' timed out after 5 seconds")
  else if bool_decide (cmd = "/opt/homebrew/bin/node") then
    Returns (Completed 127 EmptyString "not found")
  else if bool_decide (cmd = "/usr/local/bin/node") then
    Returns (Completed 0 "vNext" EmptyString)
  else if bool_decide (cmd = "node") then prints_version "v22.9.0"
  else not_installed cmd.

(** The SSR run of the specification's failure example: exit code 1 and
    [boom] on the error stream. *)
Definition host_boom : host :=
  demo_host probes_18_23_22 (Returns (Completed 1 "ignored" "boom")) no_json.

(** The SSR run of the specification's success example. *)
Definition hi_stdout : string :=
  "{" +:+ quoted "success" +:+ ": true, "
  +:+ quoted "html" +:+ ": " +:+ quoted "<p>hi</p>" +:+ ", "
  +:+ quoted "styles" +:+ ": " +:+ quoted EmptyString +:+ ", "
  +:+ quoted "clientBundleUrl" +:+ ": " +:+ quoted "/assets/app/ssr/b.js" +:+ ", "
  +:+ quoted "serverDataScript" +:+ ": " +:+ quoted EmptyString +:+ "}".

Definition hi_response : gmap string pyval :=
  {[ "success" := PyBool true;
     "html" := PyStr "<p>hi</p>";
     "styles" := PyStr EmptyString;
     "clientBundleUrl" := PyStr "/assets/app/ssr/b.js";
     "serverDataScript" := PyStr EmptyString ]}.

Definition hi_loads (s : string) : string + pyval :=
  if bool_decide (s = hi_stdout) then inr (PyDict hi_response) else no_json s.

Definition host_hi : host :=
  demo_host probes_18_23_22 (Returns (Completed 0 hi_stdout EmptyString)) hi_loads.

(** A successful run whose response names no client bundle. *)
Definition plain_stdout : string :=
  "{" +:+ quoted "success" +:+ ": true, "
  +:+ quoted "html" +:+ ": " +:+ quoted "<p>hi</p>" +:+ "}".

Definition plain_response : gmap string pyval :=
  {[ "success" := PyBool true; "html" := PyStr "<p>hi</p>" ]}.

Definition plain_loads (s : string) : string + pyval :=
  if bool_decide (s = plain_stdout) then inr (PyDict plain_response)
  else no_json s.

Definition host_plain : host :=
  demo_host probes_18_23_22 (Returns (Completed 0 plain_stdout EmptyString))
            plain_loads.

Definition host_two_22 : host :=
  demo_host probes_22_1_22_9 (Returns (Completed 1 EmptyString "boom")) no_json.

Definition host_below : host :=
  demo_host probes_18_20 (Returns (Completed 1 EmptyString "boom")) no_json.

Definition host_permission : host :=
  demo_host probes_permission (Returns (Completed 1 EmptyString "boom")) no_json.

Definition host_faulty : host :=
  demo_host probes_faulty (Returns (Completed 1 EmptyString "boom")) no_json.

(** [h] on another file system. *)
Definition with_files (fs : gmap string fsnode) (h : host) : host :=
  {| installed_apps := installed_apps h;
     get_app_path := get_app_path h;
     files := fs;
     module_dir := module_dir h;
     relpath := relpath h;
     subprocess_run := subprocess_run h;
     now_at := now_at h;
     session_user := session_user h;
     local_site := local_site h;
     json_dumps := json_dumps h;
     json_loads := json_loads h;
     repr_container := repr_container h |}.

(** A host whose SSR run exits with code 0 and prints [out], which
    decodes to [v]. *)
Definition responding (out : string) (v : pyval) : host :=
  demo_host probes_18_23_22 (Returns (Completed 0 out EmptyString))
            (fun s => if bool_decide (s = out) then inr v else no_json s).

(** The renderer script has not been installed. *)
Definition host_no_renderer : host :=
  with_files
    {[ "/srv/bench/apps/app/app/www/hello.vue" := File "<template><p>hi</p></template>";
       "/srv/bench/apps/app/app/www" := Dir ]}
    host_hi.

(** The client bundle of the success example has been built. *)
Definition host_bundle : host :=
  with_files
    (<[ "/srv/bench/apps/app/app/public/ssr/b.js" := File "// bundle" ]> demo_files)
    host_hi.

(** The SSR run does not end in time; the SSR run cannot be started. *)
Definition host_timeout : host :=
  demo_host probes_18_23_22
    (Raises (Exn TimeoutExpired "Command timed out after 30 seconds")) no_json.

Definition host_crash : host :=
  demo_host probes_18_23_22
    (Raises (Exn OSError "[Errno 12] Cannot allocate memory")) no_json.

(** The SSR run prints something that is not JSON. *)
Definition host_garbage : host :=
  demo_host probes_18_23_22
    (Returns (Completed 0 "Segmentation fault" EmptyString)) no_json.

(** The renderer reports a failure, with partial markup. *)
Definition failed_response : gmap string pyval :=
  {[ "success" := PyBool false;
     "error" := PyStr "Template compile error";
     "html" := PyStr "<pre>partial</pre>" ]}.

Definition failed_stdout : string :=
  "{" +:+ quoted "success" +:+ ": false, "
  +:+ quoted "error" +:+ ": " +:+ quoted "Template compile error" +:+ ", "
  +:+ quoted "html" +:+ ": " +:+ quoted "<pre>partial</pre>" +:+ "}".

Definition host_failed : host :=
  responding failed_stdout (PyDict failed_response).

(** The output is JSON, but not an object. *)
Definition host_list : host := responding "[1, 2]" (PyList [PyInt 1; PyInt 2]).

(** Successful responses with unusual bundle URLs: a number, [null], a
    CDN address, a local path outside the asset directory of the
    application, and a path below a subdirectory of that directory. *)
Definition response_with_url (url : pyval) : gmap string pyval :=
  {[ "success" := PyBool true;
     "html" := PyStr "<p>hi</p>";
     "clientBundleUrl" := url ]}.

Definition stdout_with_url (url_text : string) : string :=
  "{" +:+ quoted "success" +:+ ": true, "
  +:+ quoted "html" +:+ ": " +:+ quoted "<p>hi</p>" +:+ ", "
  +:+ quoted "clientBundleUrl" +:+ ": " +:+ url_text +:+ "}".

Definition host_numeric_url : host :=
  responding (stdout_with_url "5") (PyDict (response_with_url (PyInt 5))).

Definition host_null_url : host :=
  responding (stdout_with_url "null") (PyDict (response_with_url PyNone)).

Definition cdn_url : string := "https://cdn.example.com/app.js".

Definition host_cdn : host :=
  responding (stdout_with_url (quoted cdn_url))
             (PyDict (response_with_url (PyStr cdn_url))).

(** Only a runtime too old to be mentioned is installed. *)
Definition probes_16 (cmd : string) : run_outcome :=
  if bool_decide (cmd = "node") then prints_version "v16.20.2"
  else not_installed cmd.

Definition host_old_node : host :=
  demo_host probes_16 (Returns (Completed 1 EmptyString "boom")) no_json.

(** Two applications ship the same page; [blog] was installed last. *)
Definition host_two_apps : host :=
  {| installed_apps := ["frappe"; "app"; "blog"];
     get_app_path := demo_app_path;
     files := <[ "/srv/bench/apps/blog/blog/www/hello.vue" := File "<template>blog</template>" ]>
                demo_files;
     module_dir := demo_module_dir;
     relpath := relpath host_hi;
     subprocess_run := subprocess_run host_hi;
     now_at := now_at host_hi;
     session_user := "Guest";
     local_site := None;
     json_dumps := demo_json_dumps;
     json_loads := no_json;
     repr_container := repr_container host_hi |}.

(** [blog], installed last, ships a [hello.vue] that is not UTF-8 text;
    [app], installed before it, ships a readable one. *)
Definition not_utf8 : exn :=
  Exn UnicodeDecodeError
      "'utf-8' codec can't decode byte 0xff in position 0: invalid start byte".

Definition host_binary : host :=
  with_files
    (<[ "/srv/bench/apps/blog/blog/www/hello.vue" := Unreadable not_utf8 ]>
       demo_files)
    host_two_apps.

(** The response names a bundle below a subdirectory of the asset
    directory; [b.js] has been built directly into [public/ssr], and
    [public/ssr/v2/min/b.js] does not exist. *)
Definition nested_url : string := "/assets/app/ssr/v2/min/b.js".

Definition host_nested_bundle : host :=
  with_files
    (<[ "/srv/bench/apps/app/app/public/ssr/b.js" := File "// bundle" ]> demo_files)
    (responding (stdout_with_url (quoted nested_url))
                (PyDict (response_with_url (PyStr nested_url)))).

(** The page of the request [hello] before [update_context] has run. *)
Definition untitled_page : renderer :=
  {| path := "hello"; located := Some hello; context := ∅ |}.

End Examples.

(** ** Properties of the renderer *)
Module RendererProps.
Import PyString Py VueRenderer Spec Examples.

(** *** The string and path functions on examples *)

Example py_int_examples :
  py_int "22" = Some 22%Z /\ py_int " 22 " = Some 22%Z
  /\ py_int "-5" = Some (-5)%Z /\ py_int "1_000" = Some 1000%Z
  /\ py_int "" = None /\ py_int "Next" = None /\ py_int "22_" = None.
Proof. repeat split. Qed.

Example major_version_examples :
  split_head "." (tail (strip "v22.1.0
")) = "22"
  /\ split_head "." (tail "v23") = "23"
  /\ split_last "/" "/assets/app/ssr/b.js" = "b.js".
Proof. repeat split. Qed.

Example posixpath_examples :
  PosixPath.join "/srv/apps/app/app" ["www"; "docs/intro" +:+ ".vue"]
  = "/srv/apps/app/app/www/docs/intro.vue"
  /\ PosixPath.join "/srv/apps/app/app" ["www"; "/etc/passwd" +:+ ".vue"]
    = "/etc/passwd.vue"
  /\ PosixPath.dirname "/srv/apps/app/app" = "/srv/apps/app"
  /\ PosixPath.basename "/srv/apps/app/app/www/docs/intro.vue" = "intro.vue"
  /\ PosixPath.splitext_root "intro.vue" = "intro"
  /\ PosixPath.splitext_root ".vue" = ".vue".
Proof. repeat split. Qed.

Example sort_desc_example :
  sort_desc [("a", 22%Z, "v22.1.0"); ("b", 23%Z, "v23.0.0");
             ("c", 22%Z, "v22.9.0"); ("d", 23%Z, "v23.5.0")]
  = [("b", 23%Z, "v23.0.0"); ("d", 23%Z, "v23.5.0");
     ("a", 22%Z, "v22.1.0"); ("c", 22%Z, "v22.9.0")].
Proof. reflexivity. Qed.

Example locator_example :
  (init host_hi "hello" ∅ initial).1
  = inr {| path := "hello"; located := Some hello; context := ∅ |}
  /\ (init host_hi "missing" ∅ initial).1
    = inr {| path := "missing"; located := None; context := ∅ |}.
Proof. split; vm_compute; reflexivity. Qed.

(** *** Facts about strings *)

Lemma append_cons x (a b : string) : String x a +:+ b = String x (a +:+ b).
Proof. reflexivity. Qed.

Lemma append_assoc (a b c : string) : (a +:+ b) +:+ c = a +:+ b +:+ c.
Proof.
  induction a as [|x a IH]; [reflexivity|].
  rewrite !append_cons. now f_equal.
Qed.

Lemma length_append (a b : string) :
  String.length (a +:+ b) = String.length a + String.length b.
Proof.
  induction a as [|x a IH]; [reflexivity|].
  rewrite append_cons. simpl. now f_equal.
Qed.

Lemma contains_here x b : contains x (x +:+ b).
Proof. exists EmptyString, b. reflexivity. Qed.

Lemma append_nil_r (a : string) : a +:+ EmptyString = a.
Proof.
  induction a as [|x a IH]; [reflexivity|].
  rewrite append_cons. now f_equal.
Qed.

Lemma contains_suffix x a : contains x (a +:+ x).
Proof. exists a, EmptyString. now rewrite append_nil_r. Qed.

Lemma contains_skip x a b : contains x b -> contains x (a +:+ b).
Proof.
  intros (pre & post & ->). exists (a +:+ pre), post.
  now rewrite append_assoc.
Qed.

Lemma contains_around p x q r a b :
  ends p a -> starts q b -> contains (a +:+ x +:+ b) (p +:+ x +:+ q +:+ r).
Proof.
  intros [p' ->] [q' ->]. exists p', (q' +:+ r).
  now rewrite !append_assoc.
Qed.

Lemma contains_trans a b c : contains a b -> contains b c -> contains a c.
Proof.
  intros (p1 & q1 & ->) (p2 & q2 & ->). exists (p2 +:+ p1), (q1 +:+ q2).
  now rewrite !append_assoc.
Qed.

Lemma ends_append p q a : ends q a -> ends (p +:+ q) a.
Proof. intros [q' ->]. exists (p +:+ q'). now rewrite append_assoc. Qed.

Lemma append_same_length_inj (a b s1 s2 : string) :
  String.length s1 = String.length s2 ->
  a +:+ s1 = b +:+ s2 -> s1 = s2.
Proof.
  revert b. induction a as [|x a IH]; intros [|y b] Hlen Heq.
  - assumption.
  - apply (f_equal String.length) in Heq.
    rewrite !length_append in Heq. simpl in Heq. lia.
  - apply (f_equal String.length) in Heq.
    rewrite !length_append in Heq. simpl in Heq. lia.
  - rewrite !append_cons in Heq. injection Heq as _ Heq. eauto.
Qed.

Lemma ends_unique s a b :
  ends s a -> ends s b -> String.length a = String.length b -> a = b.
Proof.
  intros [s1 ->] [s2 H] Hlen. eapply append_same_length_inj; eauto.
Qed.

Lemma startswith_app p rest : startswith (p +:+ rest) p = true.
Proof.
  induction p as [|x p IH]; [reflexivity|].
  rewrite append_cons. cbn [startswith]. rewrite IH.
  now rewrite bool_decide_eq_true_2.
Qed.

Lemma contains_char_app_r sep a b :
  contains_char sep b = true -> contains_char sep (a +:+ b) = true.
Proof.
  intros Hb. induction a as [|x a IH]; [exact Hb|].
  rewrite append_cons. cbn [contains_char]. now rewrite IH, orb_true_r.
Qed.

Lemma split_last_segment a file :
  contains_char "/" file = false ->
  split_last "/" (a +:+ "/" +:+ file) = file.
Proof.
  intros Hf. induction a as [|x a IH].
  - change (EmptyString +:+ "/" +:+ file) with (String "/" file).
    cbn [split_last]. rewrite Hf. reflexivity.
  - rewrite append_cons. cbn [split_last].
    rewrite contains_char_app_r by reflexivity. exact IH.
Qed.

Lemma startswith_extend a b n :
  startswith a n = true -> startswith (a +:+ b) n = true.
Proof.
  revert a. induction n as [|y n IH]; intros a H; [reflexivity|].
  destruct a as [|x a]; [discriminate|].
  rewrite append_cons. cbn [startswith] in *.
  apply andb_prop in H as [-> Ha]. now rewrite IH.
Qed.

Lemma startswith_mismatch c d r :
  startswith c r = false -> startswith r c = false ->
  startswith (c +:+ d) r = false.
Proof.
  revert r. induction c as [|x c IH]; intros r Hcr Hrc.
  - now destruct r.
  - destruct r as [|y r]; [discriminate|].
    rewrite append_cons. cbn [startswith] in *.
    destruct (bool_decide (y = x)) eqn:Hyx.
    + apply bool_decide_eq_true in Hyx as ->.
      rewrite bool_decide_eq_true_2 in * by reflexivity. cbn [andb] in *.
      now apply IH.
    + reflexivity.
Qed.

Lemma occurrences_nil n : is_empty n = false -> occurrences n EmptyString = 0.
Proof. now destruct n. Qed.

Lemma occurrences_cons n x s :
  occurrences n (String x s)
  = (if startswith (String x s) n then 1 else 0) + occurrences n s.
Proof. reflexivity. Qed.

(** Splitting the count at the end of a piece no occurrence runs over. *)
Lemma occurrences_closed_left n a b :
  is_empty n = false -> closed_left n a = true ->
  occurrences n (a +:+ b) = occurrences n a + occurrences n b.
Proof.
  intros Hn. induction a as [|x a IH]; intros Hcl.
  - change (EmptyString +:+ b) with b. now rewrite occurrences_nil.
  - unfold closed_left in Hcl. cbn [suffixes forallb] in Hcl.
    apply andb_prop in Hcl as [Hx Ha]. specialize (IH Ha).
    rewrite append_cons, !occurrences_cons, IH, <- append_cons.
    destruct (startswith (String x a) n) eqn:Hs.
    + rewrite (startswith_extend _ b _ Hs). lia.
    + cbn [orb] in Hx. apply negb_true_iff in Hx.
      rewrite (startswith_mismatch _ b _ Hs Hx). lia.
Qed.

Lemma startswith_no_crossing t a n :
  (forall r, r ∈ suffixes n -> startswith t r = false) ->
  startswith (a +:+ t) n = startswith a n.
Proof.
  revert n. induction a as [|x a IH]; intros n Ht.
  - change (EmptyString +:+ t) with t. destruct n as [|y n]; [now destruct t|].
    rewrite Ht by (cbn [suffixes]; left). reflexivity.
  - destruct n as [|y n]; [reflexivity|].
    rewrite append_cons. cbn [startswith]. rewrite IH; [reflexivity|].
    intros r Hr. apply Ht. cbn [suffixes]. now right.
Qed.

(** Splitting the count in front of a piece no occurrence runs into. *)
Lemma occurrences_closed_right n a c d :
  is_empty n = false -> closed_right n c = true ->
  occurrences n (a +:+ c +:+ d) = occurrences n a + occurrences n (c +:+ d).
Proof.
  intros Hn Hcr.
  assert (Ht : forall r, r ∈ suffixes (tail n) -> startswith (c +:+ d) r = false).
  { intros r Hr. unfold closed_right in Hcr.
    rewrite forallb_forall in Hcr. apply list_elem_of_In in Hr.
    specialize (Hcr r Hr). apply andb_prop in Hcr as [H1 H2].
    apply negb_true_iff in H1, H2. now apply startswith_mismatch. }
  induction a as [|x a IH].
  - change (EmptyString +:+ c +:+ d) with (c +:+ d). now rewrite occurrences_nil.
  - rewrite append_cons, !occurrences_cons, IH.
    assert (Hsw : startswith (String x (a +:+ c +:+ d)) n
                  = startswith (String x a) n).
    { destruct n as [|y n]; [discriminate|].
      cbn [startswith]. cbn [tail] in Ht.
      now rewrite (startswith_no_crossing _ a n Ht). }
    rewrite Hsw. lia.
Qed.

Lemma occurrences_closed_end n a c :
  is_empty n = false -> closed_right n c = true ->
  occurrences n (a +:+ c) = occurrences n a + occurrences n c.
Proof.
  intros Hn Hcr. rewrite <- (append_nil_r c) at 1.
  rewrite occurrences_closed_right by assumption. now rewrite append_nil_r.
Qed.

(** Counting and containment. *)
Lemma startswith_prefix s p :
  startswith s p = true -> exists rest, s = p +:+ rest.
Proof.
  revert s. induction p as [|y p IH]; intros s H.
  - exists s. reflexivity.
  - destruct s as [|x s]; [discriminate|]. cbn [startswith] in H.
    apply andb_prop in H as [Hx Hs]. apply bool_decide_eq_true in Hx as ->.
    destruct (IH _ Hs) as [rest ->]. exists rest. reflexivity.
Qed.

Lemma occurrences_contains n s : occurrences n s <> 0 -> contains n s.
Proof.
  induction s as [|x s IH].
  - cbn [occurrences]. destruct (startswith EmptyString n) eqn:Hs; [|congruence].
    intros _. destruct (startswith_prefix _ _ Hs) as [rest Hrest].
    exists EmptyString, rest. exact Hrest.
  - rewrite occurrences_cons.
    destruct (startswith (String x s) n) eqn:Hs.
    + intros _. destruct (startswith_prefix _ _ Hs) as [rest Hrest].
      exists EmptyString, rest. exact Hrest.
    + intros H. destruct IH as (pre & post & ->); [exact H|].
      exists (String x pre), post. reflexivity.
Qed.

Lemma contains_occurrences n s : contains n s -> occurrences n s <> 0.
Proof.
  intros (pre & post & ->). induction pre as [|x pre IH].
  - change (EmptyString +:+ n +:+ post) with (n +:+ post).
    pose proof (startswith_app n post) as Hs.
    destruct (n +:+ post) as [|y t]; cbn [occurrences]; rewrite Hs; lia.
  - rewrite append_cons, occurrences_cons. lia.
Qed.

Lemma contains_prefix x a b : contains x a -> contains x (a +:+ b).
Proof.
  intros (pre & post & ->). exists pre, (post +:+ b).
  now rewrite !append_assoc.
Qed.

Lemma contains_between p x q a b :
  ends p a -> starts q b -> contains (a +:+ x +:+ b) (p +:+ x +:+ q).
Proof.
  intros [p' ->] [q' ->]. exists p', q'. now rewrite !append_assoc.
Qed.

Lemma starts_append p q b : starts p b -> starts (p +:+ q) b.
Proof. intros [p' ->]. exists (p' +:+ q). now rewrite append_assoc. Qed.

(** Closed goals on the text of the templates. *)
Ltac ends_by_computation :=
  match goal with
  | |- ends ?s ?a =>
      exists (substring 0 (String.length s - String.length a) s);
      vm_compute; reflexivity
  end.

Ltac starts_by_computation :=
  match goal with
  | |- starts ?s ?b =>
      exists (substring (String.length b) (String.length s - String.length b) s);
      vm_compute; reflexivity
  end.

Ltac contains_by_computation :=
  apply occurrences_contains; vm_compute; discriminate.

(** *** Reasoning about statements *)

Ltac munfold :=
  cbv beta iota delta
    [mbind M_bind mret M_ret raise try_except emit log log_error print
     frappe_throw].

Ltac mstep := munfold; cbn beta iota delta [negb events clock].

Lemma bind_inr {A B} (m : M A) (f : A -> M B) st x st' :
  m st = (inr x, st') -> (m ≫= f) st = f x st'.
Proof. intros H. munfold. now rewrite H. Qed.

Lemma bind_inl {A B} (m : M A) (f : A -> M B) st e st' :
  m st = (inl e, st') -> (m ≫= f) st = (inl e, st').
Proof. intros H. munfold. now rewrite H. Qed.

(** Every exception of the model is an [Exception]. *)
Lemma isinstance_Exception e : isinstance e [Exception_] = true.
Proof.
  destruct e as [c msg]. unfold isinstance. simpl.
  rewrite orb_false_r. unfold issubclass. apply bool_decide_eq_true.
  destruct c; simpl; set_solver.
Qed.

Lemma si_ret {A} (x : A) : state_independent (mret x : M A).
Proof. now intros st1 st2. Qed.

Lemma si_raise {A} e : state_independent (raise e : M A).
Proof. now intros st1 st2. Qed.

Lemma si_emit ev : state_independent (emit ev).
Proof. now intros st1 st2. Qed.

Lemma si_bind {A B} (m : M A) (f : A -> M B) :
  state_independent m -> (forall x, state_independent (f x)) ->
  state_independent (m ≫= f).
Proof.
  intros Hm Hf st1 st2. munfold. specialize (Hm st1 st2).
  destruct (m st1) as [[e1|x1] s1], (m st2) as [[e2|x2] s2];
    simpl in Hm; try discriminate; try (now inversion Hm).
  inversion Hm; subst. apply Hf.
Qed.

Lemma si_try {A} (m : M A) (k : exn -> M A) :
  state_independent m -> (forall e, state_independent (k e)) ->
  state_independent (try_except m k).
Proof.
  intros Hm Hk st1 st2. munfold. specialize (Hm st1 st2).
  destruct (m st1) as [[e1|x1] s1], (m st2) as [[e2|x2] s2];
    simpl in Hm; try discriminate; try (now inversion Hm).
  inversion Hm; subst. apply Hk.
Qed.

Ltac si :=
  repeat first
    [ apply si_ret | apply si_raise | apply si_emit
    | apply si_bind; [| intros ?] | apply si_try; [| intros ?]
    | match goal with
      | |- state_independent (if ?b then _ else _) => destruct b
      | |- state_independent (match ?x with _ => _ end) => destruct x
      end ].

Lemma si_returns {A} (m : M A) x st :
  state_independent m -> returns m x -> exists st', m st = (inr x, st').
Proof.
  intros Hm (st0 & st0' & H0). specialize (Hm st st0). rewrite H0 in Hm.
  destruct (m st) as [r st']. simpl in Hm. subst r. now exists st'.
Qed.

Section WithHost.
Variable h : host.

Lemma si_probe cmd acc : state_independent (probe h cmd acc).
Proof.
  unfold probe, run, python_int, log, print. si.
Qed.

Lemma si_probe_all cmds : forall acc, state_independent (probe_all h cmds acc).
Proof.
  induction cmds as [|cmd rest IH]; intros acc; simpl.
  - apply si_ret.
  - apply si_bind; [apply si_probe | intros acc'; apply IH].
Qed.

Lemma si_select_node v22 others : state_independent (select_node v22 others).
Proof.
  unfold select_node, frappe_throw, log, print. si.
Qed.

Lemma si_get_compatible_node_command :
  state_independent (get_compatible_node_command h).
Proof.
  unfold get_compatible_node_command.
  apply si_bind; [apply si_probe_all | intros nodes; apply si_select_node].
Qed.

(** *** The component locator *)

Lemma find_first {A} (f : A -> bool) (l : list A) :
  match find f l with
  | Some x =>
      exists before after,
        l = before ++ x :: after /\ f x = true
        /\ forall y, y ∈ before -> f y = false
  | None => forall y, y ∈ l -> f y = false
  end.
Proof.
  induction l as [|a l IH]; simpl.
  - intros y Hy. inversion Hy.
  - destruct (f a) eqn:Ha.
    + exists [], l. repeat split; auto. intros y Hy. inversion Hy.
    + destruct (find f l) as [x|].
      * destruct IH as (before & after & -> & Hx & Hb).
        exists (a :: before), after. repeat split; auto.
        intros y [->|Hy]%elem_of_cons; auto.
      * intros y [->|Hy]%elem_of_cons; auto.
Qed.

Lemma isfile_node p :
  isfile h p = true ->
  (exists content, files h !! p = Some (File content))
  \/ (exists e, files h !! p = Some (Unreadable e)).
Proof.
  unfold isfile. destruct (files h !! p) as [[content|e|]|]; try discriminate;
    eauto.
Qed.

(** The search stops at the first application whose candidate is a file:
    it logs the file and reads it; what the reading raises leaves the
    loop. *)
Lemma search_apps_finds request_path apps st :
  match find (fun app => isfile h (candidate_path h request_path app)) apps with
  | Some app =>
      let found :=
        State (events st
               ++ [Log INFO ("Found Vue file: "
                             +:+ candidate_path h request_path app
                             +:+ " in app: " +:+ app)])
              (clock st) in
      (exists content,
         files h !! candidate_path h request_path app = Some (File content)
         /\ search_apps h request_path apps st
            = (inr (Some (component_of h request_path app content)), found))
      \/ (exists e,
            files h !! candidate_path h request_path app = Some (Unreadable e)
            /\ search_apps h request_path apps st = (inl e, found))
  | None => search_apps h request_path apps st = (inr None, st)
  end.
Proof.
  induction apps as [|a apps IH]; cbn [find search_apps]; [reflexivity|].
  fold (candidate_path h request_path a).
  destruct (isfile h (candidate_path h request_path a)) eqn:Hfile.
  - cbv zeta.
    destruct (isfile_node _ Hfile) as [[content Hnode]|[e Hnode]];
      [left; exists content | right; exists e];
      (split; [assumption|]);
      unfold read_text; munfold; rewrite Hnode; reflexivity.
  - exact IH.
Qed.

Lemma init_unfold request_path ctx st :
  init h request_path ctx st
  = match search_apps h request_path (rev (installed_apps h)) st with
    | (inr found, st') =>
        (inr {| path := request_path; located := found; context := ctx |}, st')
    | (inl e, st') => (inl e, st')
    end.
Proof. reflexivity. Qed.

(** C4, as the code has it: the locator goes through the installed
    applications in reverse installation order and stops at the first one
    whose [www/<path>.vue] is a file.  When that file reads as UTF-8 text
    it records the application, the path of the file, its content and the
    names derived from the path; the renderer can render, and
    [update_context] derives the title from the name.  When reading the
    file raises, the exception leaves the constructor once the file has
    been logged: no renderer is made, and the applications installed
    earlier are not tried.  When no installed application has such a file
    nothing is recorded and [can_render] is false. *)
Theorem locator_selects_first_matching_app request_path ctx st :
  match owning_app h request_path with
  | Some app =>
      let file := candidate_path h request_path app in
      (exists before after,
         rev (installed_apps h) = before ++ app :: after
         /\ isfile h file = true
         /\ forall other, other ∈ before ->
                         isfile h (candidate_path h request_path other) = false)
      /\ ((exists content self st',
             files h !! file = Some (File content)
             /\ init h request_path ctx st = (inr self, st')
             /\ located self = Some (component_of h request_path app content)
             /\ vue_component_content (component_of h request_path app content)
                = content
             /\ can_render h self = true
             /\ exists self',
                  update_context self st' = (inr self', st')
                  /\ located self' = located self
                  /\ context self' !! "title"
                     = Some (PyStr ("Vue SSR: "
                                    +:+ name (component_of h request_path app
                                                           content))))
          \/ (exists e,
                files h !! file = Some (Unreadable e)
                /\ init h request_path ctx st
                   = (inl e,
                      State (events st
                             ++ [Log INFO ("Found Vue file: " +:+ file
                                           +:+ " in app: " +:+ app)])
                            (clock st))))
  | None =>
      (forall app, app ∈ installed_apps h ->
                   isfile h (candidate_path h request_path app) = false)
      /\ exists self,
           init h request_path ctx st = (inr self, st)
           /\ located self = None
           /\ can_render h self = false
  end.
Proof.
  unfold owning_app.
  pose proof (find_first (fun app => isfile h (candidate_path h request_path app))
                         (rev (installed_apps h))) as Hfirst.
  pose proof (search_apps_finds request_path (rev (installed_apps h)) st) as Hsearch.
  rewrite init_unfold.
  destruct (find _ (rev (installed_apps h))) as [app|].
  - cbv zeta in *. split; [exact Hfirst|].
    destruct Hfirst as (_ & _ & _ & Hfile & _).
    destruct Hsearch as [(content & Hnode & ->)|(e & Hnode & ->)].
    + left. exists content. eexists _, _. split; [exact Hnode|].
      split; [reflexivity|]. split; [reflexivity|]. split; [reflexivity|].
      split; [exact Hfile|].
      eexists. split; [reflexivity|]. split; [reflexivity|].
      cbn [context]. rewrite lookup_insert_ne by discriminate.
      rewrite lookup_insert_ne by discriminate.
      now rewrite lookup_insert_eq.
    + right. exists e. split; [exact Hnode | reflexivity].
  - rewrite Hsearch. split.
    + intros app Happ. apply Hfirst.
      apply list_elem_of_In, in_rev. rewrite rev_involutive.
      now apply list_elem_of_In.
    + eexists. split; [reflexivity|]. split; reflexivity.
Qed.

(** *** The runtime selector *)

(** What one iteration of the probing loop does: either it returns,
    having appended the candidate to the list its report puts it in, or
    the version query raised an exception the loop does not catch, which
    leaves the loop. *)
Lemma probe_outcome cmd acc st :
  (exists evs,
     probe h cmd acc st
     = (inr (acc.1 ++ option_list (v22_entry h cmd),
             acc.2 ++ option_list (other_entry h cmd)),
        State (events st ++ evs) (clock st)))
  \/ (exists e,
        subprocess_run h [cmd; "--version"] None 5 = Raises e
        /\ isinstance e caught_by_probe = false
        /\ probe h cmd acc st = (inl e, st)).
Proof.
  destruct acc as [v22 others].
  unfold probe, v22_entry, other_entry, reported, run, python_int.
  fold caught_by_probe. cbn [fst snd].
  destruct (subprocess_run h [cmd; "--version"] None 5) as [r|e].
  - left. munfold. destruct (returncode r =? 0)%Z.
    + destruct (startswith (strip (stdout r)) "v").
      * destruct (py_int (split_head "." (tail (strip (stdout r))))) as [major|].
        -- cbn [fmap option_fmap option_map].
           destruct (22 <=? major)%Z; [|destruct (18 <=? major)%Z];
             mstep; cbn [option_list]; rewrite ?app_nil_r;
             eexists; rewrite <- ?app_assoc; reflexivity.
        -- mstep. cbn [fmap option_fmap option_map option_list].
           rewrite !app_nil_r. eexists. rewrite <- ?app_assoc. reflexivity.
      * mstep. cbn [option_list]. rewrite !app_nil_r.
        eexists. rewrite <- ?app_assoc. reflexivity.
    + cbn [option_list]. rewrite !app_nil_r. exists [].
      rewrite app_nil_r. now destruct st.
  - munfold. destruct (isinstance e caught_by_probe) eqn:He.
    + left. cbn [option_list]. rewrite !app_nil_r. exists [].
      rewrite app_nil_r. now destruct st.
    + right. exists e. auto.
Qed.

Lemma probe_absorbed cmd acc st :
  absorbed h cmd ->
  exists evs,
    probe h cmd acc st
    = (inr (acc.1 ++ option_list (v22_entry h cmd),
            acc.2 ++ option_list (other_entry h cmd)),
       State (events st ++ evs) (clock st)).
Proof.
  intros Habs. destruct (probe_outcome cmd acc st) as [H|(e & Hrun & He & _)].
  - exact H.
  - unfold absorbed in Habs. rewrite Hrun in Habs. congruence.
Qed.

Lemma omap_cons_option_list {A B} (f : A -> option B) x l :
  omap f (x :: l) = option_list (f x) ++ omap f l.
Proof. cbn. now destruct (f x). Qed.

(** A loop that ends normally has collected the candidates by their
    reports. *)
Lemma probe_all_returned cmds : forall acc acc' st st',
  probe_all h cmds acc st = (inr acc', st') ->
  acc' = (acc.1 ++ v22_candidates h cmds, acc.2 ++ other_candidates h cmds).
Proof.
  unfold v22_candidates, other_candidates.
  induction cmds as [|cmd rest IH]; intros acc acc' st st' H.
  - cbn in H. injection H as <- _. cbn. rewrite !app_nil_r. now destruct acc.
  - cbn [probe_all] in H.
    destruct (probe_outcome cmd acc st) as [[evs Hp]|(e & _ & _ & Hp)].
    + rewrite (bind_inr _ _ _ _ _ Hp) in H. apply IH in H. cbn [fst snd] in H.
      rewrite !omap_cons_option_list, !app_assoc. exact H.
    + rewrite (bind_inl _ _ _ _ _ Hp) in H. discriminate.
Qed.

(** When every version query is absorbed the loop ends normally. *)
Lemma probe_all_absorbed cmds : forall acc st,
  (forall cmd, cmd ∈ cmds -> absorbed h cmd) ->
  exists st',
    probe_all h cmds acc st
    = (inr (acc.1 ++ v22_candidates h cmds, acc.2 ++ other_candidates h cmds),
       st').
Proof.
  induction cmds as [|cmd rest IH]; intros acc st Habs.
  - exists st. cbn. rewrite !app_nil_r. now destruct acc.
  - destruct (probe_absorbed cmd acc st) as [evs Hp]; [apply Habs; left|].
    destruct (IH (acc.1 ++ option_list (v22_entry h cmd),
                  acc.2 ++ option_list (other_entry h cmd))
                 (State (events st ++ evs) (clock st))) as [st' Hrest].
    { intros c Hc. apply Habs. now right. }
    exists st'. cbn [probe_all]. rewrite (bind_inr _ _ _ _ _ Hp), Hrest.
    cbn [fst snd]. unfold v22_candidates, other_candidates.
    now rewrite !omap_cons_option_list, !app_assoc.
Qed.

Lemma sort_desc_nil l : sort_desc l = [] -> l = [].
Proof.
  destruct l as [|x l]; [reflexivity|]. cbn [sort_desc].
  destruct (sort_desc l) as [|y s]; cbn; [discriminate|].
  destruct (entry_major x <? entry_major y)%Z; discriminate.
Qed.

(** The head of the sorted list is the first entry of greatest key. *)
Lemma sort_desc_head l : forall e rest,
  sort_desc l = e :: rest ->
  exists before after,
    l = before ++ e :: after
    /\ (forall x, x ∈ before -> (entry_major x < entry_major e)%Z)
    /\ (forall x, x ∈ after -> (entry_major x <= entry_major e)%Z).
Proof.
  induction l as [|x l IH]; intros e rest Hs; [discriminate|].
  cbn [sort_desc] in Hs. destruct (sort_desc l) as [|y s] eqn:Hl.
  - apply sort_desc_nil in Hl. subst l. cbn in Hs. injection Hs as <- _.
    exists [], []. repeat split; intros z Hz; inversion Hz.
  - destruct (IH y s eq_refl) as (before & after & -> & Hb & Ha).
    cbn [insert_desc] in Hs.
    destruct (entry_major x <? entry_major y)%Z eqn:Hxy.
    + injection Hs as <- _. apply Z.ltb_lt in Hxy.
      exists (x :: before), after. repeat split; auto.
      intros z [->|Hz]%elem_of_cons; auto.
    + injection Hs as <- _. apply Z.ltb_ge in Hxy.
      exists [], (before ++ y :: after). repeat split.
      * intros z Hz. inversion Hz.
      * intros z [Hz|[->|Hz]%elem_of_cons]%elem_of_app.
        -- specialize (Hb z Hz). lia.
        -- exact Hxy.
        -- specialize (Ha z Hz). lia.
Qed.

Lemma v22_candidates_reported cmds e :
  e ∈ v22_candidates h cmds ->
  entry_cmd e ∈ cmds
  /\ reported h (entry_cmd e) = Some (entry_major e, entry_version e)
  /\ (22 <= entry_major e)%Z.
Proof.
  unfold v22_candidates. intros (cmd & Hcmd & He)%list_elem_of_omap.
  unfold v22_entry in He.
  destruct (reported h cmd) as [[major version]|] eqn:Hr; [|discriminate].
  destruct (22 <=? major)%Z eqn:Hm; [|discriminate].
  injection He as <-. cbn. repeat split; auto. now apply Z.leb_le.
Qed.

Lemma select_node_first_of_highest_major v22 others st e rest :
  sort_desc v22 = e :: rest ->
  exists st', select_node v22 others st = (inr (entry_cmd e), st').
Proof.
  intros Hs. unfold select_node. destruct v22 as [|x v22]; [discriminate|].
  rewrite Hs. destruct e as [[cmd major] version]. mstep. eexists. reflexivity.
Qed.

(** Without a v22+ candidate the selector throws, with the versions of
    the candidates between 18 and 21 in the message. *)
Lemma select_node_throws others st :
  exists st',
    select_node [] others st
    = (inl (Exn ValidationError (node_required_msg others)), st').
Proof.
  unfold select_node. destruct others; mstep; eexists; reflexivity.
Qed.

Lemma select_node_selected v22 others st selected st' :
  select_node v22 others st = (inr selected, st') ->
  exists e, e ∈ v22 /\ selected = entry_cmd e.
Proof.
  unfold select_node. destruct v22 as [|x v22].
  - destruct others; mstep; discriminate.
  - destruct (sort_desc (x :: v22)) as [|e rest] eqn:Hs; [discriminate|].
    destruct (sort_desc_head _ _ _ Hs) as (before & after & Hl & _).
    destruct e as [[cmd major] version]. mstep. intros H. injection H as <- _.
    exists (cmd, major, version). split; [|reflexivity].
    rewrite Hl. set_solver.
Qed.

(** What the selector returns is a candidate that reported a major
    version of 22 or more. *)
Lemma selected_is_usable st selected st' :
  get_compatible_node_command h st = (inr selected, st') ->
  exists major version,
    selected ∈ node_commands
    /\ reported h selected = Some (major, version) /\ (22 <= major)%Z.
Proof.
  unfold get_compatible_node_command. intros H.
  destruct (probe_all h node_commands ([], []) st) as [[e|nodes] st1] eqn:Hp.
  - rewrite (bind_inl _ _ _ _ _ Hp) in H. discriminate.
  - rewrite (bind_inr _ _ _ _ _ Hp) in H.
    apply probe_all_returned in Hp. subst nodes. cbn [fst snd app] in H.
    apply select_node_selected in H as (e & He & ->).
    apply v22_candidates_reported in He as (Hcmd & Hr & Hm). eauto.
Qed.

(** C3, as the code has it: when every version query is absorbed and
    some candidate reports a major version of 22 or more, the selector
    returns a candidate of the greatest major version among these; of
    several candidates with that major version it returns the one probed
    first, whatever their minor and patch numbers. *)
Theorem selector_picks_first_of_highest_major st :
  (forall cmd, cmd ∈ node_commands -> absorbed h cmd) ->
  v22_candidates h node_commands <> [] ->
  exists before e after st',
    v22_candidates h node_commands = before ++ e :: after
    /\ get_compatible_node_command h st = (inr (entry_cmd e), st')
    /\ reported h (entry_cmd e) = Some (entry_major e, entry_version e)
    /\ (22 <= entry_major e)%Z
    /\ (forall x, x ∈ before -> (entry_major x < entry_major e)%Z)
    /\ (forall x, x ∈ after -> (entry_major x <= entry_major e)%Z).
Proof.
  intros Habs Hne.
  destruct (probe_all_absorbed node_commands ([], []) st Habs) as [st1 Hp].
  cbn [fst snd app] in Hp.
  destruct (sort_desc (v22_candidates h node_commands)) as [|e rest] eqn:Hs.
  { apply sort_desc_nil in Hs. contradiction. }
  destruct (sort_desc_head _ _ _ Hs) as (before & after & Hl & Hb & Ha).
  destruct (select_node_first_of_highest_major _
              (other_candidates h node_commands) st1 _ _ Hs) as [st' Hsel].
  assert (He : e ∈ v22_candidates h node_commands) by (rewrite Hl; set_solver).
  apply v22_candidates_reported in He as (_ & Hr & Hm).
  exists before, e, after, st'. repeat split; auto.
  unfold get_compatible_node_command.
  rewrite (bind_inr _ _ _ _ _ Hp). exact Hsel.
Qed.

(** C7, as the code has it: a candidate whose version query exits with a
    non-zero code or raises one of the exceptions the loop catches
    ([SubprocessError], the timeout among them, [ValueError],
    [FileNotFoundError]), or whose output is not of the form
    [v<major>...], is skipped silently.  A query that fails leaves no
    trace: the two lists, the log and what was printed are as before.  A
    query that exits with code 0 leaves the line [Found Node.js: <cmd> ->
    <version>], printed and logged at debug level, and nothing else.  In
    both cases the loop goes on with the remaining candidates from the
    lists as they were, and the selector never returns the candidate. *)
Theorem unusable_candidates_are_skipped cmd :
  unusable h cmd ->
  absorbed h cmd ->
  ((forall r, subprocess_run h [cmd; "--version"] None 5 = Returns r ->
              returncode r <> 0%Z) ->
   skipped_silently h cmd)
  /\ (forall r acc st,
        subprocess_run h [cmd; "--version"] None 5 = Returns r ->
        returncode r = 0%Z ->
        probe h cmd acc st
        = (inr acc,
           State (events st
                  ++ [Print (found_line cmd (strip (stdout r)));
                      Log DEBUG (found_line cmd (strip (stdout r)))])
                 (clock st)))
  /\ (forall acc st rest,
        exists st',
          probe h cmd acc st = (inr acc, st')
          /\ probe_all h (cmd :: rest) acc st = probe_all h rest acc st')
  /\ (forall st selected st',
        get_compatible_node_command h st = (inr selected, st') ->
        selected <> cmd).
Proof.
  intros Hun Habs.
  assert (Hquiet : (forall r, subprocess_run h [cmd; "--version"] None 5 = Returns r ->
                              returncode r <> 0%Z) ->
                   skipped_silently h cmd).
  { intros Hfail acc st. unfold probe, run. unfold absorbed in Habs.
    fold caught_by_probe.
    destruct (subprocess_run h [cmd; "--version"] None 5) as [r|e].
    - specialize (Hfail r eq_refl). apply Z.eqb_neq in Hfail.
      munfold. rewrite Hfail. reflexivity.
    - munfold. rewrite Habs. reflexivity. }
  assert (Hfound : forall r acc st,
             subprocess_run h [cmd; "--version"] None 5 = Returns r ->
             returncode r = 0%Z ->
             probe h cmd acc st
             = (inr acc,
                State (events st
                       ++ [Print (found_line cmd (strip (stdout r)));
                           Log DEBUG (found_line cmd (strip (stdout r)))])
                      (clock st))).
  { intros r acc st Hrun Hrc. unfold unusable, reported in Hun.
    unfold probe, run, python_int, found_line.
    rewrite Hrun in *. munfold. rewrite Hrc in *.
    change (0 =? 0)%Z with true in *. cbv iota in *.
    destruct (startswith (strip (stdout r)) "v").
    - destruct (py_int (split_head "." (tail (strip (stdout r)))));
        [discriminate|].
      mstep. now rewrite <- app_assoc.
    - mstep. now rewrite <- app_assoc. }
  assert (Hskip : forall acc st, exists st', probe h cmd acc st = (inr acc, st')).
  { intros acc st.
    destruct (subprocess_run h [cmd; "--version"] None 5) as [r|e] eqn:Hrun.
    - destruct (Z.eq_dec (returncode r) 0%Z) as [Hrc|Hrc].
      + eexists. apply (Hfound r acc st eq_refl Hrc).
      + exists st. apply Hquiet. intros r' [= <-]. exact Hrc.
    - exists st. apply Hquiet. intros r' [=]. }
  split; [exact Hquiet|]. split; [exact Hfound|]. split.
  - intros acc st rest. destruct (Hskip acc st) as [st' Hp].
    exists st'. split; [exact Hp|]. cbn [probe_all].
    now rewrite (bind_inr _ _ _ _ _ Hp).
  - intros st selected st' Hsel ->.
    apply selected_is_usable in Hsel as (major & version & _ & Hr & _).
    unfold unusable in Hun. congruence.
Qed.

(** *** The boundary of [render_vue_with_nodejs] *)

Lemma fallback_nonempty self msg : _fallback_html self msg <> EmptyString.
Proof. unfold _fallback_html, fallback_part0. discriminate. Qed.

Lemma handler_falls_back self e st :
  exists msg st', render_handler self e st = (inr (_fallback_html self msg), st').
Proof.
  unfold render_handler.
  destruct (isinstance e [TimeoutExpired]).
  - eexists _, _. munfold. reflexivity.
  - rewrite isinstance_Exception. eexists _, _. munfold. reflexivity.
Qed.

Lemma render_unfold self st :
  render_vue_with_nodejs h self st =
  try_except (render_body h self) (render_handler self) (entered self st).
Proof. reflexivity. Qed.

Lemma render_body_returned self st html st' :
  render_body h self (entered self st) = (inr html, st') ->
  render_vue_with_nodejs h self st = (inr html, st').
Proof. intros H. rewrite render_unfold. unfold try_except. now rewrite H. Qed.

Lemma render_body_raised self st e st1 :
  render_body h self (entered self st) = (inl e, st1) ->
  exists msg st',
    render_vue_with_nodejs h self st = (inr (_fallback_html self msg), st').
Proof.
  intros H. rewrite render_unfold. unfold try_except. rewrite H.
  apply handler_falls_back.
Qed.

(** Whatever happens inside, the function returns a document. *)
Lemma render_total self st :
  exists html st', render_vue_with_nodejs h self st = (inr html, st').
Proof.
  destruct (render_body h self (entered self st)) as [[e|html] st1] eqn:E.
  - destruct (render_body_raised _ _ _ _ E) as (msg & st' & H). eauto.
  - eauto using render_body_returned.
Qed.

(** The [try] body up to the SSR invocation. *)
Lemma render_body_run self c node_cmd st :
  located self = Some c ->
  path_exists h (renderer_path h) = true ->
  returns (get_compatible_node_command h) node_cmd ->
  exists st1,
    render_body h self st =
    match ssr_outcome h c node_cmd (clock st) with
    | Returns r => render_result h self c r st1
    | Raises e => (inl e, st1)
    end.
Proof.
  intros Hc Hp Hn. unfold render_body. rewrite Hc.
  change (PosixPath.join (module_dir h) ["vue_ssr_renderer.js"])
    with (renderer_path h).
  rewrite Hp. unfold prepare_server_data, now. munfold.
  cbv beta iota delta [negb].
  destruct (si_returns _ _
              (State (events st) (S (clock st)))
              si_get_compatible_node_command Hn) as (st2 & ->).
  unfold run, ssr_outcome, request_server_data.
  match goal with
  | |- context [subprocess_run h ?cmd ?cwd ?t] =>
      destruct (subprocess_run h cmd cwd t) as [r|e]
  end; munfold; eauto.
Qed.

Lemma render_result_exit_code self c r st :
  returncode r <> 0%Z ->
  exists st',
    render_result h self c r st =
    (inr (_fallback_html self
            ("Vue SSR Error: "
             +:+ (if is_empty (stderr r) then "Node.js renderer failed"
                  else stderr r))), st').
Proof.
  intros Hrc. unfold render_result.
  apply Z.eqb_neq in Hrc. rewrite Hrc. munfold. simpl negb. cbv iota.
  eexists. reflexivity.
Qed.

Lemma render_result_exit_0 self c r st :
  returncode r = 0%Z ->
  render_result h self c r st = render_response h self c r st.
Proof. intros Hrc. unfold render_result. now rewrite Hrc. Qed.

(** *** The two documents *)

(** The fallback document and the success document end differently: no
    choice of fields makes them equal. *)
Lemma fallback_is_not_success self msg title styles ts html sds tag :
  _fallback_html self msg <> success_document title styles ts html sds tag.
Proof.
  intros Heq.
  assert (Hf : ends (_fallback_html self msg) "v>
        </body>
        </html>
        ").
  { unfold _fallback_html. do 4 apply ends_append. ends_by_computation. }
  assert (Hs : ends (success_document title styles ts html sds tag) "t>
        </body>
        </html>
        ").
  { unfold success_document. do 12 apply ends_append. ends_by_computation. }
  rewrite Heq in Hf.
  pose proof (ends_unique _ _ _ Hf Hs eq_refl) as H. discriminate H.
Qed.

Lemma fallback_contains_message self msg :
  contains msg (_fallback_html self msg).
Proof. unfold _fallback_html. apply contains_skip, contains_here. Qed.

Lemma fallback_contains_path self c msg :
  located self = Some c ->
  contains (vue_file_path c) (_fallback_html self msg).
Proof.
  intros Hc. unfold _fallback_html, show_vue_file_path. rewrite Hc.
  do 3 apply contains_skip. apply contains_here.
Qed.

Lemma fallback_page_intro self text :
  fallback_page text (show_vue_file_path self) (_fallback_html self text).
Proof.
  unfold fallback_page, _fallback_html. repeat split.
  - apply starts_append. starts_by_computation.
  - apply contains_prefix. contains_by_computation.
  - unfold error_box.
    apply contains_around; [ends_by_computation | starts_by_computation].
  - do 2 apply contains_skip. apply contains_prefix. contains_by_computation.
  - do 2 apply contains_skip. unfold file_note.
    apply contains_between; [ends_by_computation | starts_by_computation].
  - do 4 apply ends_append. ends_by_computation.
  - intros. apply (fallback_is_not_success self text).
Qed.

Lemma handler_timeout self e st :
  isinstance e [TimeoutExpired] = true ->
  render_handler self e st
  = (inr (_fallback_html self "Vue SSR renderer timed out"),
     State (events st
            ++ [Log ERROR "Vue SSR renderer timed out after 30 seconds";
                LogError "Vue SSR renderer timed out after 30 seconds"
                         "Vue Renderer"])
           (clock st)).
Proof.
  intros He. unfold render_handler. rewrite He. mstep.
  now rewrite <- app_assoc.
Qed.

Lemma handler_other self e st :
  isinstance e [TimeoutExpired] = false ->
  render_handler self e st
  = (inr (_fallback_html self ("Vue SSR Exception: " +:+ exn_str e)),
     State (events st
            ++ [Log ERROR ("Vue SSR Exception: " +:+ exn_str e);
                LogError ("Vue SSR Exception: " +:+ exn_str e) "Vue Renderer"])
           (clock st)).
Proof.
  intros He. unfold render_handler. rewrite He, isinstance_Exception. mstep.
  now rewrite <- app_assoc.
Qed.

(** What the [except] clauses make of an exception. *)
Lemma handler_shows self e st :
  exists st',
    render_handler self e st
    = (inr (_fallback_html self (exception_text e)), st').
Proof.
  unfold exception_text. destruct (isinstance e [TimeoutExpired]) eqn:He.
  - rewrite (handler_timeout _ _ _ He). eauto.
  - rewrite (handler_other _ _ _ He). eauto.
Qed.

Lemma render_body_shows self st e st1 :
  render_body h self (entered self st) = (inl e, st1) ->
  exists st',
    render_vue_with_nodejs h self st
    = (inr (_fallback_html self (exception_text e)), st').
Proof.
  intros H. rewrite render_unfold. unfold try_except. rewrite H.
  apply handler_shows.
Qed.

(** C1: [render_vue_with_nodejs] never raises: it always returns a
    document.  An exception raised anywhere in its [try] body, and every
    failure outcome of the SSR subprocess invocation (an exception such as
    the timeout, a non-zero exit code, an output that is not JSON, a
    decoded response that is no object or whose success flag is false or
    missing), is answered with the fallback page: the HTML document titled
    [Vue SSR Error] that shows the text of the failure in its error box,
    says that it is a fallback view, names the component file, and is no
    instance of the success template. *)
Theorem render_vue_with_nodejs_absorbs_failures self st :
  (exists html st', render_vue_with_nodejs h self st = (inr html, st'))
  /\ (forall e st1,
        render_body h self (entered self st) = (inl e, st1) ->
        exists document st',
          render_vue_with_nodejs h self st = (inr document, st')
          /\ document = _fallback_html self (exception_text e)
          /\ fallback_page (exception_text e) (show_vue_file_path self)
                           document)
  /\ (forall c node_cmd,
        located self = Some c ->
        path_exists h (renderer_path h) = true ->
        returns (get_compatible_node_command h) node_cmd ->
        ssr_failure h (ssr_outcome h c node_cmd (clock st)) ->
        let text := failure_text h (ssr_outcome h c node_cmd (clock st)) in
        exists document st',
          render_vue_with_nodejs h self st = (inr document, st')
          /\ document = _fallback_html self text
          /\ fallback_page text (vue_file_path c) document).
Proof.
  split; [apply render_total|]. split.
  { intros e st1 Hbody.
    destruct (render_body_shows _ _ _ _ Hbody) as [st' H].
    eexists _, st'. split; [exact H|]. split; [reflexivity|].
    apply fallback_page_intro. }
  intros c node_cmd Hc Hp Hn Hfail text.
  destruct (render_body_run self c node_cmd (entered self st) Hc Hp Hn)
    as [st1 Hbody].
  change (clock (entered self st)) with (clock st) in Hbody.
  enough (exists st',
            render_vue_with_nodejs h self st = (inr (_fallback_html self text), st'))
    as (st' & H).
  { eexists _, st'. split; [exact H|]. split; [reflexivity|].
    replace (vue_file_path c) with (show_vue_file_path self)
      by (unfold show_vue_file_path; now rewrite Hc).
    apply fallback_page_intro. }
  subst text.
  inversion Hfail as [e He | r Hrc Hr | r msg Hrc Hj Hr | r v Hrc Hj Hv Hr
                      | r d Hrc Hj Hs Hr];
    rewrite <- ?He, <- ?Hr in Hbody; cbn [failure_text].
  - eapply render_body_shows; eauto.
  - destruct (render_result_exit_code self c r st1 Hrc) as [st2 H2].
    rewrite H2 in Hbody. apply Z.eqb_neq in Hrc. rewrite Hrc.
    eauto using render_body_returned.
  - rewrite render_result_exit_0 in Hbody by assumption.
    unfold render_response in Hbody. rewrite Hj in Hbody.
    rewrite Hrc, Hj. change (0 =? 0)%Z with true. cbv iota.
    revert Hbody. munfold. eauto using render_body_returned.
  - rewrite render_result_exit_0 in Hbody by assumption.
    unfold render_response in Hbody. rewrite Hj in Hbody.
    rewrite Hrc, Hj. change (0 =? 0)%Z with true. cbv iota.
    destruct v; try (now exfalso; eapply Hv);
      revert Hbody; unfold dict_get; munfold; eauto using render_body_shows.
  - rewrite render_result_exit_0 in Hbody by assumption.
    unfold render_response in Hbody. rewrite Hj in Hbody.
    rewrite Hrc, Hj. change (0 =? 0)%Z with true. cbv iota.
    revert Hbody. unfold dict_get. munfold. rewrite Hs.
    cbv beta iota delta [negb]. unfold field.
    eauto using render_body_returned.
Qed.

(** C2, on the code: when no candidate reports a major version of 22 or
    more, [get_compatible_node_command] throws a [ValidationError] whose
    message lists the versions found between 18 and 21; the throw happens
    inside the [try] block of [render_vue_with_nodejs], whose
    [except Exception] clause catches it: the function returns the
    fallback document built from that message and raises nothing. *)
Theorem missing_runtime_error_is_absorbed self c st :
  located self = Some c ->
  path_exists h (renderer_path h) = true ->
  (forall cmd, cmd ∈ node_commands -> absorbed h cmd) ->
  v22_candidates h node_commands = [] ->
  let others := other_candidates h node_commands in
  (forall st0, exists st0',
      get_compatible_node_command h st0
      = (inl (Exn ValidationError (node_required_msg others)), st0'))
  /\ (others <> [] ->
      contains ("Found Node.js versions: " +:+ versions_found others)
               (node_required_msg others))
  /\ exists st',
      render_vue_with_nodejs h self st
      = (inr (_fallback_html self
                ("Vue SSR Exception: " +:+ node_required_msg others)), st').
Proof.
  intros Hc Hp Habs Hnone others.
  assert (Hthrow : forall st0, exists st0',
             get_compatible_node_command h st0
             = (inl (Exn ValidationError (node_required_msg others)), st0')).
  { intros st0.
    destruct (probe_all_absorbed node_commands ([], []) st0 Habs) as [st1 Hpa].
    cbn [fst snd app] in Hpa. rewrite Hnone in Hpa.
    destruct (select_node_throws others st1) as [st2 Hsel].
    exists st2. unfold get_compatible_node_command.
    rewrite (bind_inr _ _ _ _ _ Hpa). exact Hsel. }
  split; [exact Hthrow|]. split.
  - intros Hothers. unfold node_required_msg.
    destruct others as [|x others']; [contradiction|].
    apply contains_skip. rewrite !append_assoc.
    rewrite <- (append_assoc "Found Node.js versions: "). apply contains_here.
  - rewrite render_unfold. unfold try_except, render_body. rewrite Hc.
    change (PosixPath.join (module_dir h) ["vue_ssr_renderer.js"])
      with (renderer_path h).
    rewrite Hp. unfold prepare_server_data, now. munfold.
    cbv beta iota delta [negb].
    match goal with
    | |- context [get_compatible_node_command h ?s] =>
        destruct (Hthrow s) as [st2 ->]
    end.
    unfold render_handler.
    change (isinstance (Exn ValidationError (node_required_msg others))
                       [TimeoutExpired]) with false.
    rewrite isinstance_Exception. mstep. eexists. reflexivity.
Qed.

(** C5: when the SSR subprocess exits with a non-zero code, whatever it
    wrote to its standard output, the response is the fallback document
    built from the text of its error stream (from [Node.js renderer
    failed] when that stream is empty); the document contains that text
    and the path of the component file, and is not an instance of the
    success template. *)
Theorem nonzero_exit_gives_fallback self c node_cmd r st :
  located self = Some c ->
  path_exists h (renderer_path h) = true ->
  returns (get_compatible_node_command h) node_cmd ->
  ssr_outcome h c node_cmd (clock st) = Returns r ->
  returncode r <> 0%Z ->
  let text := if is_empty (stderr r) then "Node.js renderer failed"
              else stderr r in
  exists document st',
    render_vue_with_nodejs h self st = (inr document, st')
    /\ document = _fallback_html self ("Vue SSR Error: " +:+ text)
    /\ contains text document
    /\ contains (vue_file_path c) document
    /\ forall title styles ts html sds tag,
         document <> success_document title styles ts html sds tag.
Proof.
  intros Hc Hp Hn Hout Hrc text.
  destruct (render_body_run self c node_cmd (entered self st) Hc Hp Hn)
    as [st1 Hbody].
  change (clock (entered self st)) with (clock st) in Hbody.
  rewrite Hout in Hbody.
  destruct (render_result_exit_code self c r st1 Hrc) as [st2 H2].
  rewrite H2 in Hbody. apply render_body_returned in Hbody.
  eexists _, st2. split; [exact Hbody|]. split; [reflexivity|].
  split; [|split].
  - eapply contains_trans; [|apply fallback_contains_message].
    apply contains_suffix.
  - now apply fallback_contains_path.
  - intros. apply fallback_is_not_success.
Qed.

(** *** The success path *)

Lemma startswith_slash url x :
  startswith url ("/assets/" +:+ x) = true -> startswith url "/" = true.
Proof.
  change ("/assets/" +:+ x) with (String "/" ("assets/" +:+ x)).
  destruct url as [|b url]; [discriminate|]. simpl.
  intros [Hb _]%andb_prop. rewrite Hb. reflexivity.
Qed.

(** [_register_static_file] only logs; when the URL names a bundle of the
    owning application whose file is missing it logs the two error
    lines. *)
Lemma register_static_file_logs self c url st :
  located self = Some c ->
  exists found evs,
    _register_static_file h self url st
    = (inr found, State (events st ++ evs) (clock st))
    /\ (startswith url ("/assets/" +:+ app c +:+ "/ssr/") = true ->
        path_exists h (expected_bundle_path c url) = false ->
        evs = [Log ERROR ("Vue client bundle not found at "
                          +:+ expected_bundle_path c url);
               LogError ("Vue client bundle not found at "
                         +:+ expected_bundle_path c url) "Vue Renderer"]).
Proof.
  intros Hc. unfold _register_static_file, attr. rewrite Hc. munfold.
  fold (expected_bundle_path c url).
  destruct (startswith url ("/assets/" +:+ app c +:+ "/ssr/")).
  - destruct (path_exists h (expected_bundle_path c url)); mstep.
    + eexists _, [_]. split; [reflexivity | discriminate].
    + eexists _, [_; _]. split; [|reflexivity].
      now rewrite <- app_assoc.
  - mstep. eexists _, [_]. split; [reflexivity | discriminate].
Qed.

Lemma script_tag_empty self st :
  _generate_client_script_tag h self (PyStr EmptyString) st
  = (inr no_bundle_comment, st).
Proof. reflexivity. Qed.

Lemma script_tag_nonempty self c a url st :
  located self = Some c ->
  exists evs,
    _generate_client_script_tag h self (PyStr (String a url)) st
    = (inr (script_tag (String a url)), State (events st ++ evs) (clock st))
    /\ (startswith (String a url) ("/assets/" +:+ app c +:+ "/ssr/") = true ->
        path_exists h (expected_bundle_path c (String a url)) = false ->
        evs = [Log ERROR ("Vue client bundle not found at "
                          +:+ expected_bundle_path c (String a url));
               LogError ("Vue client bundle not found at "
                         +:+ expected_bundle_path c (String a url))
                        "Vue Renderer"]).
Proof.
  intros Hc. unfold _generate_client_script_tag.
  change (truthy (PyStr (String a url))) with true.
  cbv beta iota delta [negb].
  destruct (startswith (String a url) "/") eqn:Hslash.
  - destruct (register_static_file_logs self c (String a url) st Hc)
      as (found & evs & Hreg & Hevs).
    rewrite (bind_inr _ _ _ _ _ Hreg). exists evs. split; [reflexivity|exact Hevs].
  - exists []. split.
    + mstep. rewrite app_nil_r. now destruct st.
    + intros Hp. apply startswith_slash in Hp. congruence.
Qed.

Lemma build_without_bundle self html styles sds st :
  build_complete_html h self html styles (PyStr EmptyString) sds st
  = (inr (assembled h self html styles sds (clock st) no_bundle_comment),
     State (events st) (S (clock st))).
Proof. reflexivity. Qed.

Lemma build_with_bundle self c html styles a url sds st :
  located self = Some c ->
  exists evs,
    build_complete_html h self html styles (PyStr (String a url)) sds st
    = (inr (assembled h self html styles sds (clock st) (script_tag (String a url))),
       State (events st ++ evs) (S (clock st)))
    /\ (startswith (String a url) ("/assets/" +:+ app c +:+ "/ssr/") = true ->
        path_exists h (expected_bundle_path c (String a url)) = false ->
        evs = [Log ERROR ("Vue client bundle not found at "
                          +:+ expected_bundle_path c (String a url));
               LogError ("Vue client bundle not found at "
                         +:+ expected_bundle_path c (String a url))
                        "Vue Renderer"]).
Proof.
  intros Hc. unfold build_complete_html, now.
  destruct (script_tag_nonempty self c a url
              (State (events st) (S (clock st))) Hc) as (evs & Htag & Hevs).
  exists evs. split; [|exact Hevs].
  munfold. rewrite Htag. reflexivity.
Qed.

(** A successful run leads to [build_complete_html] on the entries of the
    response. *)
Lemma render_success self c node_cmd d st :
  located self = Some c ->
  path_exists h (renderer_path h) = true ->
  returns (get_compatible_node_command h) node_cmd ->
  ssr_success h (ssr_outcome h c node_cmd (clock st)) d ->
  exists st1,
    render_body h self (entered self st)
    = build_complete_html h self (field d "html") (field d "styles")
        (field d "clientBundleUrl") (field d "serverDataScript") st1.
Proof.
  intros Hc Hp Hn (r & Hout & Hrc & Hj & Hs).
  destruct (render_body_run self c node_cmd (entered self st) Hc Hp Hn)
    as [st1 Hbody].
  change (clock (entered self st)) with (clock st) in Hbody.
  rewrite Hout, render_result_exit_0 in Hbody by assumption.
  rewrite Hbody. unfold render_response. rewrite Hj.
  unfold dict_get. munfold. rewrite Hs. cbv beta iota delta [negb].
  eexists. reflexivity.
Qed.

Lemma assembled_contains_fields self html styles sds clk tag :
  let document := assembled h self html styles sds clk tag in
  contains (mount_point (str h html)) document
  /\ contains (component_styles (str h styles)) document
  /\ contains (hydration_script (str h sds)) document
  /\ contains tag document.
Proof.
  unfold assembled, success_document. cbv zeta. repeat split.
  - do 6 apply contains_skip. unfold mount_point.
    apply contains_around; [ends_by_computation | starts_by_computation].
  - do 2 apply contains_skip. unfold component_styles.
    apply contains_around; [ends_by_computation | starts_by_computation].
  - do 8 apply contains_skip. unfold hydration_script.
    apply contains_around; [ends_by_computation | starts_by_computation].
  - do 11 apply contains_skip. apply contains_here.
Qed.

(** C6, as the code has it: for a successful render result (exit code
    0, an object with a true success flag) whose client bundle URL is a
    non-empty text, the function returns a document that contains the
    rendered markup inside the mount-point element, the style text at the
    end of the embedded stylesheet, the hydration script block, and the
    script element [<script src="URL"></script>] with the URL
    verbatim. *)
Theorem successful_render_assembles_document self c node_cmd d url st :
  located self = Some c ->
  path_exists h (renderer_path h) = true ->
  returns (get_compatible_node_command h) node_cmd ->
  ssr_success h (ssr_outcome h c node_cmd (clock st)) d ->
  field d "clientBundleUrl" = PyStr url ->
  url <> EmptyString ->
  exists document st',
    render_vue_with_nodejs h self st = (inr document, st')
    /\ contains (mount_point (str h (field d "html"))) document
    /\ contains (component_styles (str h (field d "styles"))) document
    /\ contains (hydration_script (str h (field d "serverDataScript"))) document
    /\ contains ("<script src=" +:+ dq +:+ url +:+ dq +:+ "></script>") document
    /\ answered_with_bundle_script h self st d.
Proof.
  intros Hc Hp Hn Hok Hurl Hne.
  destruct (render_success self c node_cmd d st Hc Hp Hn Hok) as [st1 Hbody].
  rewrite Hurl in Hbody. destruct url as [|a url]; [congruence|].
  destruct (build_with_bundle self c (field d "html") (field d "styles") a url
              (field d "serverDataScript") st1 Hc) as (evs & Hbuild & _).
  rewrite Hbuild in Hbody. apply render_body_returned in Hbody.
  pose proof (assembled_contains_fields self (field d "html") (field d "styles")
                (field d "serverDataScript") (clock st1)
                (script_tag (String a url))) as (Hm & Hs & Hh & Ht).
  eexists _, _. split; [exact Hbody|]. repeat split; try assumption.
  unfold answered_with_bundle_script. rewrite Hurl.
  eexists _, _. split; [exact Hbody|]. repeat split; assumption.
Qed.

(** C8, on the code: the bundle check looks for the last segment of the
    URL directly in [<app_path>/public/ssr].  For a URL below a
    subdirectory of [/assets/<app>/ssr/] whose file,
    [<app_path>/public/ssr/<dirs>/<file>], does not exist, while a file
    named [<file>] lies directly in [<app_path>/public/ssr], the check
    reports the bundle as found: its only trace is the debug line naming
    the other file, no error is logged.  The script element for the URL
    is emitted and the document is returned. *)
Theorem missing_nested_bundle_is_reported_found self c node_cmd d dirs file st :
  located self = Some c ->
  path_exists h (renderer_path h) = true ->
  returns (get_compatible_node_command h) node_cmd ->
  ssr_success h (ssr_outcome h c node_cmd (clock st)) d ->
  field d "clientBundleUrl"
  = PyStr (local_bundle_url c (dirs +:+ "/" +:+ file)) ->
  contains_char "/" file = false ->
  path_exists h (served_bundle_path c (dirs +:+ "/" +:+ file)) = false ->
  path_exists h (served_bundle_path c file) = true ->
  let url := local_bundle_url c (dirs +:+ "/" +:+ file) in
  let element := "<script src=" +:+ dq +:+ url +:+ dq +:+ "></script>" in
  let found := Log DEBUG ("Vue client bundle found at "
                          +:+ served_bundle_path c file) in
  (forall st0,
     _generate_client_script_tag h self (PyStr url) st0
     = (inr element, State (events st0 ++ [found]) (clock st0)))
  /\ exists document st1 st',
       render_vue_with_nodejs h self st = (inr document, st')
       /\ contains element document
       /\ build_complete_html h self (field d "html") (field d "styles")
            (PyStr url) (field d "serverDataScript") st1
          = (inr document, st')
       /\ events st' = events st1 ++ [found].
Proof.
  intros Hc Hp Hn Hok Hurl Hfile Hmissing Hflat url element found.
  assert (Hprefix : startswith url ("/assets/" +:+ app c +:+ "/ssr/") = true).
  { unfold url, local_bundle_url.
    replace ("/assets/" +:+ app c +:+ "/ssr/" +:+ dirs +:+ "/" +:+ file)
      with (("/assets/" +:+ app c +:+ "/ssr/") +:+ dirs +:+ "/" +:+ file)
      by now rewrite !append_assoc.
    apply startswith_app. }
  assert (Hlast : split_last "/" url = file).
  { unfold url, local_bundle_url.
    replace ("/assets/" +:+ app c +:+ "/ssr/" +:+ dirs +:+ "/" +:+ file)
      with (("/assets/" +:+ app c +:+ "/ssr/" +:+ dirs) +:+ "/" +:+ file)
      by now rewrite !append_assoc.
    now apply split_last_segment. }
  assert (Htag : forall st0,
             _generate_client_script_tag h self (PyStr url) st0
             = (inr element, State (events st0 ++ [found]) (clock st0))).
  { intros st0. unfold _generate_client_script_tag.
    assert (Hslash : startswith url "/" = true) by reflexivity.
    assert (Htrue : truthy (PyStr url) = true) by reflexivity.
    rewrite Htrue, Hslash. cbv beta iota delta [negb].
    unfold _register_static_file, attr. rewrite Hc. munfold.
    rewrite Hprefix, Hlast.
    change (PosixPath.join (app_path c) ["public"; "ssr"; file])
      with (served_bundle_path c file).
    rewrite Hflat. mstep. reflexivity. }
  split; [exact Htag|].
  destruct (render_success self c node_cmd d st Hc Hp Hn Hok) as [st1 Hbody].
  rewrite Hurl in Hbody. fold url in Hbody.
  assert (Hbuild : build_complete_html h self (field d "html") (field d "styles")
                     (PyStr url) (field d "serverDataScript") st1
                   = (inr (assembled h self (field d "html") (field d "styles")
                                     (field d "serverDataScript") (clock st1)
                                     element),
                      State (events st1 ++ [found]) (S (clock st1)))).
  { unfold build_complete_html, now. munfold. rewrite Htag. reflexivity. }
  rewrite Hbuild in Hbody. apply render_body_returned in Hbody.
  eexists _, st1, _. split; [exact Hbody|]. split; [|split].
  - apply assembled_contains_fields.
  - exact Hbuild.
  - reflexivity.
Qed.

(** C10: for a successful render result whose client bundle URL is the
    empty text, the document is the success template with the comment
    [<!-- No client bundle available -->] in the slot of the bundle
    reference, and it holds no script element with a [src] beyond those
    the interpolated texts of the response bring along.  For a non-empty
    URL the slot holds the one element [<script src="URL"></script>] with
    the URL verbatim: the document holds exactly one script element with
    a [src] more than the interpolated texts and the URL bring along. *)
Theorem bundle_reference_cases self c node_cmd d st :
  located self = Some c ->
  path_exists h (renderer_path h) = true ->
  returns (get_compatible_node_command h) node_cmd ->
  ssr_success h (ssr_outcome h c node_cmd (clock st)) d ->
  let title := str h (context_title self) in
  let styles := str h (field d "styles") in
  let html := str h (field d "html") in
  let data := str h (field d "serverDataScript") in
  let brought timestamp :=
    occurrences "<script src" title + occurrences "<script src" styles
    + occurrences "<script src" timestamp + occurrences "<script src" html
    + occurrences "<script src" data in
  (field d "clientBundleUrl" = PyStr EmptyString ->
   exists clk st',
     let document :=
       success_document title styles (now_at h clk) html data
                        "<!-- No client bundle available -->" in
     render_vue_with_nodejs h self st = (inr document, st')
     /\ contains "<!-- No client bundle available -->" document
     /\ occurrences "<script src" document = brought (now_at h clk))
  /\ (forall a url,
        field d "clientBundleUrl" = PyStr (String a url) ->
        exists clk st',
          let element :=
            "<script src=" +:+ dq +:+ String a url +:+ dq +:+ "></script>" in
          let document :=
            success_document title styles (now_at h clk) html data element in
          render_vue_with_nodejs h self st = (inr document, st')
          /\ contains element document
          /\ occurrences "<script src" document
             = brought (now_at h clk) + 1
               + occurrences "<script src" (String a url)).
Proof.
  intros Hc Hp Hn Hok title styles html data brought.
  assert (Hcount : forall timestamp tag,
             occurrences "<script src"
               (success_document title styles timestamp html data tag)
             = brought timestamp + occurrences "<script src" tag).
  { intros timestamp tag. unfold brought, success_document.
    rewrite (occurrences_closed_left _ success_part0) by (vm_compute; reflexivity).
    rewrite (occurrences_closed_right _ title success_part1)
      by (vm_compute; reflexivity).
    rewrite (occurrences_closed_left _ success_part1) by (vm_compute; reflexivity).
    rewrite (occurrences_closed_right _ styles success_part2)
      by (vm_compute; reflexivity).
    rewrite (occurrences_closed_left _ success_part2) by (vm_compute; reflexivity).
    rewrite (occurrences_closed_right _ timestamp success_part3)
      by (vm_compute; reflexivity).
    rewrite (occurrences_closed_left _ success_part3) by (vm_compute; reflexivity).
    rewrite (occurrences_closed_right _ html success_part4)
      by (vm_compute; reflexivity).
    rewrite (occurrences_closed_left _ success_part4) by (vm_compute; reflexivity).
    rewrite (occurrences_closed_right _ data success_part5)
      by (vm_compute; reflexivity).
    rewrite (occurrences_closed_left _ success_part5) by (vm_compute; reflexivity).
    rewrite (occurrences_closed_end _ tag success_part6)
      by (vm_compute; reflexivity).
    replace (occurrences "<script src" success_part0) with 0
      by (vm_compute; reflexivity).
    replace (occurrences "<script src" success_part1) with 0
      by (vm_compute; reflexivity).
    replace (occurrences "<script src" success_part2) with 0
      by (vm_compute; reflexivity).
    replace (occurrences "<script src" success_part3) with 0
      by (vm_compute; reflexivity).
    replace (occurrences "<script src" success_part4) with 0
      by (vm_compute; reflexivity).
    replace (occurrences "<script src" success_part5) with 0
      by (vm_compute; reflexivity).
    replace (occurrences "<script src" success_part6) with 0
      by (vm_compute; reflexivity).
    lia. }
  assert (Hslot : forall timestamp tag,
             contains tag (success_document title styles timestamp html data tag)).
  { intros timestamp tag. unfold success_document.
    do 11 apply contains_skip. apply contains_here. }
  destruct (render_success self c node_cmd d st Hc Hp Hn Hok) as [st1 Hbody].
  split.
  - intros Hurl. rewrite Hurl, build_without_bundle in Hbody.
    apply render_body_returned in Hbody.
    exists (clock st1). eexists. cbv zeta. split; [exact Hbody|].
    split; [apply Hslot|].
    rewrite Hcount. replace (occurrences "<script src"
                               "<!-- No client bundle available -->") with 0
      by (vm_compute; reflexivity).
    lia.
  - intros a url Hurl. rewrite Hurl in Hbody.
    destruct (build_with_bundle self c (field d "html") (field d "styles") a url
                (field d "serverDataScript") st1 Hc) as (evs & Hbuild & _).
    rewrite Hbuild in Hbody. apply render_body_returned in Hbody.
    exists (clock st1). eexists. cbv zeta. split; [exact Hbody|].
    split; [apply Hslot|].
    rewrite Hcount.
    change ("<script src=" +:+ dq +:+ String a url +:+ dq +:+ "></script>")
      with (("<script src=" +:+ dq) +:+ String a url +:+ (dq +:+ "></script>")).
    rewrite (occurrences_closed_left _ ("<script src=" +:+ dq))
      by (vm_compute; reflexivity).
    rewrite (occurrences_closed_end _ (String a url) (dq +:+ "></script>"))
      by (vm_compute; reflexivity).
    replace (occurrences "<script src" ("<script src=" +:+ dq)) with 1
      by (vm_compute; reflexivity).
    replace (occurrences "<script src" (dq +:+ "></script>")) with 0
      by (vm_compute; reflexivity).
    lia.
Qed.

End WithHost.

(** The example of the specification: exit code 1 and [boom] on the error
    stream. *)
Lemma nonzero_exit_gives_fallback_witness :
  exists document st',
    render_vue_with_nodejs host_boom hello_page initial = (inr document, st')
    /\ document = _fallback_html hello_page "Vue SSR Error: boom"
    /\ contains "boom" document
    /\ contains "/srv/bench/apps/app/app/www/hello.vue" document
    /\ forall title styles ts html sds tag,
         document <> success_document title styles ts html sds tag.
Proof.
  apply (nonzero_exit_gives_fallback host_boom hello_page hello "node"
           (Completed 1 "ignored" "boom") initial).
  - reflexivity.
  - vm_compute. reflexivity.
  - eexists initial, _. vm_compute. reflexivity.
  - vm_compute. reflexivity.
  - discriminate.
Defined.

Lemma render_vue_with_nodejs_absorbs_failures_witness :
  let text :=
    failure_text host_boom (ssr_outcome host_boom hello "node" 0) in
  text = "Vue SSR Error: boom"
  /\ exists document st',
       render_vue_with_nodejs host_boom hello_page initial = (inr document, st')
       /\ document = _fallback_html hello_page text
       /\ fallback_page text "/srv/bench/apps/app/app/www/hello.vue" document.
Proof.
  split; [vm_compute; reflexivity|].
  apply (proj2 (proj2 (render_vue_with_nodejs_absorbs_failures
                         host_boom hello_page initial)) hello "node").
  - reflexivity.
  - vm_compute. reflexivity.
  - eexists initial, _. vm_compute. reflexivity.
  - apply (failure_exit_code host_boom (Completed 1 "ignored" "boom")).
    discriminate.
Defined.

(** The success example of the specification. *)
Lemma successful_render_assembles_document_witness :
  exists document st',
    render_vue_with_nodejs host_hi hello_page initial = (inr document, st')
    /\ contains (mount_point (str host_hi (field hi_response "html"))) document
    /\ contains (component_styles (str host_hi (field hi_response "styles")))
                document
    /\ contains (hydration_script
                   (str host_hi (field hi_response "serverDataScript")))
                document
    /\ contains ("<script src=" +:+ dq +:+ "/assets/app/ssr/b.js" +:+ dq
                 +:+ "></script>") document
    /\ answered_with_bundle_script host_hi hello_page initial hi_response.
Proof.
  apply (successful_render_assembles_document host_hi hello_page hello "node"
           hi_response "/assets/app/ssr/b.js" initial).
  - reflexivity.
  - vm_compute. reflexivity.
  - eexists initial, _. vm_compute. reflexivity.
  - exists (Completed 0 hi_stdout EmptyString).
    repeat split; vm_compute; reflexivity.
  - vm_compute. reflexivity.
  - discriminate.
Defined.

(** Successful results for which no script element with the bundle URL
    is in the answer: a response without a client bundle URL gets the
    placeholder comment, and a response whose URL is a number gets the
    fallback page. *)
Lemma successful_results_without_bundle_script :
  (ssr_success host_plain (ssr_outcome host_plain hello "node" 0) plain_response
   /\ ~ answered_with_bundle_script host_plain hello_page initial plain_response)
  /\ (ssr_success host_numeric_url (ssr_outcome host_numeric_url hello "node" 0)
                  (response_with_url (PyInt 5))
      /\ (render_vue_with_nodejs host_numeric_url hello_page initial).1
         = inr (_fallback_html hello_page
                  "Vue SSR Exception: 'int' object has no attribute 'startswith'")
      /\ ~ answered_with_bundle_script host_numeric_url hello_page initial
                                       (response_with_url (PyInt 5))).
Proof.
  split; [split|split; [|split]].
  - exists (Completed 0 plain_stdout EmptyString).
    repeat split; vm_compute; reflexivity.
  - intros (document & st' & Hrender & _ & _ & _ & Hscript).
    apply contains_occurrences in Hscript. apply Hscript.
    apply (f_equal fst) in Hrender. cbn [fst] in Hrender.
    injection Hrender as <-. vm_compute. reflexivity.
  - eexists. repeat split; vm_compute; reflexivity.
  - vm_compute. reflexivity.
  - intros (document & st' & Hrender & Hmount & _).
    apply contains_occurrences in Hmount. apply Hmount.
    apply (f_equal fst) in Hrender. cbn [fst] in Hrender.
    injection Hrender as <-. vm_compute. reflexivity.
Qed.

(** A bundle URL below [v2/min/] while only [public/ssr/b.js] exists: the
    request is answered with the script element for the URL, and no
    error record is written at any point of the request. *)
Lemma missing_nested_bundle_is_reported_found_witness :
  path_exists host_nested_bundle
    (served_bundle_path hello ("v2/min" +:+ "/" +:+ "b.js")) = false
  /\ exists document st',
       render_vue_with_nodejs host_nested_bundle hello_page initial
       = (inr document, st')
       /\ contains ("<script src=" +:+ dq +:+ "/assets/app/ssr/v2/min/b.js"
                    +:+ dq +:+ "></script>") document
       /\ logged (Log DEBUG "Vue client bundle found at /srv/bench/apps/app/app/public/ssr/b.js")
                 st'
       /\ existsb is_error (events st') = false.
Proof.
  split; [vm_compute; reflexivity|].
  destruct (proj2 (missing_nested_bundle_is_reported_found
                     host_nested_bundle hello_page hello "node"
                     (response_with_url (PyStr nested_url)) "v2/min" "b.js"
                     initial eq_refl eq_refl
                     (ex_intro _ initial (ex_intro _ _ eq_refl))
                     (ex_intro _ (Completed 0 (stdout_with_url (quoted nested_url))
                                            EmptyString)
                        (conj eq_refl (conj eq_refl (conj eq_refl eq_refl))))
                     eq_refl eq_refl eq_refl eq_refl))
    as (document & st1 & st' & Hrender & Hcontains & _ & Hevents).
  exists document, st'. split; [exact Hrender|]. split; [exact Hcontains|].
  split.
  - unfold logged. rewrite Hevents. apply elem_of_app. right. left.
  - apply (f_equal snd) in Hrender. cbn [snd] in Hrender. rewrite <- Hrender.
    vm_compute. reflexivity.
Defined.

(** The response without a client bundle URL and the success example of
    the specification: no script element with a [src] in the first
    answer, exactly one in the second. *)
Lemma bundle_reference_cases_witness :
  (exists document st',
     render_vue_with_nodejs host_plain hello_page initial = (inr document, st')
     /\ contains "<!-- No client bundle available -->" document
     /\ occurrences "<script src" document = 0)
  /\ (exists document st',
        render_vue_with_nodejs host_hi hello_page initial = (inr document, st')
        /\ contains ("<script src=" +:+ dq +:+ "/assets/app/ssr/b.js" +:+ dq
                     +:+ "></script>") document
        /\ occurrences "<script src" document = 1).
Proof.
  split.
  - destruct (proj1 (bundle_reference_cases host_plain hello_page hello "node"
                       plain_response initial eq_refl eq_refl
                       (ex_intro _ initial (ex_intro _ _ eq_refl))
                       (ex_intro _ (Completed 0 plain_stdout EmptyString)
                          (conj eq_refl (conj eq_refl (conj eq_refl eq_refl)))))
                eq_refl)
      as (clk & st' & Hrender & Hcomment & _).
    eexists _, st'. split; [exact Hrender|]. split; [exact Hcomment|].
    enough (E : match (render_vue_with_nodejs host_plain hello_page initial).1 with
                | inr d => occurrences "<script src" d
                | inl _ => 1
                end = 0)
      by (rewrite Hrender in E; exact E).
    vm_compute. reflexivity.
  - destruct (proj2 (bundle_reference_cases host_hi hello_page hello "node"
                       hi_response initial eq_refl eq_refl
                       (ex_intro _ initial (ex_intro _ _ eq_refl))
                       (ex_intro _ (Completed 0 hi_stdout EmptyString)
                          (conj eq_refl (conj eq_refl (conj eq_refl eq_refl)))))
                "/"%char "assets/app/ssr/b.js" eq_refl)
      as (clk & st' & Hrender & Helement & _).
    eexists _, st'. split; [exact Hrender|]. split; [exact Helement|].
    enough (E : match (render_vue_with_nodejs host_hi hello_page initial).1 with
                | inr d => occurrences "<script src" d
                | inl _ => 0
                end = 1)
      by (rewrite Hrender in E; exact E).
    vm_compute. reflexivity.
Defined.

(** The application installed last ships a [hello.vue] that is not
    UTF-8 text: the constructor raises once it has found the file, no
    renderer is made, and the readable file of the application installed
    before it is not used. *)
Lemma unreadable_component_aborts_locator :
  owning_app host_binary "hello" = Some "blog"
  /\ isfile host_binary (candidate_path host_binary "hello" "app") = true
  /\ init host_binary "hello" ∅ initial
     = (inl not_utf8,
        State [Log INFO "Found Vue file: /srv/bench/apps/blog/blog/www/hello.vue in app: blog"]
              0)
  /\ ~ locator_records_first_match host_binary "hello".
Proof.
  assert (Hinit : init host_binary "hello" ∅ initial
                  = (inl not_utf8,
                     State [Log INFO "Found Vue file: /srv/bench/apps/blog/blog/www/hello.vue in app: blog"]
                           0))
    by (vm_compute; reflexivity).
  split; [vm_compute; reflexivity|]. split; [vm_compute; reflexivity|].
  split; [exact Hinit|].
  intros H. destruct (H ∅ initial "blog") as (self & st' & c & H' & _).
  - vm_compute. reflexivity.
  - rewrite Hinit in H'. discriminate.
Qed.

(** The probe results of the specification's example: the v23 runtime is
    selected although the v22 one is found first. *)
Lemma selector_picks_first_of_highest_major_witness :
  exists before e after st',
    v22_candidates host_hi node_commands = before ++ e :: after
    /\ get_compatible_node_command host_hi initial = (inr (entry_cmd e), st')
    /\ reported host_hi (entry_cmd e) = Some (entry_major e, entry_version e)
    /\ (22 <= entry_major e)%Z
    /\ (forall x, x ∈ before -> (entry_major x < entry_major e)%Z)
    /\ (forall x, x ∈ after -> (entry_major x <= entry_major e)%Z).
Proof.
  apply (selector_picks_first_of_highest_major host_hi initial).
  - intros cmd Hcmd. unfold node_commands in Hcmd.
    repeat (apply elem_of_cons in Hcmd as [->|Hcmd]);
      try (vm_compute; first [exact I | reflexivity]).
    inversion Hcmd.
  - vm_compute. discriminate.
Defined.

Example selector_example_18_23_22 :
  (get_compatible_node_command host_hi initial).1 = inr "node"
  /\ reported host_hi "node" = Some (23%Z, "v23.5.0")
  /\ reported host_hi "node22" = Some (22%Z, "v22.1.0")
  /\ reported host_hi "/usr/local/bin/node" = Some (18%Z, "v18.19.1").
Proof. repeat split; vm_compute; reflexivity. Qed.

(** Two runtimes of major version 22: the one probed first is returned,
    although the other one has the higher version number. *)
Lemma selector_ignores_minor_versions :
  ~ picks_highest_version host_two_22.
Proof.
  intros H.
  destruct (H initial "node22"
              (snd (get_compatible_node_command host_two_22 initial)))
    as (major & version & Hr & Hmax).
  { vm_compute. reflexivity. }
  assert (version = "v22.1.0") as ->.
  { vm_compute in Hr. now injection Hr as _ <-. }
  specialize (Hmax "node" 22%Z "v22.9.0").
  assert (Hlt : version_ltb (version_number "v22.1.0") (version_number "v22.9.0")
                = false).
  { apply Hmax.
    - unfold node_commands. set_solver.
    - vm_compute. reflexivity.
    - lia. }
  vm_compute in Hlt. discriminate.
Qed.

(** A candidate that exists but may not be executed makes the version
    query raise [PermissionError], which the loop does not catch: the
    iteration does not complete, the loop is left and the selector
    raises, although a usable v22 runtime comes later in the list.  And a
    candidate that answers [vNext] with exit code 0 is skipped, but not
    without a trace: the line that reports it is printed and logged. *)
Lemma permission_error_aborts_probing :
  unusable host_permission "node22"
  /\ (forall acc st,
        probe host_permission "node22" acc st
        = (inl (Exn PermissionError "[Errno 13] Permission denied: 'node22'"),
           st))
  /\ ~ skipped host_permission "node22"
  /\ ~ skipped_silently host_permission "node22"
  /\ reported host_permission "node" = Some (22%Z, "v22.9.0")
  /\ get_compatible_node_command host_permission initial
     = (inl (Exn PermissionError "[Errno 13] Permission denied: 'node22'"),
        initial)
  /\ unusable host_faulty "/usr/local/bin/node"
  /\ ~ skipped_silently host_faulty "/usr/local/bin/node".
Proof.
  assert (Hp : forall acc st,
             probe host_permission "node22" acc st
             = (inl (Exn PermissionError
                         "[Errno 13] Permission denied: 'node22'"), st)).
  { intros acc st. reflexivity. }
  split; [vm_compute; reflexivity|]. split; [exact Hp|].
  split; [|split; [|split; [|split; [|split]]]]; try (vm_compute; reflexivity).
  - intros H. destruct (H ([], []) initial) as (acc' & st' & H').
    rewrite Hp in H'. discriminate.
  - intros H. specialize (H ([], []) initial). rewrite Hp in H. discriminate.
  - intros H. specialize (H ([], []) initial). vm_compute in H. discriminate.
Qed.

(** Candidates that time out, exit with code 127, print [vNext] or are
    not installed. *)
Lemma unusable_candidates_are_skipped_witness :
  skipped_silently host_faulty "node22"
  /\ skipped_silently host_faulty "/opt/homebrew/bin/node"
  /\ skipped_silently host_faulty "/usr/bin/node"
  /\ (forall acc st,
        probe host_faulty "/usr/local/bin/node" acc st
        = (inr acc,
           State (events st
                  ++ [Print "Found Node.js: /usr/local/bin/node -> vNext";
                      Log DEBUG "Found Node.js: /usr/local/bin/node -> vNext"])
                 (clock st))).
Proof.
  split; [|split; [|split]].
  - apply (proj1 (unusable_candidates_are_skipped host_faulty "node22"
                    eq_refl eq_refl)).
    intros r Hr. discriminate Hr.
  - apply (proj1 (unusable_candidates_are_skipped host_faulty
                    "/opt/homebrew/bin/node" eq_refl I)).
    intros r Hr. injection Hr as <-. discriminate.
  - apply (proj1 (unusable_candidates_are_skipped host_faulty "/usr/bin/node"
                    eq_refl eq_refl)).
    intros r Hr. discriminate Hr.
  - intros acc st.
    apply (proj1 (proj2 (unusable_candidates_are_skipped host_faulty
                           "/usr/local/bin/node" eq_refl I))
             (Completed 0 "vNext" EmptyString) acc st eq_refl eq_refl).
Defined.

(** Only v18 and v20 runtimes are installed: the request is answered with
    the fallback document. *)
Lemma missing_runtime_error_is_absorbed_witness :
  exists st',
    render_vue_with_nodejs host_below hello_page initial
    = (inr (_fallback_html hello_page
              ("Vue SSR Exception: "
               +:+ node_required_msg
                     [("/usr/local/bin/node", 18%Z, "v18.19.1");
                      ("node", 20%Z, "v20.11.0")])), st').
Proof.
  apply (proj2 (proj2 (missing_runtime_error_is_absorbed
                         host_below hello_page hello initial
                         eq_refl eq_refl
                         ltac:(intros cmd Hcmd; unfold node_commands in Hcmd;
                               repeat (apply elem_of_cons in Hcmd as [->|Hcmd]);
                               try (vm_compute; first [exact I | reflexivity]);
                               inversion Hcmd)
                         eq_refl))).
Defined.

End RendererProps.

(** ** Properties of the legacy context provider *)
Module FrontendProps.
Import PyString Py Frontend.

Lemma run_script_unbound : "run_script" ∉ module_globals.
Proof.
  unfold module_globals. intros H.
  repeat (apply elem_of_cons in H as [H|H]; [discriminate|]).
  inversion H.
Qed.

Lemma get_html_from_vue_raises (run_script : string -> M string) (st : state) :
  get_html_from_vue run_script st
  = (inl (Exn NameError "name 'run_script' is not defined"), st).
Proof.
  unfold get_html_from_vue, load_global.
  rewrite bool_decide_eq_false_2 by apply run_script_unbound.
  reflexivity.
Qed.

(** C9, on the code: [get_html_from_vue] calls [run_script], a name the
    module neither defines nor imports; evaluating it raises [NameError],
    so [get_context] raises before it assigns the response content,
    whatever a helper of that name would have computed: no call of
    [get_context] returns. *)
Theorem get_context_raises_name_error
    (run_script : string -> M string) (content : option string) (st : state) :
  get_context run_script content st
  = (inl (Exn NameError "name 'run_script' is not defined"), st)
  /\ forall content' st', get_context run_script content st <> (inr content', st').
Proof.
  assert (H : get_context run_script content st
              = (inl (Exn NameError "name 'run_script' is not defined"), st)).
  { unfold get_context.
    now rewrite (RendererProps.bind_inl _ _ _ _ _
                   (get_html_from_vue_raises run_script st)). }
  split; [exact H|]. intros content' st'. rewrite H. discriminate.
Qed.

End FrontendProps.

(** ** Further properties of the renderer *)
Module RendererExtras.
Import PyString Py VueRenderer Spec Examples RendererProps.

Section WithHost.
Variable h : host.

(** *** Failures before and during the SSR run *)

Lemma show_located self c :
  located self = Some c -> show_vue_file_path self = vue_file_path c.
Proof. intros Hc. unfold show_vue_file_path. now rewrite Hc. Qed.

(** X1: when the renderer script is not installed, the request is answered
    at once with the fallback document naming the missing script: the
    answer does not depend on any version query or SSR run, the clock is
    not read, and the only effects are the opening log line and one error
    line. *)
Theorem missing_renderer_script_short_circuits self c st :
  located self = Some c ->
  path_exists h (renderer_path h) = false ->
  render_vue_with_nodejs h self st
  = (inr (_fallback_html self
            ("Node.js Vue SSR renderer not found at " +:+ renderer_path h)),
     State (events st
            ++ [Log INFO ("Starting Vue SSR rendering for " +:+ vue_file_path c);
                Log ERROR ("Node.js Vue SSR renderer not found at "
                           +:+ renderer_path h)])
           (clock st)).
Proof.
  intros Hc Hp. rewrite render_unfold. unfold try_except, render_body, entered.
  rewrite Hc, (show_located _ _ Hc).
  change (PosixPath.join (module_dir h) ["vue_ssr_renderer.js"])
    with (renderer_path h).
  rewrite Hp. mstep. now rewrite <- app_assoc.
Qed.

Lemma render_raised_in_body self st e st1 :
  render_body h self (entered self st) = (inl e, st1) ->
  render_vue_with_nodejs h self st = render_handler self e st1.
Proof. intros H. rewrite render_unfold. unfold try_except. now rewrite H. Qed.

Lemma logged_last ev evs st :
  ev ∈ evs -> logged ev (State (events st ++ evs) (clock st)).
Proof. intros H. unfold logged. cbn [events]. set_solver. Qed.

(** X2: when the SSR run exceeds its time limit the answer is the
    fallback document with the fixed text [Vue SSR renderer timed out],
    and the timeout is recorded both by the logger and in the error
    log. *)
Theorem timeout_gives_timeout_page self c node_cmd e st :
  located self = Some c ->
  path_exists h (renderer_path h) = true ->
  returns (get_compatible_node_command h) node_cmd ->
  ssr_outcome h c node_cmd (clock st) = Raises e ->
  isinstance e [TimeoutExpired] = true ->
  exists st',
    render_vue_with_nodejs h self st
    = (inr (_fallback_html self "Vue SSR renderer timed out"), st')
    /\ logged (Log ERROR "Vue SSR renderer timed out after 30 seconds") st'
    /\ logged (LogError "Vue SSR renderer timed out after 30 seconds"
                        "Vue Renderer") st'.
Proof.
  intros Hc Hp Hn Hout He.
  destruct (render_body_run h self c node_cmd (entered self st) Hc Hp Hn)
    as [st1 Hbody].
  change (clock (entered self st)) with (clock st) in Hbody.
  rewrite Hout in Hbody.
  rewrite (render_raised_in_body _ _ _ _ Hbody), (handler_timeout _ _ _ He).
  eexists. split; [reflexivity|].
  split; apply logged_last; set_solver.
Qed.

(** X3: when starting or running the SSR process raises any exception
    other than the timeout, the answer is the fallback document showing
    [Vue SSR Exception:] followed by the text of the exception, which is
    also logged and written to the error log. *)
Theorem run_exception_is_shown self c node_cmd e st :
  located self = Some c ->
  path_exists h (renderer_path h) = true ->
  returns (get_compatible_node_command h) node_cmd ->
  ssr_outcome h c node_cmd (clock st) = Raises e ->
  isinstance e [TimeoutExpired] = false ->
  exists st',
    render_vue_with_nodejs h self st
    = (inr (_fallback_html self ("Vue SSR Exception: " +:+ exn_str e)), st')
    /\ logged (Log ERROR ("Vue SSR Exception: " +:+ exn_str e)) st'
    /\ logged (LogError ("Vue SSR Exception: " +:+ exn_str e) "Vue Renderer") st'.
Proof.
  intros Hc Hp Hn Hout He.
  destruct (render_body_run h self c node_cmd (entered self st) Hc Hp Hn)
    as [st1 Hbody].
  change (clock (entered self st)) with (clock st) in Hbody.
  rewrite Hout in Hbody.
  rewrite (render_raised_in_body _ _ _ _ Hbody), (handler_other _ _ _ He).
  eexists. split; [reflexivity|].
  split; apply logged_last; set_solver.
Qed.

(** The [try] body after a run that exited with code 0. *)
Lemma render_body_exit_0 self c node_cmd r st :
  located self = Some c ->
  path_exists h (renderer_path h) = true ->
  returns (get_compatible_node_command h) node_cmd ->
  ssr_outcome h c node_cmd (clock st) = Returns r ->
  returncode r = 0%Z ->
  exists st1,
    render_body h self (entered self st) = render_response h self c r st1.
Proof.
  intros Hc Hp Hn Hout Hrc.
  destruct (render_body_run h self c node_cmd (entered self st) Hc Hp Hn)
    as [st1 Hbody].
  change (clock (entered self st)) with (clock st) in Hbody.
  rewrite Hout, render_result_exit_0 in Hbody by assumption. eauto.
Qed.

(** X4: when the SSR run exits with code 0 but its output does not
    decode as JSON, the answer is the fallback document showing
    [Invalid JSON response from Vue SSR:] and the decoder's message; the
    raw output is recorded by the logger and in the error log. *)
Theorem undecodable_output_is_reported self c node_cmd r msg st :
  located self = Some c ->
  path_exists h (renderer_path h) = true ->
  returns (get_compatible_node_command h) node_cmd ->
  ssr_outcome h c node_cmd (clock st) = Returns r ->
  returncode r = 0%Z ->
  json_loads h (stdout r) = inl msg ->
  exists st',
    render_vue_with_nodejs h self st
    = (inr (_fallback_html self ("Invalid JSON response from Vue SSR: " +:+ msg)),
       st')
    /\ logged (Log ERROR ("Raw stdout was: " +:+ stdout r)) st'
    /\ logged (LogError ("Raw stdout was: " +:+ stdout r) "Vue Renderer") st'
    /\ logged (LogError ("Vue SSR JSON Parse Error: " +:+ msg) "Vue Renderer") st'.
Proof.
  intros Hc Hp Hn Hout Hrc Hj.
  destruct (render_body_exit_0 self c node_cmd r st Hc Hp Hn Hout Hrc)
    as [st1 Hbody].
  unfold render_response in Hbody. rewrite Hj in Hbody.
  revert Hbody. mstep. intros Hbody. apply render_body_returned in Hbody.
  eexists. split; [exact Hbody|].
  unfold logged. cbn [events]. set_solver.
Qed.

(** X5: when the decoded response is an object whose [success] entry is
    missing or false, the fallback document shows the [html] entry of the
    response (nothing when there is none), not its [error] entry; the
    error text, [Unknown error] when absent, only goes to the log. *)
Theorem reported_failure_shows_partial_markup self c node_cmd r d st :
  located self = Some c ->
  path_exists h (renderer_path h) = true ->
  returns (get_compatible_node_command h) node_cmd ->
  ssr_outcome h c node_cmd (clock st) = Returns r ->
  returncode r = 0%Z ->
  json_loads h (stdout r) = inr (PyDict d) ->
  truthy (from_option id PyNone (d !! "success")) = false ->
  exists st',
    render_vue_with_nodejs h self st
    = (inr (_fallback_html self (str h (field d "html"))), st')
    /\ logged (Log ERROR ("Vue SSR renderer reported failure: "
                          +:+ str h (from_option id (PyStr "Unknown error")
                                                 (d !! "error")))) st'.
Proof.
  intros Hc Hp Hn Hout Hrc Hj Hs.
  destruct (render_body_exit_0 self c node_cmd r st Hc Hp Hn Hout Hrc)
    as [st1 Hbody].
  unfold render_response in Hbody. rewrite Hj in Hbody.
  revert Hbody. unfold dict_get. munfold. rewrite Hs. mstep.
  intros Hbody. apply render_body_returned in Hbody.
  eexists. split; [exact Hbody|].
  unfold logged. cbn [events]. set_solver.
Qed.

(** X6: when the output is valid JSON but not an object (a list, a
    number, a string, [null]...), reading its [success] entry fails; the
    answer is the fallback document showing the attribute error. *)
Theorem non_object_response_is_absorbed self c node_cmd r v st :
  located self = Some c ->
  path_exists h (renderer_path h) = true ->
  returns (get_compatible_node_command h) node_cmd ->
  ssr_outcome h c node_cmd (clock st) = Returns r ->
  returncode r = 0%Z ->
  json_loads h (stdout r) = inr v ->
  (forall d, v <> PyDict d) ->
  exists st',
    render_vue_with_nodejs h self st
    = (inr (_fallback_html self
              ("Vue SSR Exception: '" +:+ type_name v
               +:+ "' object has no attribute 'get'")), st').
Proof.
  intros Hc Hp Hn Hout Hrc Hj Hv.
  destruct (render_body_exit_0 self c node_cmd r st Hc Hp Hn Hout Hrc)
    as [st1 Hbody].
  unfold render_response in Hbody. rewrite Hj in Hbody.
  assert (Hraise : render_body h self (entered self st)
                   = (inl (no_attribute (type_name v) "get"), st1)).
  { rewrite Hbody. destruct v; try reflexivity. now exfalso; eapply Hv. }
  rewrite (render_raised_in_body _ _ _ _ Hraise), handler_other by reflexivity.
  eexists. reflexivity.
Qed.

(** *** Unusual client bundle URLs *)

(** X7: a successful response whose client bundle URL is a true value
    that is not a text (a number, [true], a non-empty list or object)
    does not produce the success document: testing its first character
    fails and the answer is the fallback document. *)
Theorem non_text_bundle_url_falls_back self c node_cmd d v st :
  located self = Some c ->
  path_exists h (renderer_path h) = true ->
  returns (get_compatible_node_command h) node_cmd ->
  ssr_success h (ssr_outcome h c node_cmd (clock st)) d ->
  field d "clientBundleUrl" = v ->
  truthy v = true ->
  (forall url, v <> PyStr url) ->
  exists st',
    render_vue_with_nodejs h self st
    = (inr (_fallback_html self
              ("Vue SSR Exception: '" +:+ type_name v
               +:+ "' object has no attribute 'startswith'")), st').
Proof.
  intros Hc Hp Hn Hok Hurl Ht Hv.
  destruct (render_success h self c node_cmd d st Hc Hp Hn Hok) as [st1 Hbody].
  rewrite Hurl in Hbody.
  assert (Hraise : exists st2,
             render_body h self (entered self st)
             = (inl (no_attribute (type_name v) "startswith"), st2)).
  { rewrite Hbody. unfold build_complete_html, now, _generate_client_script_tag.
    rewrite Ht. mstep.
    destruct v; try (eexists; reflexivity). now exfalso; eapply Hv. }
  destruct Hraise as [st2 Hraise].
  rewrite (render_raised_in_body _ _ _ _ Hraise), handler_other by reflexivity.
  eexists. reflexivity.
Qed.

(** X8: a successful response whose client bundle URL is any false value
    ([null], [false], 0, an empty text, list or object) or is missing is
    rendered with the comment placeholder in the slot of the bundle
    reference. *)
Theorem false_bundle_url_gives_placeholder self c node_cmd d st :
  located self = Some c ->
  path_exists h (renderer_path h) = true ->
  returns (get_compatible_node_command h) node_cmd ->
  ssr_success h (ssr_outcome h c node_cmd (clock st)) d ->
  truthy (field d "clientBundleUrl") = false ->
  exists clk st',
    render_vue_with_nodejs h self st
    = (inr (assembled h self (field d "html") (field d "styles")
                      (field d "serverDataScript") clk no_bundle_comment), st').
Proof.
  intros Hc Hp Hn Hok Ht.
  destruct (render_success h self c node_cmd d st Hc Hp Hn Hok) as [st1 Hbody].
  assert (Hbuild : build_complete_html h self (field d "html") (field d "styles")
                     (field d "clientBundleUrl") (field d "serverDataScript") st1
                   = (inr (assembled h self (field d "html") (field d "styles")
                                     (field d "serverDataScript") (clock st1)
                                     no_bundle_comment),
                      State (events st1) (S (clock st1)))).
  { unfold build_complete_html, now, _generate_client_script_tag.
    rewrite Ht. reflexivity. }
  rewrite Hbuild in Hbody. apply render_body_returned in Hbody. eauto.
Qed.

(** X9: for a non-empty URL that does not start with a slash (an external
    URL) the document is assembled with the script element for that URL
    and nothing else happens: nothing is logged and the result does not
    depend on the file system, whether or not the page has a located
    component. *)
Theorem external_bundle_url_is_not_checked self html styles a url sds st :
  startswith (String a url) "/" = false ->
  build_complete_html h self html styles (PyStr (String a url)) sds st
  = (inr (assembled h self html styles sds (clock st)
                    (script_tag (String a url))),
     State (events st) (S (clock st))).
Proof.
  intros Hext. unfold build_complete_html, now, _generate_client_script_tag.
  change (truthy (PyStr (String a url))) with true.
  cbv beta iota delta [negb]. rewrite Hext. reflexivity.
Qed.

(** X10: for a URL that starts with a slash the script element is
    emitted whatever the bundle check finds; the check only writes to the
    log: a debug line when the file exists, the two error lines when it
    is missing, a warning when the URL is not below the asset directory
    of the owning application. *)
Theorem local_bundle_url_is_checked_and_emitted self c url st :
  located self = Some c ->
  startswith url "/" = true ->
  _generate_client_script_tag h self (PyStr url) st
  = (inr (script_tag url),
     State (events st ++ bundle_check_events h c url) (clock st)).
Proof.
  intros Hc Hslash. destruct url as [|a url]; [discriminate|].
  unfold _generate_client_script_tag.
  change (truthy (PyStr (String a url))) with true.
  cbv beta iota delta [negb]. rewrite Hslash.
  unfold _register_static_file, attr, bundle_check_events,
    expected_bundle_path.
  rewrite Hc. munfold.
  destruct (startswith (String a url) ("/assets/" +:+ app c +:+ "/ssr/")).
  - destruct (path_exists h _); mstep.
    + reflexivity.
    + now rewrite <- app_assoc.
  - mstep. reflexivity.
Qed.

(** *** The runtime selector, whatever the probes do *)

Lemma select_node_head v22 others st selected st' :
  select_node v22 others st = (inr selected, st') ->
  exists e rest, sort_desc v22 = e :: rest /\ selected = entry_cmd e.
Proof.
  unfold select_node. destruct v22 as [|x v22].
  - destruct others; mstep; discriminate.
  - destruct (sort_desc (x :: v22)) as [|e rest] eqn:Hs; [discriminate|].
    destruct e as [[cmd major] version]. mstep. intros H. injection H as <- _.
    eauto.
Qed.

Lemma v22_candidates_complete cmds cmd major version :
  cmd ∈ cmds ->
  reported h cmd = Some (major, version) ->
  (22 <= major)%Z ->
  (cmd, major, version) ∈ v22_candidates h cmds.
Proof.
  intros Hcmd Hr Hm. unfold v22_candidates. apply list_elem_of_omap.
  exists cmd. split; [assumption|]. unfold v22_entry. rewrite Hr.
  apply Z.leb_le in Hm. now rewrite Hm.
Qed.

(** X11: whenever the selector returns a command, it is one of the seven
    fixed candidates, its version query reported a major version of 22
    or more, and no candidate reported a greater major version. *)
Theorem selected_runtime_has_greatest_major st selected st' :
  get_compatible_node_command h st = (inr selected, st') ->
  exists major version,
    selected ∈ node_commands
    /\ reported h selected = Some (major, version)
    /\ (22 <= major)%Z
    /\ forall cmd major' version',
         cmd ∈ node_commands ->
         reported h cmd = Some (major', version') ->
         (major' <= major)%Z.
Proof.
  unfold get_compatible_node_command. intros H.
  destruct (probe_all h node_commands ([], []) st) as [[e|nodes] st1] eqn:Hp.
  { rewrite (bind_inl _ _ _ _ _ Hp) in H. discriminate. }
  rewrite (bind_inr _ _ _ _ _ Hp) in H.
  apply probe_all_returned in Hp. subst nodes. cbn [fst snd] in H.
  rewrite !app_nil_l in H.
  apply select_node_head in H as (e & rest & Hs & ->).
  destruct (sort_desc_head _ _ _ Hs) as (before & after & Hl & Hb & Ha).
  assert (He : e ∈ v22_candidates h node_commands) by (rewrite Hl; set_solver).
  apply v22_candidates_reported in He as (Hcmd & Hr & Hm).
  exists (entry_major e), (entry_version e). repeat split; auto.
  intros cmd major' version' Hin Hr'.
  destruct (Z.le_gt_cases 22 major') as [Hbig|Hsmall]; [|lia].
  pose proof (v22_candidates_complete _ _ _ _ Hin Hr' Hbig) as Hmem.
  rewrite Hl in Hmem.
  apply elem_of_app in Hmem as [Hmem|Hmem].
  - specialize (Hb _ Hmem). cbn in Hb. lia.
  - apply elem_of_cons in Hmem as [<-|Hmem]; [cbn; lia|].
    specialize (Ha _ Hmem). cbn in Ha. lia.
Qed.

Lemma omap_none {A B} (f : A -> option B) (l : list A) :
  (forall x, x ∈ l -> f x = None) -> omap f l = [].
Proof.
  induction l as [|x l IH]; intros H; [reflexivity|].
  rewrite omap_cons_option_list, H by left. cbn. apply IH.
  intros y Hy. apply H. now right.
Qed.

(** X12: when every candidate that answers reports a major version below
    18, the old runtimes are not mentioned at all: the error names no
    version and the log says that no Node.js installation was found. *)
Theorem old_runtimes_are_not_mentioned st :
  (forall cmd, cmd ∈ node_commands -> absorbed h cmd) ->
  (forall cmd major version,
      cmd ∈ node_commands -> reported h cmd = Some (major, version) ->
      (major < 18)%Z) ->
  exists st',
    get_compatible_node_command h st
    = (inl (Exn ValidationError (node_required_msg [])), st')
    /\ logged (Log ERROR "No Node.js installation found on system") st'.
Proof.
  intros Habs Hold.
  destruct (probe_all_absorbed h node_commands ([], []) st Habs) as [st1 Hp].
  cbn [fst snd] in Hp. rewrite !app_nil_l in Hp.
  assert (Hv : v22_candidates h node_commands = []).
  { apply omap_none. intros cmd Hcmd. unfold v22_entry.
    destruct (reported h cmd) as [[major version]|] eqn:Hr; [|reflexivity].
    specialize (Hold _ _ _ Hcmd Hr).
    destruct (22 <=? major)%Z eqn:Hm; [apply Z.leb_le in Hm; lia | reflexivity]. }
  assert (Ho : other_candidates h node_commands = []).
  { apply omap_none. intros cmd Hcmd. unfold other_entry.
    destruct (reported h cmd) as [[major version]|] eqn:Hr; [|reflexivity].
    specialize (Hold _ _ _ Hcmd Hr).
    destruct (22 <=? major)%Z; [reflexivity|].
    destruct (18 <=? major)%Z eqn:Hm; [apply Z.leb_le in Hm; lia | reflexivity]. }
  rewrite Hv, Ho in Hp. unfold get_compatible_node_command.
  rewrite (bind_inr _ _ _ _ _ Hp). unfold select_node. mstep.
  eexists. split; [reflexivity|].
  unfold logged. cbn [events]. set_solver.
Qed.

(** *** The locator and the names it derives *)

Lemma find_app_skip {A} (f : A -> bool) (l1 l2 : list A) :
  (forall x, x ∈ l1 -> f x = false) -> find f (l1 ++ l2) = find f l2.
Proof.
  induction l1 as [|x l1 IH]; intros H; [reflexivity|].
  cbn. rewrite H by left. apply IH. intros y Hy. apply H. now right.
Qed.

(** X13: of several installed applications that ship the page, the one
    installed last is used when its file reads as UTF-8 text: the
    applications installed before it are not even looked at. *)
Theorem latest_installed_app_wins request_path ctx st before app after content :
  installed_apps h = before ++ app :: after ->
  files h !! candidate_path h request_path app = Some (File content) ->
  (forall other, other ∈ after ->
                 isfile h (candidate_path h request_path other) = false) ->
  exists self st',
    init h request_path ctx st = (inr self, st')
    /\ located self = Some (component_of h request_path app content)
    /\ vue_component_content (component_of h request_path app content)
       = content.
Proof.
  intros Happs Hnode Hafter.
  assert (Hfile : isfile h (candidate_path h request_path app) = true)
    by (unfold isfile; now rewrite Hnode).
  pose proof (search_apps_finds h request_path (rev (installed_apps h)) st)
    as Hsearch.
  rewrite Happs, rev_app_distr in Hsearch. cbn [rev] in Hsearch.
  rewrite <- app_assoc in Hsearch. cbn [List.app] in Hsearch.
  rewrite find_app_skip in Hsearch.
  2:{ intros x Hx. apply Hafter.
      apply list_elem_of_In, in_rev in Hx. now apply list_elem_of_In. }
  cbn [find] in Hsearch. rewrite Hfile in Hsearch. cbv zeta in Hsearch.
  destruct Hsearch as [(content' & Hnode' & Hsearch)|(e & Hnode' & _)];
    [|congruence].
  assert (content' = content) as -> by congruence.
  eexists _, _. split.
  - unfold init, set_vue_template_path. cbn [path].
    rewrite Happs, rev_app_distr. cbn [rev]. rewrite <- app_assoc. cbn [List.app].
    rewrite (bind_inr _ _ _ _ _ Hsearch). reflexivity.
  - split; reflexivity.
Qed.

Lemma split_no_slash b :
  contains_char "/" b = false ->
  PosixPath.split_at_last_slash b = (EmptyString, b).
Proof.
  induction b as [|x b IH]; [reflexivity|]. cbn [contains_char].
  intros [Hx Hb]%orb_false_elim. cbn [PosixPath.split_at_last_slash].
  rewrite (IH Hb). cbn [is_empty]. now rewrite Hx.
Qed.

Lemma split_app_no_slash a b :
  contains_char "/" b = false ->
  PosixPath.split_at_last_slash (a +:+ b)
  = ((PosixPath.split_at_last_slash a).1,
     (PosixPath.split_at_last_slash a).2 +:+ b).
Proof.
  intros Hb. induction a as [|x a IH].
  - change (EmptyString +:+ b) with b. now rewrite split_no_slash.
  - rewrite append_cons. cbn [PosixPath.split_at_last_slash]. rewrite IH.
    destruct (PosixPath.split_at_last_slash a) as [hd tl]. cbn [fst snd].
    destruct (is_empty hd); [|reflexivity].
    destruct (bool_decide (x = "/"%char)); reflexivity.
Qed.

Lemma split_head_nonempty a :
  is_empty (PosixPath.split_at_last_slash a).1 = negb (contains_char "/" a).
Proof.
  induction a as [|x a IH]; [reflexivity|].
  cbn [PosixPath.split_at_last_slash contains_char].
  destruct (PosixPath.split_at_last_slash a) as [hd tl]. cbn [fst] in IH.
  destruct (is_empty hd) eqn:Hhd.
  - symmetry in IH. apply negb_true_iff in IH. rewrite IH, orb_false_r.
    now destruct (bool_decide (x = "/"%char)).
  - symmetry in IH. apply negb_false_iff in IH. rewrite IH, orb_true_r.
    reflexivity.
Qed.

Lemma basename_app_slash a b :
  contains_char "/" b = true ->
  PosixPath.basename (a +:+ b) = PosixPath.basename b.
Proof.
  intros Hb. unfold PosixPath.basename. induction a as [|x a IH]; [reflexivity|].
  rewrite append_cons. cbn [PosixPath.split_at_last_slash].
  pose proof (split_head_nonempty (a +:+ b)) as He.
  destruct (PosixPath.split_at_last_slash (a +:+ b)) as [hd tl].
  cbn [fst snd] in *.
  assert (Hab : contains_char "/" (a +:+ b) = true).
  { clear -Hb. induction a as [|y a IHa]; [exact Hb|].
    rewrite append_cons. cbn [contains_char]. now rewrite IHa, orb_true_r. }
  rewrite Hab in He. cbn in He. rewrite He. exact IH.
Qed.

Lemma basename_no_slash p : contains_char "/" (PosixPath.basename p) = false.
Proof.
  unfold PosixPath.basename. induction p as [|x p IH]; [reflexivity|].
  cbn [PosixPath.split_at_last_slash].
  pose proof (split_head_nonempty p) as He.
  destruct (PosixPath.split_at_last_slash p) as [hd tl]. cbn [fst snd] in *.
  destruct (is_empty hd).
  - symmetry in He. apply negb_true_iff in He.
    destruct (bool_decide (x = "/"%char)) eqn:Hx; cbn [snd].
    + exact He.
    + cbn [contains_char]. now rewrite Hx, He.
  - exact IH.
Qed.

Lemma app_is_empty a s : is_empty s = false -> is_empty (a +:+ s) = false.
Proof. intros Hs. destruct a; [exact Hs | reflexivity]. Qed.

Lemma ends_with_slash_app a s :
  is_empty s = false -> ends_with_slash (a +:+ s) = ends_with_slash s.
Proof.
  intros Hs. induction a as [|x a IH]; [reflexivity|].
  rewrite append_cons. pose proof (app_is_empty a s Hs) as Hne.
  cbn [ends_with_slash]. destruct (a +:+ s); [discriminate | exact IH].
Qed.

Lemma www_directory app_dir :
  is_empty (PosixPath.join2 app_dir "www") = false
  /\ ends_with_slash (PosixPath.join2 app_dir "www") = false.
Proof.
  unfold PosixPath.join2. change (startswith "www" "/") with false. cbv iota.
  destruct (is_empty app_dir || ends_with_slash app_dir).
  - split; [now apply app_is_empty | now rewrite ends_with_slash_app].
  - split; [now apply app_is_empty | now rewrite ends_with_slash_app].
Qed.

Lemma basename_vue p :
  PosixPath.basename (p +:+ ".vue") = PosixPath.basename p +:+ ".vue".
Proof. unfold PosixPath.basename. now rewrite split_app_no_slash. Qed.

(** The file name of the candidate is the last segment of the request
    path with the extension. *)
Lemma candidate_basename request_path app :
  PosixPath.basename (candidate_path h request_path app)
  = PosixPath.basename request_path +:+ ".vue".
Proof.
  unfold candidate_path, PosixPath.join. cbn [fold_left].
  destruct (www_directory (get_app_path h app)) as [Hne Hsl].
  set (www := PosixPath.join2 (get_app_path h app) "www") in *.
  unfold PosixPath.join2 at 1.
  destruct (startswith (request_path +:+ ".vue") "/"); [apply basename_vue|].
  rewrite Hne, Hsl. cbn [orb].
  destruct (contains_char "/" (request_path +:+ ".vue")) eqn:Hslash.
  - rewrite basename_app_slash.
    + rewrite basename_app_slash by assumption. apply basename_vue.
    + rewrite append_cons. cbn [contains_char]. reflexivity.
  - rewrite basename_app_slash.
    + rewrite <- basename_vue. unfold PosixPath.basename.
      change ("/" +:+ request_path +:+ ".vue")
        with (String "/" (request_path +:+ ".vue")).
      cbn [PosixPath.split_at_last_slash].
      now rewrite (split_no_slash _ Hslash).
    + rewrite append_cons. cbn [contains_char]. reflexivity.
Qed.

Lemma split_dot_vue a :
  PosixPath.split_at_last_dot (a +:+ ".vue") = Some (a, ".vue").
Proof.
  induction a as [|x a IH]; [reflexivity|].
  rewrite append_cons. cbn [PosixPath.split_at_last_dot]. now rewrite IH.
Qed.

Lemma splitext_vue seg :
  contains_char "/" seg = false ->
  PosixPath.splitext_root (seg +:+ ".vue")
  = if PosixPath.all_dots seg then seg +:+ ".vue" else seg.
Proof.
  intros Hseg. unfold PosixPath.splitext_root.
  rewrite split_app_no_slash, (split_no_slash _ Hseg) by reflexivity.
  cbn [fst snd]. rewrite split_dot_vue. reflexivity.
Qed.

Lemma init_located request_path ctx st self st' c :
  init h request_path ctx st = (inr self, st') ->
  located self = Some c ->
  exists app content, c = component_of h request_path app content.
Proof.
  unfold init, set_vue_template_path. cbn [path]. intros Hinit Hc.
  pose proof (search_apps_finds h request_path (rev (installed_apps h)) st)
    as Hsearch.
  destruct (find _ (rev (installed_apps h))) as [app|].
  - cbv zeta in Hsearch.
    destruct Hsearch as [(content & _ & Hsearch)|(e & _ & Hsearch)].
    + rewrite (bind_inr _ _ _ _ _ Hsearch) in Hinit.
      injection Hinit as <- _. cbn [located] in Hc. injection Hc as <-. eauto.
    + rewrite (bind_inl _ _ _ _ _ Hsearch) in Hinit. discriminate.
  - rewrite (bind_inr _ _ _ _ _ Hsearch) in Hinit.
    injection Hinit as <- _. discriminate.
Qed.

(** X14: the file name the locator records is the last segment of the
    request path followed by [.vue], and the component name is that
    segment; only when the segment is empty or made of dots is the name
    the whole file name, extension included. *)
Theorem component_name_is_last_path_segment request_path ctx st self st' c :
  init h request_path ctx st = (inr self, st') ->
  located self = Some c ->
  let segment := PosixPath.basename request_path in
  filename c = segment +:+ ".vue"
  /\ name c = if PosixPath.all_dots segment then segment +:+ ".vue" else segment.
Proof.
  intros Hinit Hc segment.
  destruct (init_located _ _ _ _ _ _ Hinit Hc) as (app & content & ->).
  unfold component_of. cbn [filename name].
  rewrite candidate_basename. split; [reflexivity|].
  apply splitext_vue, basename_no_slash.
Qed.

(** *** The title of the page *)

Lemma build_returned self html styles url sds st document st' :
  build_complete_html h self html styles url sds st = (inr document, st') ->
  exists tag, document = assembled h self html styles sds (clock st) tag.
Proof.
  unfold build_complete_html, now. munfold.
  destruct (_generate_client_script_tag h self url _) as [[e|tag] st1];
    [discriminate|].
  intros H. injection H as <- _. eauto.
Qed.

Lemma assembled_title self html styles sds clk tag :
  contains (title_element (str h (context_title self)))
           (assembled h self html styles sds clk tag).
Proof.
  unfold assembled, success_document, title_element.
  apply contains_around; [ends_by_computation | starts_by_computation].
Qed.

(** X15: after [update_context], every document [build_complete_html]
    assembles is titled [Vue SSR: <component name>], whatever title the
    context held before. *)
Theorem page_title_is_component_name self c st :
  located self = Some c ->
  exists self',
    update_context self st = (inr self', st)
    /\ located self' = Some c
    /\ forall html styles url sds st1 document st2,
         build_complete_html h self' html styles url sds st1
         = (inr document, st2) ->
         contains (title_element ("Vue SSR: " +:+ name c)) document.
Proof.
  intros Hc.
  exists {| path := path self; located := Some c;
            context := <["vue_file":=PyStr (filename c)]>
                         (<["path":=PyStr (path self)]>
                            (<["title":=PyStr ("Vue SSR: " +:+ name c)]>
                               (context self))) |}.
  split; [|split].
  - unfold update_context, attr. rewrite Hc. reflexivity.
  - reflexivity.
  - intros html styles url sds st1 document st2 Hb.
    apply build_returned in Hb as [tag ->].
    match goal with
    | |- contains _ (assembled h ?s _ _ _ _ _) =>
        pose proof (assembled_title s html styles sds (clock st1) tag) as Ht
    end.
    unfold context_title in Ht. cbn [context] in Ht.
    rewrite lookup_insert_ne, lookup_insert_ne, lookup_insert_eq in Ht
      by discriminate.
    exact Ht.
Qed.

(** X16: a page whose context holds no title is titled [Vue Page]. *)
Theorem page_title_defaults_to_vue_page self html styles url sds st document st' :
  context self !! "title" = None ->
  build_complete_html h self html styles url sds st = (inr document, st') ->
  contains (title_element "Vue Page") document.
Proof.
  intros Hnone Hb. apply build_returned in Hb as [tag ->].
  pose proof (assembled_title self html styles sds (clock st) tag) as Ht.
  unfold context_title in Ht. now rewrite Hnone in Ht.
Qed.

(** *** The bundle check and the directories of the URL *)

(** X17: the bundle check only looks at the last segment of the URL: a
    URL below the asset directory of the owning application, whatever
    subdirectories it names, is reported as found as soon as a file of
    that name lies directly in [public/ssr]. *)
Theorem bundle_check_ignores_subdirectories self c dirs file st :
  located self = Some c ->
  contains_char "/" file = false ->
  path_exists h (PosixPath.join (app_path c) ["public"; "ssr"; file]) = true ->
  _register_static_file h self
    ("/assets/" +:+ app c +:+ "/ssr/" +:+ dirs +:+ "/" +:+ file) st
  = (inr true,
     State (events st
            ++ [Log DEBUG ("Vue client bundle found at "
                           +:+ PosixPath.join (app_path c)
                                 ["public"; "ssr"; file])])
           (clock st)).
Proof.
  intros Hc Hfile Hexists. unfold _register_static_file, attr. rewrite Hc.
  munfold.
  set (prefix := "/assets/" +:+ app c +:+ "/ssr/").
  set (url := "/assets/" +:+ app c +:+ "/ssr/" +:+ dirs +:+ "/" +:+ file).
  assert (Hurl : url = prefix +:+ dirs +:+ "/" +:+ file).
  { unfold url, prefix. now rewrite !append_assoc. }
  assert (Hprefix : startswith url prefix = true).
  { rewrite Hurl. apply startswith_app. }
  assert (Hlast : split_last "/" url = file).
  { rewrite Hurl, <- append_assoc. now apply split_last_segment. }
  rewrite Hprefix, Hlast, Hexists. mstep. reflexivity.
Qed.


(** *** Script elements in the two documents *)

(** X18: the fixed text of the success template holds no script element
    with a [src] and cannot complete one begun in a field: the number of
    such elements in the document is the sum of their numbers in the six
    interpolated texts. *)
Theorem success_template_adds_no_script_src title styles ts html sds tag :
  occurrences "<script src" (success_document title styles ts html sds tag)
  = occurrences "<script src" title + occurrences "<script src" styles
    + occurrences "<script src" ts + occurrences "<script src" html
    + occurrences "<script src" sds + occurrences "<script src" tag.
Proof.
  unfold success_document.
  rewrite (occurrences_closed_left _ success_part0) by (vm_compute; reflexivity).
  rewrite (occurrences_closed_right _ title success_part1)
    by (vm_compute; reflexivity).
  rewrite (occurrences_closed_left _ success_part1) by (vm_compute; reflexivity).
  rewrite (occurrences_closed_right _ styles success_part2)
    by (vm_compute; reflexivity).
  rewrite (occurrences_closed_left _ success_part2) by (vm_compute; reflexivity).
  rewrite (occurrences_closed_right _ ts success_part3)
    by (vm_compute; reflexivity).
  rewrite (occurrences_closed_left _ success_part3) by (vm_compute; reflexivity).
  rewrite (occurrences_closed_right _ html success_part4)
    by (vm_compute; reflexivity).
  rewrite (occurrences_closed_left _ success_part4) by (vm_compute; reflexivity).
  rewrite (occurrences_closed_right _ sds success_part5)
    by (vm_compute; reflexivity).
  rewrite (occurrences_closed_left _ success_part5) by (vm_compute; reflexivity).
  rewrite (occurrences_closed_end _ tag success_part6)
    by (vm_compute; reflexivity).
  replace (occurrences "<script src" success_part0) with 0
    by (vm_compute; reflexivity).
  replace (occurrences "<script src" success_part1) with 0
    by (vm_compute; reflexivity).
  replace (occurrences "<script src" success_part2) with 0
    by (vm_compute; reflexivity).
  replace (occurrences "<script src" success_part3) with 0
    by (vm_compute; reflexivity).
  replace (occurrences "<script src" success_part4) with 0
    by (vm_compute; reflexivity).
  replace (occurrences "<script src" success_part5) with 0
    by (vm_compute; reflexivity).
  replace (occurrences "<script src" success_part6) with 0
    by (vm_compute; reflexivity).
  lia.
Qed.

(** X19: the fallback template holds no script element: the fallback
    document has exactly as many [<script] as the error text and the
    path it shows. *)
Theorem fallback_template_has_no_script self msg :
  occurrences "<script" (_fallback_html self msg)
  = occurrences "<script" msg
    + occurrences "<script" (show_vue_file_path self).
Proof.
  unfold _fallback_html.
  rewrite (occurrences_closed_left _ fallback_part0) by (vm_compute; reflexivity).
  rewrite (occurrences_closed_right _ msg fallback_part1)
    by (vm_compute; reflexivity).
  rewrite (occurrences_closed_left _ fallback_part1) by (vm_compute; reflexivity).
  rewrite (occurrences_closed_end _ _ fallback_part2)
    by (vm_compute; reflexivity).
  replace (occurrences "<script" fallback_part0) with 0
    by (vm_compute; reflexivity).
  replace (occurrences "<script" fallback_part1) with 0
    by (vm_compute; reflexivity).
  replace (occurrences "<script" fallback_part2) with 0
    by (vm_compute; reflexivity).
  lia.
Qed.

(** *** What the log records *)

(** X20: a non-zero exit code is recorded with the code and the text of
    the error stream by the logger, and with the text in the error
    log. *)
Theorem nonzero_exit_is_recorded self c node_cmd r st :
  located self = Some c ->
  path_exists h (renderer_path h) = true ->
  returns (get_compatible_node_command h) node_cmd ->
  ssr_outcome h c node_cmd (clock st) = Returns r ->
  returncode r <> 0%Z ->
  let text := if is_empty (stderr r) then "Node.js renderer failed"
              else stderr r in
  exists document st',
    render_vue_with_nodejs h self st = (inr document, st')
    /\ logged (Log ERROR ("Vue SSR subprocess failed with return code "
                          +:+ pretty (returncode r) +:+ ": " +:+ text)) st'
    /\ logged (LogError ("Vue SSR Error: " +:+ text) "Vue Renderer") st'.
Proof.
  intros Hc Hp Hn Hout Hrc text.
  destruct (render_body_run h self c node_cmd (entered self st) Hc Hp Hn)
    as [st1 Hbody].
  change (clock (entered self st)) with (clock st) in Hbody.
  rewrite Hout in Hbody. unfold render_result in Hbody.
  apply Z.eqb_neq in Hrc. rewrite Hrc in Hbody.
  revert Hbody. mstep. intros Hbody. apply render_body_returned in Hbody.
  eexists _, _. split; [exact Hbody|].
  unfold logged. cbn [events]. fold text. set_solver.
Qed.

Lemma script_tag_events self c v st :
  located self = Some c ->
  exists res evs,
    _generate_client_script_tag h self v st
    = (res, State (events st ++ evs) (clock st)).
Proof.
  intros Hc. unfold _generate_client_script_tag.
  destruct (truthy v).
  - cbv beta iota delta [negb].
    destruct v; try (eexists _, []; rewrite app_nil_r; destruct st; reflexivity).
    destruct (startswith s "/") eqn:Hslash.
    + destruct (register_static_file_logs h self c s st Hc)
        as (found & evs & Hreg & _).
      rewrite (bind_inr _ _ _ _ _ Hreg). eexists _, evs. reflexivity.
    + eexists _, []. rewrite app_nil_r. destruct st. reflexivity.
  - cbv beta iota delta [negb].
    eexists _, []. rewrite app_nil_r. destruct st. reflexivity.
Qed.

(** X21: every response with a true success flag has its markup written
    to the log at INFO level ([None] when the response has no [html]
    entry), together with the line that reports the successful
    rendering, whatever document is returned in the end. *)
Theorem successful_response_logs_markup self c node_cmd d st :
  located self = Some c ->
  path_exists h (renderer_path h) = true ->
  returns (get_compatible_node_command h) node_cmd ->
  ssr_success h (ssr_outcome h c node_cmd (clock st)) d ->
  exists document st',
    render_vue_with_nodejs h self st = (inr document, st')
    /\ logged (Log INFO ("Vue SSR rendering completed successfully for "
                         +:+ vue_file_path c)) st'
    /\ logged (Log INFO (str h (from_option id PyNone (d !! "html")))) st'.
Proof.
  intros Hc Hp Hn (r & Hout & Hrc & Hj & Hs).
  destruct (render_body_exit_0 self c node_cmd r st Hc Hp Hn Hout Hrc)
    as [st1 Hbody].
  unfold render_response in Hbody. rewrite Hj in Hbody.
  revert Hbody. unfold dict_get. munfold. rewrite Hs. mstep.
  unfold build_complete_html, now. mstep.
  match goal with
  | |- context [_generate_client_script_tag h self ?v ?s] =>
      destruct (script_tag_events self c v s Hc) as (res & evs & ->)
  end.
  cbn [events clock]. destruct res as [e|tag]; intros Hbody.
  - rewrite (render_raised_in_body _ _ _ _ Hbody).
    destruct (isinstance e [TimeoutExpired]) eqn:He.
    + rewrite (handler_timeout _ _ _ He). eexists _, _.
      split; [reflexivity|]. unfold logged. cbn [events]. set_solver.
    + rewrite (handler_other _ _ _ He). eexists _, _.
      split; [reflexivity|]. unfold logged. cbn [events]. set_solver.
  - apply render_body_returned in Hbody. eexists _, _.
    split; [exact Hbody|]. unfold logged. cbn [events]. set_solver.
Qed.

End WithHost.

Lemma missing_renderer_script_short_circuits_witness :
  exists st',
    render_vue_with_nodejs host_no_renderer hello_page initial
    = (inr (_fallback_html hello_page
              ("Node.js Vue SSR renderer not found at "
               +:+ renderer_path host_no_renderer)), st')
    /\ length (events st') = 2.
Proof.
  eexists. split.
  - apply (missing_renderer_script_short_circuits host_no_renderer hello_page
             hello initial); [reflexivity | vm_compute; reflexivity].
  - reflexivity.
Defined.

Ltac evaluated :=
  first [ reflexivity
        | vm_compute; reflexivity
        | eexists initial, _; vm_compute; reflexivity
        | discriminate ].

Lemma timeout_gives_timeout_page_witness :
  exists st',
    render_vue_with_nodejs host_timeout hello_page initial
    = (inr (_fallback_html hello_page "Vue SSR renderer timed out"), st').
Proof.
  destruct (timeout_gives_timeout_page host_timeout hello_page hello "node"
              (Exn TimeoutExpired "Command timed out after 30 seconds") initial)
    as (st' & H & _); try evaluated.
  exists st'. exact H.
Defined.

Lemma run_exception_is_shown_witness :
  exists st',
    render_vue_with_nodejs host_crash hello_page initial
    = (inr (_fallback_html hello_page
              "Vue SSR Exception: [Errno 12] Cannot allocate memory"), st').
Proof.
  destruct (run_exception_is_shown host_crash hello_page hello "node"
              (Exn OSError "[Errno 12] Cannot allocate memory") initial)
    as (st' & H & _); try evaluated.
  exists st'. exact H.
Defined.

Lemma undecodable_output_is_reported_witness :
  exists st',
    render_vue_with_nodejs host_garbage hello_page initial
    = (inr (_fallback_html hello_page
              "Invalid JSON response from Vue SSR: Expecting value: line 1 column 1 (char 0)"),
       st')
    /\ logged (Log ERROR "Raw stdout was: Segmentation fault") st'.
Proof.
  destruct (undecodable_output_is_reported host_garbage hello_page hello "node"
              (Completed 0 "Segmentation fault" EmptyString)
              "Expecting value: line 1 column 1 (char 0)" initial)
    as (st' & H & Hlog & _); try evaluated.
  exists st'. split; [exact H | exact Hlog].
Defined.

Lemma reported_failure_shows_partial_markup_witness :
  exists st',
    render_vue_with_nodejs host_failed hello_page initial
    = (inr (_fallback_html hello_page "<pre>partial</pre>"), st')
    /\ logged (Log ERROR "Vue SSR renderer reported failure: Template compile error")
              st'.
Proof.
  apply (reported_failure_shows_partial_markup host_failed hello_page hello
           "node" (Completed 0 failed_stdout EmptyString)
           failed_response initial); evaluated.
Defined.

Lemma non_object_response_is_absorbed_witness :
  exists st',
    render_vue_with_nodejs host_list hello_page initial
    = (inr (_fallback_html hello_page
              "Vue SSR Exception: 'list' object has no attribute 'get'"), st').
Proof.
  apply (non_object_response_is_absorbed host_list hello_page hello "node"
           (Completed 0 "[1, 2]" EmptyString) (PyList [PyInt 1; PyInt 2])
           initial); evaluated.
Defined.

Lemma non_text_bundle_url_falls_back_witness :
  exists st',
    render_vue_with_nodejs host_numeric_url hello_page initial
    = (inr (_fallback_html hello_page
              "Vue SSR Exception: 'int' object has no attribute 'startswith'"),
       st').
Proof.
  apply (non_text_bundle_url_falls_back host_numeric_url hello_page hello "node"
           (response_with_url (PyInt 5)) (PyInt 5) initial); try evaluated.
  exists (Completed 0 (stdout_with_url "5") EmptyString).
  repeat split; vm_compute; reflexivity.
Defined.

Lemma false_bundle_url_gives_placeholder_witness :
  exists clk st',
    render_vue_with_nodejs host_null_url hello_page initial
    = (inr (assembled host_null_url hello_page (PyStr "<p>hi</p>")
                      (PyStr EmptyString) (PyStr EmptyString) clk
                      no_bundle_comment), st').
Proof.
  apply (false_bundle_url_gives_placeholder host_null_url hello_page hello "node"
           (response_with_url PyNone) initial); try evaluated.
  exists (Completed 0 (stdout_with_url "null") EmptyString).
  repeat split; vm_compute; reflexivity.
Defined.

Lemma external_bundle_url_is_not_checked_witness :
  build_complete_html host_cdn hello_page (PyStr "<p>hi</p>") (PyStr EmptyString)
                      (PyStr cdn_url) (PyStr EmptyString) initial
  = (inr (assembled host_cdn hello_page (PyStr "<p>hi</p>") (PyStr EmptyString)
                    (PyStr EmptyString) 0 (script_tag cdn_url)),
     State [] 1).
Proof.
  apply (external_bundle_url_is_not_checked host_cdn hello_page
           (PyStr "<p>hi</p>") (PyStr EmptyString) "h"%char
           "ttps://cdn.example.com/app.js" (PyStr EmptyString) initial).
  reflexivity.
Defined.

Lemma local_bundle_url_is_checked_and_emitted_witness :
  _generate_client_script_tag host_bundle hello_page
                              (PyStr "/assets/app/ssr/b.js") initial
  = (inr (script_tag "/assets/app/ssr/b.js"),
     State [Log DEBUG "Vue client bundle found at /srv/bench/apps/app/app/public/ssr/b.js"]
           0)
  /\ _generate_client_script_tag host_hi hello_page (PyStr "/files/b.js") initial
    = (inr (script_tag "/files/b.js"),
       State [Log WARNING "Unrecognized static file URL pattern: /files/b.js"] 0).
Proof.
  split.
  - apply (local_bundle_url_is_checked_and_emitted host_bundle hello_page hello
             "/assets/app/ssr/b.js" initial); reflexivity.
  - apply (local_bundle_url_is_checked_and_emitted host_hi hello_page hello
             "/files/b.js" initial); reflexivity.
Defined.

Ltac each_candidate H :=
  unfold node_commands in H;
  repeat (apply elem_of_cons in H as [->|H]); [..|inversion H].

Lemma selected_runtime_has_greatest_major_witness :
  exists major version,
    "node" ∈ node_commands
    /\ reported host_hi "node" = Some (major, version)
    /\ (22 <= major)%Z
    /\ forall cmd major' version',
         cmd ∈ node_commands ->
         reported host_hi cmd = Some (major', version') ->
         (major' <= major)%Z.
Proof.
  apply (selected_runtime_has_greatest_major host_hi initial "node"
           (snd (get_compatible_node_command host_hi initial))).
  vm_compute. reflexivity.
Defined.

Lemma old_runtimes_are_not_mentioned_witness :
  exists st',
    get_compatible_node_command host_old_node initial
    = (inl (Exn ValidationError (node_required_msg [])), st')
    /\ logged (Log ERROR "No Node.js installation found on system") st'
    /\ reported host_old_node "node" = Some (16%Z, "v16.20.2").
Proof.
  destruct (old_runtimes_are_not_mentioned host_old_node initial)
    as (st' & H & Hlog).
  - intros cmd Hcmd. each_candidate Hcmd;
      vm_compute; first [exact I | reflexivity].
  - intros cmd major version Hcmd Hr. each_candidate Hcmd;
      vm_compute in Hr; try discriminate.
    injection Hr as <- _. lia.
  - exists st'. repeat split; [exact H | exact Hlog].
Defined.

Lemma latest_installed_app_wins_witness :
  isfile host_two_apps (candidate_path host_two_apps "hello" "app") = true
  /\ exists self st',
       init host_two_apps "hello" ∅ initial = (inr self, st')
       /\ located self
          = Some (component_of host_two_apps "hello" "blog"
                               "<template>blog</template>")
       /\ vue_component_content
            (component_of host_two_apps "hello" "blog" "<template>blog</template>")
          = "<template>blog</template>".
Proof.
  split; [vm_compute; reflexivity|].
  apply (latest_installed_app_wins host_two_apps "hello" ∅ initial
           ["frappe"; "app"] "blog" [] "<template>blog</template>").
  - reflexivity.
  - vm_compute. reflexivity.
  - intros other Hother. inversion Hother.
Defined.

Lemma component_name_is_last_path_segment_witness :
  filename hello = "hello.vue" /\ name hello = "hello".
Proof.
  apply (component_name_is_last_path_segment host_hi "hello" ∅ initial
           untitled_page (snd (init host_hi "hello" ∅ initial)) hello).
  - vm_compute. reflexivity.
  - reflexivity.
Defined.

Lemma page_title_is_component_name_witness :
  exists self',
    update_context untitled_page initial = (inr self', initial)
    /\ located self' = Some hello
    /\ forall html styles url sds st1 document st2,
         build_complete_html host_hi self' html styles url sds st1
         = (inr document, st2) ->
         contains (title_element "Vue SSR: hello") document.
Proof.
  apply (page_title_is_component_name host_hi untitled_page hello initial).
  reflexivity.
Defined.

Lemma page_title_defaults_to_vue_page_witness :
  contains (title_element "Vue Page")
           (assembled host_hi untitled_page (PyStr "<p>hi</p>")
                      (PyStr EmptyString) (PyStr EmptyString) 0
                      no_bundle_comment).
Proof.
  apply (page_title_defaults_to_vue_page host_hi untitled_page
           (PyStr "<p>hi</p>") (PyStr EmptyString) (PyStr EmptyString)
           (PyStr EmptyString) initial _ (State [] 1)); reflexivity.
Defined.

Lemma bundle_check_ignores_subdirectories_witness :
  _register_static_file host_bundle hello_page "/assets/app/ssr/v2/min/b.js"
                        initial
  = (inr true,
     State [Log DEBUG "Vue client bundle found at /srv/bench/apps/app/app/public/ssr/b.js"]
           0)
  /\ path_exists host_bundle "/srv/bench/apps/app/app/public/ssr/v2/min/b.js"
     = false.
Proof.
  split; [|vm_compute; reflexivity].
  apply (bundle_check_ignores_subdirectories host_bundle hello_page hello
           "v2/min" "b.js" initial); reflexivity.
Defined.

Lemma nonzero_exit_is_recorded_witness :
  exists document st',
    render_vue_with_nodejs host_boom hello_page initial = (inr document, st')
    /\ logged (Log ERROR "Vue SSR subprocess failed with return code 1: boom") st'
    /\ logged (LogError "Vue SSR Error: boom" "Vue Renderer") st'.
Proof.
  apply (nonzero_exit_is_recorded host_boom hello_page hello "node"
           (Completed 1 "ignored" "boom") initial); evaluated.
Defined.

Lemma successful_response_logs_markup_witness :
  exists document st',
    render_vue_with_nodejs host_hi hello_page initial = (inr document, st')
    /\ logged (Log INFO "Vue SSR rendering completed successfully for /srv/bench/apps/app/app/www/hello.vue") st'
    /\ logged (Log INFO "<p>hi</p>") st'.
Proof.
  apply (successful_response_logs_markup host_hi hello_page hello "node"
           hi_response initial); try evaluated.
  exists (Completed 0 hi_stdout EmptyString).
  repeat split; vm_compute; reflexivity.
Defined.

End RendererExtras.
